(** * txAdmin telemetry core: liveness monitor and performance collector

    A shallow embedding of [Stopwatch] / [HealthEventMonitor] (health monitor
    utilities) and of [PerformanceCollector], followed by the properties of
    the specification that are settled against them.

    Conventions.
    - [Date.now()] is an explicit argument [now : Z], in milliseconds.  A
      call that reads the clock more than once has a second definition that
      takes every reading apart ([markHealthyAt], [statusAt]); the one with
      a single [now] is the case where all its readings agree.
    - A JavaScript [number] that holds a count or a timestamp is a [Z]; one
      that holds a fraction (frequencies, memory sizes) is an exact rational
      [Qc]; a division whose divisor is zero gives a non-finite number, which
      is [None] in the one place where the code can divide by zero.
    - [undefined] / [null] are [None].
    - Every public operation is one atomic step (the single-writer discipline
      of the event loop): an operation and the save it starts are finished
      before the next operation begins. *)

From Stdlib Require Import ZArith List Bool String Lia QArith Qround Qcanon.
Import ListNotations.

Local Open Scope Z_scope.

(** Seconds as the stopwatch reports them: a whole number or [Infinity]. *)
Inductive Secs : Type :=
| Finite (n : Z)
| Infinity.

(** A JavaScript [number] handed in as a threshold: a finite value (every
    double is a rational), an infinity, or [NaN]. *)
Inductive JsNumber : Type :=
| Num (q : Q)
| PlusInfinity
| MinusInfinity
| NaN.

(** ** Stopwatch *)
Module Stopwatch.

Record t : Type := mk {
  autoStart : bool;
  tsStart : option Z
}.

(** [restart()] *)
Definition restart (now : Z) (sw : t) : t :=
  {| autoStart := autoStart sw; tsStart := Some now |}.

(** [constructor(autoStart?)] *)
Definition new (auto : bool) (now : Z) : t :=
  if auto
  then restart now {| autoStart := true; tsStart := None |}
  else {| autoStart := false; tsStart := None |}.

(** [reset()] *)
Definition reset (now : Z) (sw : t) : t :=
  if autoStart sw
  then restart now sw
  else {| autoStart := autoStart sw; tsStart := None |}.

(** [get started] *)
Definition started (sw : t) : bool :=
  match tsStart sw with
  | None => false
  | Some _ => true
  end.

(** [get elapsed]: [Math.floor(elapsedMs / 1000)] is [Z.div]. *)
Definition elapsed (now : Z) (sw : t) : Secs :=
  match tsStart sw with
  | None => Infinity
  | Some ts => Finite ((now - ts) / 1000)
  end.

(** [isOver(secs)] for a whole number [secs]. *)
Definition isOver (now : Z) (sw : t) (secs : Z) : bool :=
  match elapsed now sw with
  | Infinity => false
  | Finite e => secs <=? e
  end.

(** [isOver(secs)] for any number [secs]: [elapsed >= secs] compares the
    whole seconds elapsed with [secs], and is false when [secs] is [NaN]. *)
Definition isOverNumber (now : Z) (sw : t) (secs : JsNumber) : bool :=
  match elapsed now sw with
  | Infinity => false
  | Finite e =>
      match secs with
      | Num q => Qle_bool q (inject_Z e)
      | MinusInfinity => true
      | PlusInfinity => false
      | NaN => false
      end
  end.

End Stopwatch.

(** ** MonitorState and HealthEventMonitor *)
Inductive MonitorState : Type := PENDING | HEALTHY | DELAYED | FATAL.

Module HealthEventMonitor.

Record t : Type := mk {
  swLastHealthyEvent : Stopwatch.t;
  firstHealthyEvent : option Z;
  delayLimit : Z;
  fatalLimit : Z
}.

Record Status : Type := mkStatus {
  state : MonitorState;
  secsSinceLast : Secs;
  secsSinceFirst : Secs
}.

(** [constructor(delayLimit, fatalLimit)]; the stopwatch is built without
    auto start. *)
Definition new (now : Z) (delay fatal : Z) : t :=
  {| swLastHealthyEvent := Stopwatch.new false now;
     firstHealthyEvent := None;
     delayLimit := delay;
     fatalLimit := fatal |}.

(** [reset()] *)
Definition reset (now : Z) (m : t) : t :=
  {| swLastHealthyEvent := Stopwatch.reset now (swLastHealthyEvent m);
     firstHealthyEvent := None;
     delayLimit := delayLimit m;
     fatalLimit := fatalLimit m |}.

(** [markHealthy()] with its clock readings kept apart: [restart()] reads
    the clock first, and [??= Date.now()] reads it again, only when the
    field is [undefined]. *)
Definition markHealthyAt (tRestart tFirst : Z) (m : t) : t :=
  {| swLastHealthyEvent := Stopwatch.restart tRestart (swLastHealthyEvent m);
     firstHealthyEvent :=
       match firstHealthyEvent m with
       | None => Some tFirst
       | Some ts => Some ts
       end;
     delayLimit := delayLimit m;
     fatalLimit := fatalLimit m |}.

(** [markHealthy()] when both readings give the same [now]. *)
Definition markHealthy (now : Z) (m : t) : t :=
  {| swLastHealthyEvent := Stopwatch.restart now (swLastHealthyEvent m);
     firstHealthyEvent :=
       match firstHealthyEvent m with
       | None => Some now
       | Some ts => Some ts
       end;
     delayLimit := delayLimit m;
     fatalLimit := fatalLimit m |}.

(** [get status] with its clock readings kept apart: each [isOver] reads
    the clock, then [elapsed], then the expression for [secsSinceFirst].
    The test [this.firstHealthyEvent ? ... : Infinity] is a truthiness test:
    [undefined] and the number [0] both take the [Infinity] branch. *)
Definition statusAt (tFatal tDelay tLast tFirst : Z) (m : t) : Status :=
  let sw := swLastHealthyEvent m in
  {| state :=
       if negb (Stopwatch.started sw) then PENDING
       else if Stopwatch.isOver tFatal sw (fatalLimit m) then FATAL
       else if Stopwatch.isOver tDelay sw (delayLimit m) then DELAYED
       else HEALTHY;
     secsSinceLast := Stopwatch.elapsed tLast sw;
     secsSinceFirst :=
       match firstHealthyEvent m with
       | None => Infinity
       | Some ts => if ts =? 0 then Infinity else Finite ((tFirst - ts) / 1000)
       end |}.

(** [get status] when all its readings give the same [now]. *)
Definition status (now : Z) (m : t) : Status :=
  let sw := swLastHealthyEvent m in
  {| state :=
       if negb (Stopwatch.started sw) then PENDING
       else if Stopwatch.isOver now sw (fatalLimit m) then FATAL
       else if Stopwatch.isOver now sw (delayLimit m) then DELAYED
       else HEALTHY;
     secsSinceLast := Stopwatch.elapsed now sw;
     secsSinceFirst :=
       match firstHealthyEvent m with
       | None => Infinity
       | Some ts => if ts =? 0 then Infinity else Finite ((now - ts) / 1000)
       end |}.

(** The calls a client can make, each with the clock reading at the call. *)
Inductive Call : Type :=
| MarkHealthy (now : Z)
| Reset (now : Z).

Definition callTime (c : Call) : Z :=
  match c with
  | MarkHealthy now => now
  | Reset now => now
  end.

Definition call (m : t) (c : Call) : t :=
  match c with
  | MarkHealthy now => markHealthy now m
  | Reset now => reset now m
  end.

(** The monitor after a history of calls, oldest first. *)
Definition run (m : t) (calls : list Call) : t := fold_left call calls m.

(** What the history says, independently of the fields: reading the
    history from its newest call backwards, the clock readings of the
    [markHealthy()] calls met before the first [reset()]. *)
Fixpoint marksUntilReset (newestFirst : list Call) : list Z :=
  match newestFirst with
  | [] => []
  | Reset _ :: _ => []
  | MarkHealthy now :: older => now :: marksUntilReset older
  end.

(** The [markHealthy()] calls since construction or the last [reset()],
    oldest first. *)
Definition marksSinceReset (calls : list Call) : list Z :=
  rev (marksUntilReset (rev calls)).

(** The calls with every clock reading of their own: [markHealthy()] with
    the reading of [restart()] and the reading of [??=]. *)
Inductive TimedCall : Type :=
| MarkHealthyAt (tRestart tFirst : Z)
| ResetAt (now : Z).

(** The clock readings a call takes, in order.  The stopwatch of a monitor
    is not auto-started, so its [reset()] reads no clock. *)
Definition readings (c : TimedCall) : list Z :=
  match c with
  | MarkHealthyAt tRestart tFirst => [tRestart; tFirst]
  | ResetAt _ => []
  end.

Definition timedCall (m : t) (c : TimedCall) : t :=
  match c with
  | MarkHealthyAt tRestart tFirst => markHealthyAt tRestart tFirst m
  | ResetAt now => reset now m
  end.

Definition runTimed (m : t) (calls : list TimedCall) : t := fold_left timedCall calls m.

Fixpoint timedMarksUntilReset (newestFirst : list TimedCall) : list (Z * Z) :=
  match newestFirst with
  | [] => []
  | ResetAt _ :: _ => []
  | MarkHealthyAt tRestart tFirst :: older =>
      (tRestart, tFirst) :: timedMarksUntilReset older
  end.

(** The two readings of each [markHealthy()] since construction or the last
    [reset()], oldest first. *)
Definition timedMarksSinceReset (calls : list TimedCall) : list (Z * Z) :=
  rev (timedMarksUntilReset (rev calls)).

(** The time between the two readings of a [markHealthy()] that is the only
    one since construction or the last [reset()]; zero in any other
    history. *)
Definition firstMarkGap (calls : list TimedCall) : Z :=
  match timedMarksSinceReset calls with
  | [(tRestart, tFirst)] => tFirst - tRestart
  | _ => 0
  end.

End HealthEventMonitor.

(** ** Performance data *)

(** Raw tick counters of one thread (perfSchemas is not part of the sources;
    the shape is the one the specification gives: a total [count] and
    per-bucket counts). *)
Module Counts.
Record t : Type := mk {
  count : Z;
  buckets : list Z
}.
End Counts.

(** Histogram of one thread: the tick count and per-bucket frequencies. *)
Module Hist.
Record t : Type := mk {
  count : Z;
  freqs : list Qc
}.
End Hist.

(** The three tracked threads. *)
Record PerThread (A : Type) : Type := mkPerThread {
  svMain : A;
  svNetwork : A;
  svSync : A
}.
Arguments mkPerThread {A} _ _ _.
Arguments svMain {A} _.
Arguments svNetwork {A} _.
Arguments svSync {A} _.

Definition SSPerfCountsType : Type := PerThread Counts.t.
Definition SSPerfHistType : Type := PerThread Hist.t.

(** Bucket boundaries are only ever compared through [JSON.stringify]; each
    edge is kept as its JSON text, so that comparison is list equality. *)
Definition SSPerfBoundariesType : Type := list string.

Definition boundaries_eqb (a b : SSPerfBoundariesType) : bool :=
  if list_eq_dec string_dec a b then true else false.

(** Entries of the stats log, discriminated by [type]. *)
Inductive SSLogEntry : Type :=
| svBoot (ts : Z) (bootTime : Z)
| svClose (ts : Z) (reason : string)
| data (ts : Z) (players : Z) (fxsMemory : option Qc)
       (nodeMemory : option Qc) (perf : SSPerfHistType).

Definition SSLogType : Type := list SSLogEntry.

Definition ts_of (e : SSLogEntry) : Z :=
  match e with
  | svBoot ts _ => ts
  | svClose ts _ => ts
  | data ts _ _ _ _ => ts
  end.

Definition isBoot (e : SSLogEntry) : bool :=
  match e with svBoot _ _ => true | _ => false end.

Definition isClose (e : SSLogEntry) : bool :=
  match e with svClose _ _ => true | _ => false end.

(** [isSSLogDataType] *)
Definition isSSLogDataType (e : SSLogEntry) : bool :=
  match e with data _ _ _ _ _ => true | _ => false end.

(** The document handed to [fsp.writeFile]. *)
Record SSFileType : Type := mkFile {
  version : Z;
  file_lastPerfBoundaries : option SSPerfBoundariesType;
  file_log : SSLogType
}.

Definition STATS_DATA_FILE_VERSION : Z := 1.

Definition megabyte : Z := 1024 * 1024.

(** [LogNodeHeapEventType] *)
Record LogNodeHeapEventType : Type := mkHeapEvent {
  heapUsed : Z;
  heapTotal : Z
}.

Record NodeMemory : Type := mkNodeMemory {
  used : Qc;
  total : Qc
}.

Record PerfSaved : Type := mkPerfSaved {
  saved_ts : Z;
  saved_counts : SSPerfCountsType
}.

(** What the collector imports from modules that are not part of the
    sources: the constants of statsConfigs, the log optimizer (which works in
    place on the array it is given, so it is a function from the log before
    to the log after), the schema check of perfSchemas, and [median] of
    d3-array. *)
Class Imports : Type := mkImports {
  PERF_DATA_BUCKET_COUNT : nat;
  PERF_DATA_INITIAL_RESOLUTION : Z;
  PERF_DATA_MIN_TICKS : Z;
  optimizeStatsLog : SSLogType -> SSLogType;
  LogNodeHeapEventSchema : LogNodeHeapEventType -> bool;
  median : list (option Qc) -> option Qc
}.

Definition Z2Qc (z : Z) : Qc := Q2Qc (inject_Z z).

(** [parseFloat(x.toFixed(2))]: the nearest multiple of 1/100; [toFixed]
    rounds the magnitude and puts the sign back, so a tie goes away from
    zero. *)
Definition toFixed2 (x : Qc) : Qc :=
  let nearest := fun y : Qc => Qfloor (y * Z2Qc 100 + Q2Qc (1 # 2))%Qc in
  match (x ?= 0)%Qc with
  | Lt => Q2Qc (Qmake (- nearest (- x)%Qc) 100)
  | _ => Q2Qc (Qmake (nearest x) 100)
  end.

(** [array.at(-1)] *)
Definition at_last {A : Type} (l : list A) : option A :=
  match rev l with
  | [] => None
  | x :: _ => Some x
  end.

(** [array.pop()] is [removelast]; [array.push(x)] is [l ++ [x]]. *)
Definition push {A : Type} (l : list A) (x : A) : list A := l ++ [x].

Fixpoint zipWith {A B C : Type} (f : A -> B -> C) (l : list A) (r : list B) : list C :=
  match l, r with
  | a :: l', b :: r' => f a b :: zipWith f l' r'
  | _, _ => []
  end.

(** ** perfUtils *)

(** Modelled from the spec: [diffPerfs] of perfUtils is missing from the
    sources.  "if prev undefined, returns curr unchanged; else returns count:
    curr.count - prev.count, buckets: elementwise curr.buckets -
    prev.buckets", for each of the three threads. *)
Definition diffCounts (curr prev : Counts.t) : Counts.t :=
  {| Counts.count := Counts.count curr - Counts.count prev;
     Counts.buckets := zipWith Z.sub (Counts.buckets curr) (Counts.buckets prev) |}.

Definition diffPerfs (curr : SSPerfCountsType) (prev : option SSPerfCountsType)
  : SSPerfCountsType :=
  match prev with
  | None => curr
  | Some p =>
      {| svMain := diffCounts (svMain curr) (svMain p);
         svNetwork := diffCounts (svNetwork curr) (svNetwork p);
         svSync := diffCounts (svSync curr) (svSync p) |}
  end.

(** Modelled from the spec: [perfCountsToHist] of perfUtils is missing from
    the sources.  "returns count, freqs[i] = buckets[i] / count for each
    bucket i; if count == 0, all frequencies are defined as 0". *)
Definition countsToHist (c : Counts.t) : Hist.t :=
  {| Hist.count := Counts.count c;
     Hist.freqs :=
       if Counts.count c =? 0
       then map (fun _ => Z2Qc 0) (Counts.buckets c)
       else map (fun b => (Z2Qc b / Z2Qc (Counts.count c))%Qc) (Counts.buckets c) |}.

Definition perfCountsToHist (c : SSPerfCountsType) : SSPerfHistType :=
  {| svMain := countsToHist (svMain c);
     svNetwork := countsToHist (svNetwork c);
     svSync := countsToHist (svSync c) |}.

(** ** PerformanceCollector *)

(** The fields of the class, and the file system as the collector sees it:
    [written] lists the documents handed to [fsp.writeFile], newest first. *)
Record PerformanceCollector : Type := mkCollector {
  statsLog : SSLogType;
  lastFxsMemory : option Qc;
  lastNodeMemory : option NodeMemory;
  lastPerfBoundaries : option SSPerfBoundariesType;
  lastPerfCounts : option SSPerfCountsType;
  lastPerfSaved : option PerfSaved;
  written : list SSFileType
}.

Definition set_statsLog (l : SSLogType) (s : PerformanceCollector) :=
  mkCollector l (lastFxsMemory s) (lastNodeMemory s) (lastPerfBoundaries s)
              (lastPerfCounts s) (lastPerfSaved s) (written s).

Definition set_lastFxsMemory (v : option Qc) (s : PerformanceCollector) :=
  mkCollector (statsLog s) v (lastNodeMemory s) (lastPerfBoundaries s)
              (lastPerfCounts s) (lastPerfSaved s) (written s).

Definition set_lastNodeMemory (v : option NodeMemory) (s : PerformanceCollector) :=
  mkCollector (statsLog s) (lastFxsMemory s) v (lastPerfBoundaries s)
              (lastPerfCounts s) (lastPerfSaved s) (written s).

Definition set_lastPerfBoundaries (v : option SSPerfBoundariesType)
  (s : PerformanceCollector) :=
  mkCollector (statsLog s) (lastFxsMemory s) (lastNodeMemory s) v
              (lastPerfCounts s) (lastPerfSaved s) (written s).

Definition set_lastPerfCounts (v : option SSPerfCountsType) (s : PerformanceCollector) :=
  mkCollector (statsLog s) (lastFxsMemory s) (lastNodeMemory s) (lastPerfBoundaries s)
              v (lastPerfSaved s) (written s).

Definition set_lastPerfSaved (v : option PerfSaved) (s : PerformanceCollector) :=
  mkCollector (statsLog s) (lastFxsMemory s) (lastNodeMemory s) (lastPerfBoundaries s)
              (lastPerfCounts s) v (written s).

Definition set_written (v : list SSFileType) (s : PerformanceCollector) :=
  mkCollector (statsLog s) (lastFxsMemory s) (lastNodeMemory s) (lastPerfBoundaries s)
              (lastPerfCounts s) (lastPerfSaved s) v.

(** The collector as the field initialisers leave it (no history file). *)
Definition initial : PerformanceCollector :=
  mkCollector [] None None None None None [].

(** [resetPerfState()] *)
Definition resetPerfState (s : PerformanceCollector) : PerformanceCollector :=
  set_lastPerfSaved None (set_lastPerfCounts None s).

(** [resetMemoryState()] *)
Definition resetMemoryState (s : PerformanceCollector) : PerformanceCollector :=
  set_lastFxsMemory None (set_lastNodeMemory None s).

(** What [getRecentStats()] returns; the join/leave tally belongs to the
    player list manager and is passed in. *)
Record RecentStats (T : Type) : Type := mkRecentStats {
  joinLeaveTally30m : T;
  recent_fxsMemory : option Qc;
  recent_nodeMemory : option NodeMemory;
  recent_perf : option SSPerfHistType
}.

Arguments mkRecentStats {T} _ _ _ _.
Arguments joinLeaveTally30m {T} _.
Arguments recent_fxsMemory {T} _.
Arguments recent_nodeMemory {T} _.
Arguments recent_perf {T} _.

(** Outcome of [Promise.allSettled] for one promise. *)
Inductive Settled (A : Type) : Type :=
| fulfilled (value : A)
| rejected (reason : string).
Arguments fulfilled {A} _.
Arguments rejected {A} _.

(** What [fetchRawPerfData] resolves to. *)
Record RawPerfData : Type := mkRawPerfData {
  perfBoundaries : SSPerfBoundariesType;
  perfMetrics : SSPerfCountsType
}.

(** Everything one [collectStats()] cycle reads from outside the collector:
    the collaborators of txAdmin, the two fetches and the clock. *)
Record Cycle : Type := mkCycle {
  fxChild : bool;                       (* fxRunner.fxChild !== null *)
  playerlistManager : bool;             (* playerlistManager !== null *)
  currentStatus : string;               (* healthMonitor.currentStatus *)
  fxServerHost : option string;         (* None: not a string *)
  fetchRawPerfDataRes : Settled RawPerfData;
  fetchFxsMemoryRes : Settled (option Qc);
  cycle_now : Z;                        (* Date.now() *)
  onlineCount : Z
}.

(** What [collectStats()] can throw: its own error about the host, or the
    reason of the rejected counter fetch. *)
Inductive Exception : Type :=
| InvalidFxServerHost (host : option string)
| FetchRejected (reason : string).

(** How the call ends: it returns, or it throws to the caller. *)
Inductive Completion : Type :=
| Returned
| Thrown (error : Exception).

(** The variables the scan loop updates. *)
Record Scan : Type := mkScan {
  cumBuckets : list Qc;
  cumTicks : Qc;
  totalSnapshots : nat;
  scan_players : list (option Qc);
  scan_fxsMemory : list (option Qc);
  scan_nodeMemory : list (option Qc)
}.

(** What [getServerPerfSummary()] returns when it has enough data. *)
Record PerfSummary : Type := mkSummary {
  snaps : nat;
  sum_freqs : list (option Qc);
  sum_players : option Qc;
  sum_fxsMemory : option Qc;
  sum_nodeMemory : option Qc
}.

Section Collector.
Context {imports : Imports}.

(** [saveStatsHistory()]: the optimizer rewrites the log array in place,
    then the document is written.  A failing write is caught and logged and
    changes nothing else. *)
Definition saveStatsHistory (s : PerformanceCollector) : PerformanceCollector :=
  let s1 := set_statsLog (optimizeStatsLog (statsLog s)) s in
  let savePerfData :=
    {| version := STATS_DATA_FILE_VERSION;
       file_lastPerfBoundaries := lastPerfBoundaries s1;
       file_log := statsLog s1 |} in
  set_written (savePerfData :: written s1) s1.

(** [logServerBoot(bootTime)] *)
Definition logServerBoot (now : Z) (bootTime : Z) (s : PerformanceCollector)
  : PerformanceCollector :=
  let s1 := resetMemoryState (resetPerfState s) in
  let s2 :=
    match at_last (statsLog s1) with
    | Some (svBoot _ _) => set_statsLog (removelast (statsLog s1)) s1
    | _ => s1
    end in
  let s3 := set_statsLog (push (statsLog s2) (svBoot now bootTime)) s2 in
  saveStatsHistory s3.

(** [logServerClose(reason)] *)
Definition logServerClose (now : Z) (reason : string) (s : PerformanceCollector)
  : PerformanceCollector :=
  let s1 := resetMemoryState (resetPerfState s) in
  match at_last (statsLog s1) with
  | Some (svClose _ _) => s1
  | Some (svBoot _ _) => set_statsLog (removelast (statsLog s1)) s1
  | _ =>
      let s2 := set_statsLog (push (statsLog s1) (svClose now reason)) s1 in
      saveStatsHistory s2
  end.

(** [logServerNodeMemory(payload)] *)
Definition logServerNodeMemory (payload : LogNodeHeapEventType)
  (s : PerformanceCollector) : PerformanceCollector :=
  if negb (LogNodeHeapEventSchema payload) then s
  else set_lastNodeMemory
         (Some {| used := toFixed2 (Z2Qc (heapUsed payload) / Z2Qc megabyte)%Qc;
                  total := toFixed2 (Z2Qc (heapTotal payload) / Z2Qc megabyte)%Qc |})
         s.

(** [getRecentStats()] *)
Definition getRecentStats {T : Type} (joinLeaveTally : T) (s : PerformanceCollector)
  : RecentStats T :=
  {| joinLeaveTally30m := joinLeaveTally;
     recent_fxsMemory := lastFxsMemory s;
     recent_nodeMemory := lastNodeMemory s;
     recent_perf :=
       match lastPerfCounts s with
       | Some c => Some (perfCountsToHist c)
       | None => None
       end |}.

(** *** collectStats *)

(** "Check if first collection, boundaries changed" *)
Definition checkBoundaries (fetched : SSPerfBoundariesType) (s : PerformanceCollector)
  : PerformanceCollector :=
  match lastPerfCounts s, lastPerfSaved s, lastPerfBoundaries s with
  | Some _, Some _, Some known =>
      if negb (boundaries_eqb fetched known)
      then resetPerfState
             (set_lastPerfBoundaries (Some fetched) (set_statsLog [] s))
      else s
  | _, _, _ =>
      resetPerfState (set_lastPerfBoundaries (Some fetched) s)
  end.

(** "Checking if the counter (somehow) reset" *)
Definition countsAbove (metrics : SSPerfCountsType) (cached : option SSPerfCountsType)
  : bool :=
  match cached with
  | Some c => Counts.count (svMain metrics) <? Counts.count (svMain c)
  | None => false
  end.

Definition checkCounterReset (metrics : SSPerfCountsType) (s : PerformanceCollector)
  : PerformanceCollector :=
  if countsAbove metrics (lastPerfCounts s) then resetPerfState s
  else if countsAbove metrics (option_map saved_counts (lastPerfSaved s))
       then set_lastPerfSaved None s
       else s.

(** The histogram chosen for saving, if any: "Check if enough time passed
    since last collection". *)
Definition perfHistToSave (now : Z) (metrics : SSPerfCountsType)
  (latestPerfHist : SSPerfHistType) (saved : option PerfSaved)
  : option SSPerfHistType :=
  match saved with
  | None => Some latestPerfHist
  | Some sv =>
      if PERF_DATA_INITIAL_RESOLUTION <=? now - saved_ts sv
      then Some (perfCountsToHist (diffPerfs metrics (Some (saved_counts sv))))
      else None
  end.

(** From "Calculate the tick/time counts since last collection" to the end of
    the function. *)
Definition updateAndSave (now : Z) (players : Z) (metrics : SSPerfCountsType)
  (s : PerformanceCollector) : PerformanceCollector :=
  let latestPerfHist := perfCountsToHist (diffPerfs metrics (lastPerfCounts s)) in
  let s1 := set_lastPerfCounts (Some metrics) s in
  match perfHistToSave now metrics latestPerfHist (lastPerfSaved s1) with
  | None => s1
  | Some hist =>
      let s2 := set_lastPerfSaved (Some {| saved_ts := now; saved_counts := metrics |}) s1 in
      let currSnapshot :=
        data now players (lastFxsMemory s2) (option_map used (lastNodeMemory s2)) hist in
      saveStatsHistory (set_statsLog (push (statsLog s2) currSnapshot) s2)
  end.

(** "Check for min tick count" *)
Definition notEnoughTicks (metrics : SSPerfCountsType) : bool :=
  (Counts.count (svMain metrics) <? PERF_DATA_MIN_TICKS)
  || (Counts.count (svNetwork metrics) <? PERF_DATA_MIN_TICKS)
  || (Counts.count (svSync metrics) <? PERF_DATA_MIN_TICKS).

(** The three precondition checks at the top of [collectStats()]. *)
Definition preconditionsHold (c : Cycle) : bool :=
  fxChild c && playerlistManager c && String.eqb (currentStatus c) "ONLINE".

Definition validHost (h : option string) : bool :=
  match h with
  | Some host => negb (String.eqb host "")
  | None => false
  end.

(** [collectStats()] *)
Definition collectStats (c : Cycle) (s : PerformanceCollector)
  : PerformanceCollector * Completion :=
  if negb (preconditionsHold c) then (s, Returned)
  else if negb (validHost (fxServerHost c))
       then (s, Thrown (InvalidFxServerHost (fxServerHost c)))
  else
    let s1 :=
      match fetchFxsMemoryRes c with
      | fulfilled value => set_lastFxsMemory value s
      | rejected _ => s
      end in
    match fetchRawPerfDataRes c with
    | rejected reason => (s1, Thrown (FetchRejected reason))
    | fulfilled raw =>
        if notEnoughTicks (perfMetrics raw) then (s1, Returned)
        else
          let s2 := checkBoundaries (perfBoundaries raw) s1 in
          let s3 := checkCounterReset (perfMetrics raw) s2 in
          (updateAndSave (cycle_now c) (onlineCount c) (perfMetrics raw) s3, Returned)
    end.

(** *** getServerPerfSummary *)

(** [a / b] on numbers: a zero divisor gives [NaN] or an infinity, which is
    [None] here. *)
Definition fdiv (a b : Qc) : option Qc :=
  if Qc_eq_dec b 0%Qc then None else Some (a / b)%Qc.

(** [arr[i] += x] *)
Fixpoint addAt (i : nat) (x : Qc) (arr : list Qc) {struct arr} : list Qc :=
  match arr, i with
  | [], _ => []
  | a :: rest, O => (a + x)%Qc :: rest
  | a :: rest, S j => a :: addAt j x rest
  end.

(** Body of the inner loop, for one bucket index.  A log entry read from the
    history file has one frequency per bucket (the schema of perfSchemas);
    [nth] is only ever evaluated inside that range. *)
Definition addBucket (h : Hist.t) (acc : Scan) (bIndex : nat) : Scan :=
  let tickCount := (nth bIndex (Hist.freqs h) 0 * Z2Qc (Hist.count h))%Qc in
  mkScan (addAt bIndex tickCount (cumBuckets acc))
         (cumTicks acc + tickCount)%Qc
         (totalSnapshots acc) (scan_players acc) (scan_fxsMemory acc)
         (scan_nodeMemory acc).

(** Body of the outer loop, for one log entry. *)
Definition scanEntry (tsScanWindowStart : Z) (acc : Scan) (log : SSLogEntry) : Scan :=
  if ts_of log <? tsScanWindowStart then acc
  else
    match log with
    | data _ players fxsMemory nodeMemory perf =>
        if Hist.count (svMain perf) <? PERF_DATA_MIN_TICKS then acc
        else
          fold_left (addBucket (svMain perf)) (seq 0 PERF_DATA_BUCKET_COUNT)
            (mkScan (cumBuckets acc) (cumTicks acc) (S (totalSnapshots acc))
                    (push (scan_players acc) (Some (Z2Qc players)))
                    (push (scan_fxsMemory acc) fxsMemory)
                    (push (scan_nodeMemory acc) nodeMemory))
    | _ => acc
    end.

Definition minSnapshots : nat := 36.

Definition scanWindow : Z := 6 * 60 * 60 * 1000.

(** [getServerPerfSummary()] *)
Definition getServerPerfSummary (now : Z) (s : PerformanceCollector)
  : option PerfSummary :=
  let tsScanWindowStart := now - scanWindow in
  let start :=
    mkScan (repeat 0%Qc PERF_DATA_BUCKET_COUNT) 0%Qc 0%nat [] [] [] in
  let acc := fold_left (scanEntry tsScanWindowStart) (statsLog s) start in
  if (totalSnapshots acc <? minSnapshots)%nat then None
  else
    Some {| snaps := totalSnapshots acc;
            sum_freqs := map (fun cumAvg => fdiv cumAvg (cumTicks acc)) (cumBuckets acc);
            sum_players := median (scan_players acc);
            sum_fxsMemory := median (scan_fxsMemory acc);
            sum_nodeMemory := median (scan_nodeMemory acc) |}.

(** *** The summary as the specification words it *)

(** A qualifying snapshot: a data entry of the last six hours whose main
    thread has at least the minimum number of ticks. *)
Definition qualifies (now : Z) (e : SSLogEntry) : bool :=
  match e with
  | data ts _ _ _ perf =>
      (now - scanWindow <=? ts) && (PERF_DATA_MIN_TICKS <=? Hist.count (svMain perf))
  | _ => false
  end.

Definition qualifying (now : Z) (log : SSLogType) : SSLogType :=
  filter (qualifies now) log.

(** The absolute tick count of bucket [i] in one snapshot: [freq * count]. *)
Definition ticksOf (i : nat) (e : SSLogEntry) : Qc :=
  match e with
  | data _ _ _ _ perf =>
      (nth i (Hist.freqs (svMain perf)) 0 * Z2Qc (Hist.count (svMain perf)))%Qc
  | _ => 0%Qc
  end.

Definition sumQc (l : list Qc) : Qc := fold_right Qcplus 0%Qc l.

(** Ticks of bucket [i] summed across snapshots. *)
Definition bucketTicks (i : nat) (q : SSLogType) : Qc := sumQc (map (ticksOf i) q).

(** Ticks of all buckets of all snapshots. *)
Definition totalTicks (q : SSLogType) : Qc :=
  sumQc (map (fun i => bucketTicks i q) (seq 0 PERF_DATA_BUCKET_COUNT)).

Definition players_of (e : SSLogEntry) : option Qc :=
  match e with data _ players _ _ _ => Some (Z2Qc players) | _ => None end.

Definition fxsMemory_of (e : SSLogEntry) : option Qc :=
  match e with data _ _ fxsMemory _ _ => fxsMemory | _ => None end.

Definition nodeMemory_of (e : SSLogEntry) : option Qc :=
  match e with data _ _ _ nodeMemory _ => nodeMemory | _ => None end.

(** The unweighted alternative the specification rules out: the plain mean of
    the snapshots' frequencies for bucket [i]. *)
Definition meanFreq (i : nat) (q : SSLogType) : option Qc :=
  fdiv (sumQc (map (fun e => match e with
                             | data _ _ _ _ perf => nth i (Hist.freqs (svMain perf)) 0%Qc
                             | _ => 0%Qc
                             end) q))
       (Z2Qc (Z.of_nat (List.length q))).

(** The loop variables hold the sums over the snapshots [q]. *)
Definition scanMatches (acc : Scan) (q : SSLogType) : Prop :=
  List.length (cumBuckets acc) = PERF_DATA_BUCKET_COUNT /\
  (forall j, (j < PERF_DATA_BUCKET_COUNT)%nat ->
             nth j (cumBuckets acc) 0%Qc = bucketTicks j q) /\
  cumTicks acc = totalTicks q /\
  totalSnapshots acc = List.length q /\
  scan_players acc = map players_of q /\
  scan_fxsMemory acc = map fxsMemory_of q /\
  scan_nodeMemory acc = map nodeMemory_of q.

(** Log entries as the schema admits them: a data entry carries at least one
    frequency per bucket. *)
Definition wellFormedEntry (e : SSLogEntry) : Prop :=
  match e with
  | data _ _ _ _ perf =>
      (PERF_DATA_BUCKET_COUNT <= List.length (Hist.freqs (svMain perf)))%nat
  | _ => True
  end.

End Collector.

(** ** Histories of the collector *)

(** Two entries that must not follow one another: two boots or two closes. *)
Definition sameMarker (a b : SSLogEntry) : bool :=
  (isBoot a && isBoot b) || (isClose a && isClose b).

(** No two consecutive [svBoot] entries and no two consecutive [svClose]
    entries. *)
Fixpoint noTwinMarkers (l : SSLogType) : bool :=
  match l with
  | [] => true
  | a :: rest =>
      match rest with
      | [] => true
      | b :: _ => negb (sameMarker a b) && noTwinMarkers rest
      end
  end.

(** The newest document handed to [fsp.writeFile] holds the current log. *)
Definition persisted (s : PerformanceCollector) : Prop :=
  match written s with
  | doc :: _ => file_log doc = statsLog s
  | [] => False
  end.

(** The mutating operations, with what each reads from outside. *)
Inductive Operation : Type :=
| LogServerBoot (now : Z) (bootTime : Z)
| LogServerClose (now : Z) (reason : string)
| CollectStats (c : Cycle).

Definition perform {imports : Imports} (s : PerformanceCollector) (op : Operation)
  : PerformanceCollector :=
  match op with
  | LogServerBoot now bootTime => logServerBoot now bootTime s
  | LogServerClose now reason => logServerClose now reason s
  | CollectStats c => fst (collectStats c s)
  end.

Definition performAll {imports : Imports} (s : PerformanceCollector)
  (ops : list Operation) : PerformanceCollector :=
  fold_left perform ops s.

(** The perf caches and the memory caches are all cleared. *)
Definition cachesCleared (s : PerformanceCollector) : Prop :=
  lastPerfCounts s = None /\ lastPerfSaved s = None /\
  lastFxsMemory s = None /\ lastNodeMemory s = None.

(** A cycle that gets as far as the boundary check: preconditions hold, the
    host is usable, the counters were fetched and have enough ticks. *)
Definition reachesChecks {imports : Imports} (c : Cycle) (raw : RawPerfData) : Prop :=
  preconditionsHold c = true /\ validHost (fxServerHost c) = true /\
  fetchRawPerfDataRes c = fulfilled raw /\ notEnoughTicks (perfMetrics raw) = false.

(** The memory cache as the fetch of a cycle leaves it. *)
Definition afterMemoryFetch (c : Cycle) (before : option Qc) : option Qc :=
  match fetchFxsMemoryRes c with
  | fulfilled value => value
  | rejected _ => before
  end.

(** Raw counters are tick counts: none is negative. *)
Definition nonNegativeCounts (c : Counts.t) : Prop :=
  0 <= Counts.count c /\ Forall (fun b => 0 <= b) (Counts.buckets c).

Definition nonNegativePerf (p : SSPerfCountsType) : Prop :=
  nonNegativeCounts (svMain p) /\ nonNegativeCounts (svNetwork p) /\
  nonNegativeCounts (svSync p).

(** A histogram without negative entries. *)
Definition nonNegativeHist (h : Hist.t) : Prop :=
  0 <= Hist.count h /\ Forall (fun f => (0 <= f)%Qc) (Hist.freqs h).

Definition nonNegativePerfHist (p : SSPerfHistType) : Prop :=
  nonNegativeHist (svMain p) /\ nonNegativeHist (svNetwork p) /\
  nonNegativeHist (svSync p).

(** The condition of the save gate, on the collector as the gate finds it:
    nothing saved yet, or the resolution interval has elapsed since the last
    saved point. *)
Definition saveDue {imports : Imports} (now : Z) (g : PerformanceCollector) : bool :=
  match lastPerfSaved g with
  | None => true
  | Some sv => PERF_DATA_INITIAL_RESOLUTION <=? now - saved_ts sv
  end.

(** The counters a saved histogram is measured against: the last full sample
    when nothing was saved yet, the last saved counters otherwise. *)
Definition saveBaseline (g : PerformanceCollector) : option SSPerfCountsType :=
  match lastPerfSaved g with
  | None => lastPerfCounts g
  | Some sv => Some (saved_counts sv)
  end.

(** The collector once the memory fetch of a cycle has settled. *)
Definition memoryFetched (c : Cycle) (s : PerformanceCollector) : PerformanceCollector :=
  set_lastFxsMemory (afterMemoryFetch c (lastFxsMemory s)) s.

(** The collector where the save gate of a cycle finds it: after the memory
    fetch, the boundary check and the counter-reset check. *)
Definition atGate (c : Cycle) (raw : RawPerfData) (s : PerformanceCollector)
  : PerformanceCollector :=
  checkCounterReset (perfMetrics raw)
    (checkBoundaries (perfBoundaries raw) (memoryFetched c s)).

(** All three values of [getRecentStats()] that come from the caches are
    [undefined]. *)
Definition recentUndefined (s : PerformanceCollector) : Prop :=
  recent_fxsMemory (getRecentStats tt s) = None /\
  recent_nodeMemory (getRecentStats tt s) = None /\
  recent_perf (getRecentStats tt s) = None.

(** ** Concrete values used in examples *)

(** An optimizer that only bounds the size of the log, keeping the newest
    [limit] entries. *)
Definition keepNewest (limit : nat) (l : SSLogType) : SSLogType :=
  skipn (List.length l - limit) l.

(** A median that skips missing values and takes the upper middle element of
    the values in arrival order. *)
Fixpoint present (l : list (option Qc)) : list Qc :=
  match l with
  | [] => []
  | Some x :: rest => x :: present rest
  | None :: rest => present rest
  end.

Definition middleOf (l : list (option Qc)) : option Qc :=
  nth_error (present l) (Nat.div2 (List.length (present l))).

Definition sampleImports : Imports :=
  {| PERF_DATA_BUCKET_COUNT := 3;
     PERF_DATA_INITIAL_RESOLUTION := 300000;
     PERF_DATA_MIN_TICKS := 600;
     optimizeStatsLog := keepNewest 100;
     LogNodeHeapEventSchema := fun p => (0 <=? heapUsed p) && (0 <=? heapTotal p);
     median := middleOf |}.

(** Modelled from the spec: the retention optimizer ([optimizeStatsLog] of
    statsLogOptimizer, which is not part of the sources).  The specification
    leaves the schedule open and asks only that boot and close markers are
    never dropped, that the order is kept, that no data entry with fewer
    than the minimum ticks survives, that the result is no longer than the
    input and that a second run changes nothing.  This one drops the data
    entries with too few ticks, keeps every entry of the [band] milliseconds
    before the newest entry, and thins the older data entries to those taken
    in the first [fine] milliseconds of each slot of [coarse]
    milliseconds. *)
Definition enoughTicks (minTicks : Z) (e : SSLogEntry) : bool :=
  match e with
  | data _ _ _ _ perf => minTicks <=? Hist.count (svMain perf)
  | _ => true
  end.

Definition retained (band coarse fine newest : Z) (e : SSLogEntry) : bool :=
  match e with
  | data ts _ _ _ _ => (newest - band <=? ts) || (ts mod coarse <? fine)
  | _ => true
  end.

Definition retentionOptimizer (band coarse fine minTicks : Z) (l : SSLogType)
  : SSLogType :=
  let kept := filter (enoughTicks minTicks) l in
  match at_last kept with
  | None => []
  | Some newest => filter (retained band coarse fine (ts_of newest)) kept
  end.

(** The sample imports with the retention optimizer: full resolution for one
    day, and of older data the snapshots of the first five minutes of every
    hour. *)
Definition retentionImports : Imports :=
  {| PERF_DATA_BUCKET_COUNT := 3;
     PERF_DATA_INITIAL_RESOLUTION := 300000;
     PERF_DATA_MIN_TICKS := 600;
     optimizeStatsLog := retentionOptimizer 86400000 3600000 300000 600;
     LogNodeHeapEventSchema := fun p => (0 <=? heapUsed p) && (0 <=? heapTotal p);
     median := middleOf |}.

Definition sampleCounts (n a b c : Z) : SSPerfCountsType :=
  let t := {| Counts.count := n; Counts.buckets := [a; b; c] |} in
  {| svMain := t; svNetwork := t; svSync := t |}.

Definition sampleCycle (now : Z) (edges : SSPerfBoundariesType)
  (metrics : SSPerfCountsType) : Cycle :=
  {| fxChild := true;
     playerlistManager := true;
     currentStatus := "ONLINE";
     fxServerHost := Some "127.0.0.1:30120"%string;
     fetchRawPerfDataRes :=
       fulfilled {| perfBoundaries := edges; perfMetrics := metrics |};
     fetchFxsMemoryRes := fulfilled (Some (Z2Qc 512));
     cycle_now := now;
     onlineCount := 8 |}.

(** The same cycle with the counter fetch failing. *)
Definition failedCycle (now : Z) : Cycle :=
  {| fxChild := true;
     playerlistManager := true;
     currentStatus := "ONLINE";
     fxServerHost := Some "127.0.0.1:30120"%string;
     fetchRawPerfDataRes := rejected "ETIMEDOUT";
     fetchFxsMemoryRes := fulfilled (Some (Z2Qc 512));
     cycle_now := now;
     onlineCount := 8 |}.

(** A cycle that finds the server not yet online. *)
Definition offlineCycle (now : Z) : Cycle :=
  {| fxChild := true;
     playerlistManager := true;
     currentStatus := "STARTING";
     fxServerHost := Some "127.0.0.1:30120"%string;
     fetchRawPerfDataRes := rejected "not fetched";
     fetchFxsMemoryRes := rejected "not fetched";
     cycle_now := now;
     onlineCount := 0 |}.

Definition edgesA : SSPerfBoundariesType := ["0.005"; "0.01"; "+Inf"]%string.

Definition edgesB : SSPerfBoundariesType := ["0.001"; "0.01"; "+Inf"]%string.

(** A server session with one collection, closed, and booted again. *)
Definition secondBoot : PerformanceCollector :=
  performAll (imports := sampleImports) initial
    [LogServerBoot 1000 100;
     CollectStats (sampleCycle 61000 edgesA (sampleCounts 1000 700 200 100));
     LogServerClose 120000 "restart";
     LogServerBoot 130000 100].

(** A running session: booted, one collection saved at 61 s. *)
Definition running : PerformanceCollector :=
  performAll (imports := sampleImports) initial
    [LogServerBoot 1000 100;
     CollectStats (sampleCycle 61000 edgesA (sampleCounts 1000 700 200 100))].

Definition sampleHist (n : Z) (a b c : Q) : SSPerfHistType :=
  let h := {| Hist.count := n; Hist.freqs := [Q2Qc a; Q2Qc b; Q2Qc c] |} in
  {| svMain := h; svNetwork := h; svSync := h |}.

(** A light and a heavy snapshot. *)
Definition lightSnapshot (ts : Z) : SSLogEntry :=
  data ts 4 (Some (Z2Qc 400)) None (sampleHist 1000 (1 # 2) (1 # 2) 0).

Definition heavySnapshot (ts : Z) : SSLogEntry :=
  data ts 30 (Some (Z2Qc 900)) (Some (Z2Qc 120)) (sampleHist 3000 1 0 0).

(** Three hours of snapshots, five minutes apart, after a boot marker. *)
Definition threeHours : PerformanceCollector :=
  set_statsLog
    (svBoot 0 100 ::
     map (fun k => if Nat.even k then lightSnapshot (300000 * Z.of_nat k)
                   else heavySnapshot (300000 * Z.of_nat k))
         (seq 1 36))
    initial.

(** * Further code of the two files *)

(** ** Histories of a stopwatch *)

(** The calls that change a stopwatch, each with the clock reading at the
    call. *)
Inductive StopwatchCall : Type :=
| Restart (now : Z)
| Clear (now : Z).

(** [Clear] is the method [reset()]. *)
Definition stopwatchCall (sw : Stopwatch.t) (c : StopwatchCall) : Stopwatch.t :=
  match c with
  | Restart now => Stopwatch.restart now sw
  | Clear now => Stopwatch.reset now sw
  end.

(** A stopwatch built at [now0] and then used, oldest call first. *)
Definition stopwatchRun (auto : bool) (now0 : Z) (calls : list StopwatchCall)
  : Stopwatch.t :=
  fold_left stopwatchCall calls (Stopwatch.new auto now0).

(** [Infinity] is above every number of seconds. *)
Definition secsLe (a b : Secs) : Prop :=
  match a, b with
  | Finite x, Finite y => x <= y
  | _, Infinity => True
  | Infinity, Finite _ => False
  end.

(** [a] is above [b] by no more than [gap] milliseconds rounded up to whole
    seconds. *)
Definition secsLeWithin (gap : Z) (a b : Secs) : Prop :=
  match a, b with
  | Finite x, Finite y => x <= y + (gap + 999) / 1000
  | _, Infinity => True
  | Infinity, Finite _ => False
  end.

(** How bad a state is, for comparing two readings of one monitor. *)
Definition severity (st : MonitorState) : Z :=
  match st with
  | PENDING => 0
  | HEALTHY => 1
  | DELAYED => 2
  | FATAL => 3
  end.

(** The clock never runs backwards over a history. *)
Fixpoint clockAdvances (from : Z) (times : list Z) : Prop :=
  match times with
  | [] => True
  | t :: later => from <= t /\ clockAdvances t later
  end.

(** ** MonitorIssue and cleanMonitorIssuesArray *)

(** JavaScript truthiness of a string: the empty string is falsy. *)
Definition truthy (s : string) : bool := negb (String.eqb s "").

Module MonitorIssue.

Record t : Type := mk {
  title : string;
  infos : list string;
  details : list string
}.

(** [constructor(public title: string)] *)
Definition new (title : string) : t :=
  {| title := title; infos := []; details := [] |}.

(** [setTitle(title)] *)
Definition setTitle (title' : string) (m : t) : t :=
  {| title := title'; infos := infos m; details := details m |}.

(** [addInfo(info)]: [undefined] and the empty string are ignored. *)
Definition addInfo (info : option string) (m : t) : t :=
  match info with
  | None => m
  | Some text =>
      if negb (truthy text) then m
      else {| title := title m; infos := infos m ++ [text]; details := details m |}
  end.

(** [addDetail(detail)] *)
Definition addDetail (detail : option string) (m : t) : t :=
  match detail with
  | None => m
  | Some text =>
      if negb (truthy text) then m
      else {| title := title m; infos := infos m; details := details m ++ [text] |}
  end.

(** [get all] *)
Definition all (m : t) : list string := title m :: infos m ++ details m.

(** The calls that change an issue. *)
Inductive Call : Type :=
| SetTitle (title : string)
| AddInfo (info : option string)
| AddDetail (detail : option string).

Definition call (m : t) (c : Call) : t :=
  match c with
  | SetTitle title' => setTitle title' m
  | AddInfo info => addInfo info m
  | AddDetail detail => addDetail detail m
  end.

(** An issue built with [title0] and then used, oldest call first. *)
Definition run (title0 : string) (calls : list Call) : t :=
  fold_left call calls (new title0).

(** What a history says: the texts handed to [addInfo] that were kept. *)
Fixpoint infosGiven (calls : list Call) : list string :=
  match calls with
  | [] => []
  | AddInfo (Some text) :: rest =>
      if truthy text then text :: infosGiven rest else infosGiven rest
  | _ :: rest => infosGiven rest
  end.

Fixpoint detailsGiven (calls : list Call) : list string :=
  match calls with
  | [] => []
  | AddDetail (Some text) :: rest =>
      if truthy text then text :: detailsGiven rest else detailsGiven rest
  | _ :: rest => detailsGiven rest
  end.

(** The title after a history: the last one set. *)
Fixpoint titleGiven (title0 : string) (calls : list Call) : string :=
  match calls with
  | [] => title0
  | SetTitle title' :: rest => titleGiven title' rest
  | _ :: rest => titleGiven title0 rest
  end.

End MonitorIssue.

(** An element of a [MonitorIssuesArray]: a string, an issue object, or a
    falsy value that is not a string ([undefined]). *)
Inductive MonitorIssueEntry : Type :=
| NoIssue
| IssueText (text : string)
| IssueObject (issue : MonitorIssue.t).

(** The loop body of [cleanMonitorIssuesArray]: what one entry contributes. *)
Definition cleanEntry (issue : MonitorIssueEntry) : list string :=
  match issue with
  | NoIssue => []
  | IssueText text => if negb (truthy text) then [] else [text]
  | IssueObject m => filter truthy (MonitorIssue.all m)
  end.

(** [cleanMonitorIssuesArray(issues)]; [None] is an argument that is
    [undefined] or not an array. *)
Definition cleanMonitorIssuesArray (issues : option (list MonitorIssueEntry))
  : list string :=
  match issues with
  | None => []
  | Some entries =>
      fold_left (fun cleanIssues issue => cleanIssues ++ cleanEntry issue) entries []
  end.

(** ** getMonitorTimeTags *)

Record MonitorTimeTags : Type := mkTags {
  simple : string;
  withProc : string
}.

(** [getMonitorTimeTags(heartBeat, healthCheck, processUptime)].
    [secsToShortestDuration] belongs to a library module that is not part of
    the sources; its second argument is the [round] option, [None] when the
    options are left out. *)
Definition getMonitorTimeTags
  (secsToShortestDuration : Z -> option bool -> string)
  (heartBeat healthCheck : HealthEventMonitor.Status) (processUptime : Z)
  : MonitorTimeTags :=
  let secs := fun s : Secs =>
    match s with
    | Finite n => secsToShortestDuration n (Some false)
    | Infinity => "--"%string
    end in
  let procTime := secsToShortestDuration processUptime None in
  let hbTime := secs (HealthEventMonitor.secsSinceLast heartBeat) in
  let hcTime := secs (HealthEventMonitor.secsSinceLast healthCheck) in
  {| simple := ("(HB:" ++ hbTime ++ "|HC:" ++ hcTime ++ ")")%string;
     withProc := ("(P:" ++ procTime ++ "|HB:" ++ hbTime ++ "|HC:" ++ hcTime ++ ")")%string |}.

(** ** fetchDynamicJson *)

(** A string is the sequence of its code units; [s.includes(t)]. *)
Definition includes (needle s : string) : bool :=
  match String.index 0 needle s with
  | Some _ => true
  | None => false
  end.

(** What [got.get] answers with: the fields the function reads.  A header is
    already the text [String(...)] makes of it when it is present. *)
Record GotResponse : Type := mkResponse {
  resp_url : string;
  statusCode : Z;
  statusMessage : string;
  header : string -> option string;
  body : string
}.

(** Outcome of [await got.get(...)]: it throws, or it responds. *)
Inductive GotOutcome : Type :=
| RequestFailed (message : string)
| Responded (resp : GotResponse).

(** What the function takes from libraries and from the schema declaration:
    [bytes], the rendering of a number in a template literal,
    [toLocaleLowerCase], [JSON.parse] ([None] when it throws),
    [dynamicJsonSchema.safeParse] and [fromZodError(...).message] with the
    prefix it is given. *)
Class HealthCheckImports : Type := mkHealthCheckImports {
  Json : Type;
  DynamicJson : Type;
  ZodError : Type;
  bytes : nat -> string;
  numberToString : Z -> string;
  toLocaleLowerCase : string -> string;
  JSON_parse : string -> option Json;
  dynamicJsonSchema_safeParse : Json -> ZodError + DynamicJson;
  fromZodError : ZodError -> string -> string
}.

(** [String(x)] of a value that may be [undefined]. *)
Definition String_of (x : option string) : string :=
  match x with
  | Some text => text
  | None => "undefined"%string
  end.

Definition bodyCutoff : nat := 512.

(** [Record<string, string>], in insertion order. *)
Definition DebugData : Type := list (string * string).

Inductive FetchDynamicJsonResult {imports : HealthCheckImports} : Type :=
| FetchDynamicJsonError (error : string) (debugData : DebugData)
| FetchDynamicJsonSuccess (result : DynamicJson).

Section HealthCheck.
Context {imports : HealthCheckImports}.

(** [debugData.Status] *)
Definition debugStatus (resp : GotResponse) : string :=
  (numberToString (statusCode resp) ++ " " ++ statusMessage resp)%string.

(** "Precalculating error message" *)
Definition debugDataOf (resp : GotResponse) : DebugData :=
  [("URL", resp_url resp);
   ("Status", debugStatus resp);
   ("Server", String_of (header resp "server"));
   ("Location", String_of (header resp "location"));
   ("ContentType", String_of (header resp "content-type"));
   ("ContentLength", String_of (header resp "content-length"));
   ("BodyLength", bytes (String.length (body resp)));
   ("Body",
    if (bodyCutoff <? String.length (body resp))%nat
    then String.substring 0 bodyCutoff (body resp) ++ "[...]"
    else body resp)]%string.

(** [fetchDynamicJson(netEndpoint, timeout)], as a function of what the
    request came back with.  The body of a [Response<string>] is a string, so
    the [typeof resp.body !== 'string'] branch has no input here. *)
Definition fetchDynamicJson (outcome : GotOutcome) : FetchDynamicJsonResult :=
  match outcome with
  | RequestFailed message =>
      FetchDynamicJsonError ("HealthCheck Request error: " ++ message)%string []
  | Responded resp =>
      let debugData := debugDataOf resp in
      if negb (statusCode resp =? 200)
      then FetchDynamicJsonError
             ("HealthCheck HTTP status: " ++ debugStatus resp)%string debugData
      else if (String.length (body resp) =? 0)%nat
      then FetchDynamicJsonError "HealthCheck response body is empty." debugData
      else if includes "<html" (toLocaleLowerCase (body resp))
      then FetchDynamicJsonError
             "HealthCheck response body is HTML instead of JSON." debugData
      else
        match JSON_parse (body resp) with
        | None =>
            FetchDynamicJsonError
              "HealthCheck response body is not valid JSON." debugData
        | Some jsonData =>
            match dynamicJsonSchema_safeParse jsonData with
            | inl zodError =>
                FetchDynamicJsonError
                  (fromZodError zodError "HealthCheck JSON invalid data") debugData
            | inr result => FetchDynamicJsonSuccess result
            end
        end
  end.

(** The value stored under a key of the debug data. *)
Fixpoint debugField (key : string) (d : DebugData) : option string :=
  match d with
  | [] => None
  | (k, v) :: rest => if String.eqb k key then Some v else debugField key rest
  end.

End HealthCheck.

(** ** loadStatsHistory *)

(** What reading the history file comes to: [fsp.readFile] throws,
    [JSON.parse] throws, or there is a value with its [version] field (if it
    has one) and the outcome of [SSFileSchema.parse] on it ([None] when it
    throws a [ZodError]); the schema belongs to perfSchemas, which is not
    part of the sources. *)
Inductive StatsFile : Type :=
| Unreadable (message : string)
| NotJson (message : string)
| FileData (fileVersion : option Z) (SSFileSchema_parse : option SSFileType).

Section History.
Context {imports : Imports}.

(** [loadStatsHistory()]: every throw inside the [try] is caught and logged. *)
Definition loadStatsHistory (file : StatsFile) (s : PerformanceCollector)
  : PerformanceCollector :=
  match file with
  | Unreadable _ => s
  | NotJson _ => s
  | FileData fileVersion parsed =>
      match fileVersion with
      | Some v =>
          if negb (v =? STATS_DATA_FILE_VERSION) then s
          else
            match parsed with
            | None => s
            | Some statsData =>
                let s1 :=
                  set_lastPerfBoundaries (file_lastPerfBoundaries statsData) s in
                let s2 := set_statsLog (file_log statsData) s1 in
                let s3 := resetPerfState s2 in
                set_statsLog (optimizeStatsLog (statsLog s3)) s3
            end
      | None => s
      end
  end.

(** The history file as it reads back once a document has been written: the
    document itself, [JSON.stringify] and the parse undoing one another. *)
Definition readBack (doc : SSFileType) : StatsFile :=
  FileData (Some (version doc)) (Some doc).

(** Everything that changes a collector after its construction. *)
Inductive Event : Type :=
| Operate (op : Operation)
| NodeHeap (payload : LogNodeHeapEventType)
| LoadHistory (file : StatsFile).

Definition handleEvent (s : PerformanceCollector) (e : Event) : PerformanceCollector :=
  match e with
  | Operate op => perform s op
  | NodeHeap payload => logServerNodeMemory payload s
  | LoadHistory file => loadStatsHistory file s
  end.

Definition handleEvents (s : PerformanceCollector) (events : list Event)
  : PerformanceCollector :=
  fold_left handleEvent events s.

(** The saved baseline never runs ahead of the last full sample. *)
Definition baselineBehind (s : PerformanceCollector) : Prop :=
  forall sv, lastPerfSaved s = Some sv ->
    exists c, lastPerfCounts s = Some c /\
              Counts.count (svMain (saved_counts sv)) <= Counts.count (svMain c).

End History.

(** ** Discord interaction handler *)

(** The fields and type guards of an [Interaction] the handler reads.
    [interactionType] is the text the template literal makes of
    [interaction.type]. *)
Record Interaction : Type := mkInteraction {
  userBot : bool;
  isRepliable : bool;
  isButton : bool;
  isCommand : bool;
  interactionType : string;
  commandName : option string;
  customId : option string
}.

(** What [handlers[name]] can evaluate to: one of the three own properties
    of the object literal, or a member it inherits from [Object.prototype]. *)
Inductive Handler : Type :=
| statusCommandHandler
| whitelistCommandHandler
| infoCommandHandler
| inheritedMember (name : string).

(** The command handlers and the engine, seen from the dispatcher:
    [inheritedName] tells which names [Object.prototype] defines with a
    truthy value, [execute] how [await handler(interaction, txAdmin)] ends
    ([None]: it returns; [Some message]: it throws an error with that
    message), [replyFails] whether [interaction.reply] rejects. *)
Class DiscordImports : Type := mkDiscordImports {
  inheritedName : string -> bool;
  execute : Handler -> Interaction -> option string;
  replyFails : Interaction -> option string
}.

(** How the promise of the handler settles. *)
Inductive Settlement : Type :=
| Resolves
| Rejects (reason : string).

(** What the dispatcher does to the outside, in order. *)
Inductive Effect : Type :=
| Reply (content : string) (ephemeral : bool)
| ReplyDanger (message : string) (ephemeral : bool)
| Execute (handler : Handler)
| LogError (message : string).

Section Dispatcher.
Context {imports : DiscordImports}.

(** [handlers[commandName]] *)
Definition handlers (name : string) : option Handler :=
  if String.eqb name "status" then Some statusCommandHandler
  else if String.eqb name "whitelist" then Some whitelistCommandHandler
  else if String.eqb name "info" then Some infoCommandHandler
  else if inheritedName name then Some (inheritedMember name)
  else None.

(** [noHandlerResponse(interaction)]; a rejected reply is not awaited by the
    caller. *)
Definition noHandlerResponse (interaction : Interaction) : list Effect :=
  if isRepliable interaction
  then
    let identifier :=
      match commandName interaction with
      | Some name => Some name
      | None => customId interaction
      end in
    [Reply ("No handler available for this interaction ("
              ++ interactionType interaction ++ " > " ++ String_of identifier ++ ")")%string
           true]
  else [].

(** The exported handler: its effects, and whether the promise it returns is
    fulfilled or rejected. *)
Definition interactionCreateHandler (interaction : Interaction)
  : list Effect * Settlement :=
  if userBot interaction then ([], Resolves)
  else if isCommand interaction
  then
    let name := String_of (commandName interaction) in
    match handlers name with
    | None => (noHandlerResponse interaction, Resolves)
    | Some handler =>
        match execute handler interaction with
        | None => ([Execute handler], Resolves)
        | Some message =>
            let msg := ("Error executing " ++ name ++ ": " ++ message)%string in
            ([Execute handler; LogError msg; ReplyDanger msg true],
             match replyFails interaction with
             | None => Resolves
             | Some reason => Rejects reason
             end)
        end
    end
  else (noHandlerResponse interaction, Resolves).

(** The replies among the effects. *)
Definition isReply (e : Effect) : bool :=
  match e with
  | Reply _ _ | ReplyDanger _ _ => true
  | _ => false
  end.

Definition isExecute (e : Effect) : bool :=
  match e with
  | Execute _ => true
  | _ => false
  end.

End Dispatcher.

(** ** Concrete values for the further code *)

(** Stand-ins for the libraries of the health check: JSON values are kept as
    their text, and the schema reads the number of clients off the length of
    the text. *)
Definition sampleHealthCheckImports : HealthCheckImports :=
  {| Json := string;
     DynamicJson := nat;
     ZodError := string;
     bytes := fun n => if (n <? 1024)%nat then "under 1KB"%string else "1KB or more"%string;
     numberToString := fun z => if z =? 200 then "200"%string else "404"%string;
     toLocaleLowerCase := fun text => text;
     JSON_parse := fun text => if String.prefix "{" text then Some text else None;
     dynamicJsonSchema_safeParse :=
       fun json => if String.prefix "{clients" json
                   then inr (String.length json) else inl "clients: Required"%string;
     fromZodError := fun e prefix => (prefix ++ ": " ++ e)%string |}.

Definition sampleResponse (code : Z) (message text : string) : GotResponse :=
  {| resp_url := "http://127.0.0.1:30120/dynamic.json";
     statusCode := code;
     statusMessage := message;
     header := fun name => if String.eqb name "server" then Some "FXServer"%string else None;
     body := text |}.

(** Stand-ins for the command handlers: the whitelist command fails, the
    others return; [constructor] is a name every object inherits. *)
Definition sampleDiscordImports : DiscordImports :=
  {| inheritedName := fun name => String.eqb name "constructor";
     execute := fun handler _ =>
       match handler with
       | whitelistCommandHandler => Some "missing permission"%string
       | _ => None
       end;
     replyFails := fun _ => None |}.

Definition sampleCommand (name : string) : Interaction :=
  {| userBot := false;
     isRepliable := true;
     isButton := false;
     isCommand := true;
     interactionType := "2";
     commandName := Some name;
     customId := None |}.

Definition sampleButton : Interaction :=
  {| userBot := false;
     isRepliable := true;
     isButton := true;
     isCommand := false;
     interactionType := "3";
     commandName := None;
     customId := Some "refresh"%string |}.

(** The events behind the running session. *)
Definition runningEvents : list Event :=
  [Operate (LogServerBoot 1000 100);
   Operate (CollectStats (sampleCycle 61000 edgesA (sampleCounts 1000 700 200 100)))].

(** * Properties *)

(** ** Liveness monitor *)

Section MonitorFacts.
Import HealthEventMonitor.

Lemma elapsed_restart (now t : Z) (sw : Stopwatch.t) :
  Stopwatch.elapsed now (Stopwatch.restart t sw) = Finite ((now - t) / 1000).
Proof. reflexivity. Qed.

Lemma isOver_restart (now t secs : Z) (sw : Stopwatch.t) :
  Stopwatch.isOver now (Stopwatch.restart t sw) secs = (secs <=? (now - t) / 1000).
Proof. reflexivity. Qed.

(** Whole seconds and milliseconds: the floor of the elapsed milliseconds
    over 1000 reaches [secs] exactly when the milliseconds reach
    [1000 * secs]. *)
Lemma floor_secs_reached (ms secs : Z) :
  (secs <=? ms / 1000) = (1000 * secs <=? ms).
Proof.
  destruct (Z.leb_spec secs (ms / 1000)) as [H | H];
    destruct (Z.leb_spec (1000 * secs) ms) as [K | K]; try reflexivity; exfalso.
  - assert (1000 * (ms / 1000) <= ms) by (apply Z.mul_div_le; lia). lia.
  - assert (secs <= ms / 1000) by (apply Z.div_le_lower_bound; lia). lia.
Qed.

Lemma state_after_markHealthy (m : t) (t0 now : Z) :
  state (status now (markHealthy t0 m)) =
    if 1000 * fatalLimit m <=? now - t0 then FATAL
    else if 1000 * delayLimit m <=? now - t0 then DELAYED
    else HEALTHY.
Proof.
  unfold status, markHealthy; cbn [swLastHealthyEvent fatalLimit delayLimit state].
  rewrite !isOver_restart, !floor_secs_reached. reflexivity.
Qed.

Lemma run_snoc (m : t) (calls : list Call) (c : Call) :
  run m (calls ++ [c]) = call (run m calls) c.
Proof. unfold run. rewrite fold_left_app. reflexivity. Qed.

Lemma marksSinceReset_mark (calls : list Call) (now : Z) :
  marksSinceReset (calls ++ [MarkHealthy now]) = marksSinceReset calls ++ [now].
Proof. unfold marksSinceReset. rewrite rev_unit. reflexivity. Qed.

Lemma marksSinceReset_reset (calls : list Call) (now : Z) :
  marksSinceReset (calls ++ [Reset now]) = [].
Proof. unfold marksSinceReset. rewrite rev_unit. reflexivity. Qed.

Lemma marksUntilReset_In (l : list Call) (now : Z) :
  In now (marksUntilReset l) -> In (MarkHealthy now) l.
Proof.
  induction l as [| c l IH]; simpl; [tauto |].
  destruct c as [t' | t']; simpl; [| tauto].
  intros [-> | H]; [left; reflexivity | right; auto].
Qed.

Lemma marksSinceReset_In (calls : list Call) (now : Z) :
  In now (marksSinceReset calls) -> In (MarkHealthy now) calls.
Proof.
  unfold marksSinceReset. intros H. apply in_rev in H.
  apply marksUntilReset_In in H. apply in_rev in H. exact H.
Qed.

(** The field [firstHealthyEvent] is the first mark of the current epoch. *)
Lemma firstHealthyEvent_run (now0 delay fatal : Z) (calls : list Call) :
  firstHealthyEvent (run (new now0 delay fatal) calls) = hd_error (marksSinceReset calls).
Proof.
  induction calls as [| c calls IH] using rev_ind; [reflexivity |].
  rewrite run_snoc. destruct c as [now | now]; simpl.
  - rewrite marksSinceReset_mark, IH.
    destruct (marksSinceReset calls); reflexivity.
  - rewrite marksSinceReset_reset. reflexivity.
Qed.

(** C1, amended: for thresholds [0 < delay < fatal] (whole seconds) the
    monitor starts [PENDING]; after [markHealthy()] at [t0] it is [HEALTHY]
    while less than [delay] seconds have elapsed (in particular right away),
    [DELAYED] from [delay] seconds up to [fatal] seconds, [FATAL] from
    [fatal] seconds on; and a [markHealthy()] on a monitor in any condition
    makes it [HEALTHY] again. *)
Theorem monitor_states_by_elapsed_time :
  forall delay fatal : Z,
    0 < delay -> delay < fatal ->
    (forall now0 now, state (status now (new now0 delay fatal)) = PENDING) /\
    (forall m t0,
        delayLimit m = delay -> fatalLimit m = fatal ->
        state (status t0 (markHealthy t0 m)) = HEALTHY /\
        (forall now, t0 <= now < t0 + 1000 * delay ->
                     state (status now (markHealthy t0 m)) = HEALTHY) /\
        (forall now, t0 + 1000 * delay <= now < t0 + 1000 * fatal ->
                     state (status now (markHealthy t0 m)) = DELAYED) /\
        (forall now, t0 + 1000 * fatal <= now ->
                     state (status now (markHealthy t0 m)) = FATAL)).
Proof.
  intros delay fatal Hpos Hlt. split; [reflexivity |].
  intros m t0 Hd Hf.
  assert (St : forall now, state (status now (markHealthy t0 m)) =
                 if 1000 * fatal <=? now - t0 then FATAL
                 else if 1000 * delay <=? now - t0 then DELAYED else HEALTHY)
    by (intros now; rewrite state_after_markHealthy, Hd, Hf; reflexivity).
  repeat split; intros; rewrite St;
    repeat match goal with
           | |- context [?a <=? ?b] => destruct (Z.leb_spec a b)
           end; try reflexivity; lia.
Qed.

(** The amended statement at thresholds of 5 and 30 seconds. *)
Lemma monitor_states_by_elapsed_time_witness :
  state (status 7000 (new 0 5 30)) = PENDING /\
  state (status 9000 (markHealthy 9000 (new 0 5 30))) = HEALTHY /\
  state (status 14000 (markHealthy 9000 (new 0 5 30))) = DELAYED /\
  state (status 39000 (markHealthy 9000 (new 0 5 30))) = FATAL.
Proof.
  destruct (monitor_states_by_elapsed_time 5 30 ltac:(lia) ltac:(lia)) as [P H].
  destruct (H (new 0 5 30) 9000 eq_refl eq_refl) as (H0 & _ & Hd & Hf).
  exact (conj (P 0 7000)
           (conj H0 (conj (Hd 14000 ltac:(lia)) (Hf 39000 ltac:(lia))))).
Defined.

(** C1 as stated fails when the delay threshold is not positive: with
    [delay = 0 < fatal = 1] the state right after [markHealthy()] is
    [DELAYED], since [isOver(0)] holds at zero elapsed seconds. *)
Lemma monitor_zero_delay_not_healthy :
  0 < 1 /\
  state (status 9000 (new 0 0 1)) = PENDING /\
  state (status 9000 (markHealthy 9000 (new 0 0 1))) = DELAYED /\
  state (status 9000 (markHealthy 9000 (new 0 0 1))) <> HEALTHY.
Proof. repeat split; try reflexivity; try lia. discriminate. Qed.

(** C9: [markHealthy()] restarts the stopwatch and records the first healthy
    timestamp only when none is recorded; after any history of calls on a
    new monitor, with clock readings other than 0 (any time after the epoch),
    [secsSinceFirst] is [Infinity] exactly when there was no [markHealthy()]
    since construction or the last [reset()], and otherwise it is the floored
    number of seconds since the first such call. *)
Theorem first_healthy_recorded_once :
  forall (now0 delay fatal : Z) (calls : list Call),
    Forall (fun c => callTime c <> 0) calls ->
    let m := run (new now0 delay fatal) calls in
    (forall t, Stopwatch.tsStart (swLastHealthyEvent (markHealthy t m)) = Some t) /\
    (forall t, marksSinceReset calls = [] ->
               firstHealthyEvent (markHealthy t m) = Some t) /\
    (forall t first later, marksSinceReset calls = first :: later ->
               firstHealthyEvent m = Some first /\
               firstHealthyEvent (markHealthy t m) = Some first) /\
    (forall now, secsSinceFirst (status now m) = Infinity <-> marksSinceReset calls = []) /\
    (forall now first later, marksSinceReset calls = first :: later ->
               secsSinceFirst (status now m) = Finite ((now - first) / 1000)).
Proof.
  intros now0 delay fatal calls Hclock m.
  assert (Hfirst : firstHealthyEvent m = hd_error (marksSinceReset calls))
    by apply firstHealthyEvent_run.
  assert (Hnz : forall first later, marksSinceReset calls = first :: later ->
                                    (first =? 0) = false).
  { intros first later E. apply Z.eqb_neq.
    assert (Hin : In (MarkHealthy first) calls)
      by (apply marksSinceReset_In; rewrite E; left; reflexivity).
    rewrite Forall_forall in Hclock. exact (Hclock _ Hin). }
  split; [reflexivity |].
  split; [intros t E; simpl; rewrite Hfirst, E; reflexivity |].
  split; [intros t first later E; simpl; rewrite Hfirst, E; split; reflexivity |].
  split.
  - intros now. unfold status; cbn [secsSinceFirst]. rewrite Hfirst.
    destruct (marksSinceReset calls) as [| first later] eqn:E; simpl.
    + split; reflexivity.
    + rewrite (Hnz first later eq_refl). split; discriminate.
  - intros now first later E. unfold status; cbn [secsSinceFirst].
    rewrite Hfirst, E; simpl. rewrite (Hnz first later E). reflexivity.
Qed.

(** The statement on a history with a reset in the middle. *)
Lemma first_healthy_recorded_once_witness :
  let calls := [MarkHealthy 1000; MarkHealthy 4000; Reset 5000;
                MarkHealthy 8000; MarkHealthy 9500] in
  let m := run (new 1 5 30) calls in
  firstHealthyEvent (markHealthy 12000 m) = Some 8000 /\
  secsSinceFirst (status 12500 m) = Finite 4.
Proof.
  intros calls m.
  destruct (first_healthy_recorded_once 1 5 30 calls) as (_ & _ & Hkeep & _ & Hsecs).
  - repeat constructor; simpl; lia.
  - split.
    + exact (proj2 (Hkeep 12000 8000 [9500] eq_refl)).
    + exact (Hsecs 12500 8000 [9500] eq_refl).
Defined.

(** The clock assumption of C9 is needed: a first [markHealthy()] at clock
    reading 0 is recorded, yet reads as [Infinity], because [status] tests
    the timestamp for truthiness. *)
Example secsSinceFirst_at_epoch :
  firstHealthyEvent (markHealthy 0 (new 0 5 30)) = Some 0 /\
  secsSinceFirst (status 3000 (markHealthy 0 (new 0 5 30))) = Infinity.
Proof. split; reflexivity. Qed.

End MonitorFacts.

(** ** Performance collector: boot and close markers *)

Lemma at_last_nil (A : Type) : at_last (@nil A) = None.
Proof. reflexivity. Qed.

Lemma at_last_snoc (A : Type) (l : list A) (x : A) : at_last (l ++ [x]) = Some x.
Proof. unfold at_last. rewrite rev_unit. reflexivity. Qed.

Lemma at_last_eq (A : Type) (l l' : list A) (x : A) :
  l = l' ++ [x] -> at_last l = Some x.
Proof. intros ->. apply at_last_snoc. Qed.

Lemma at_last_cases (A : Type) (l : list A) :
  (l = [] /\ at_last l = None) \/ (exists l' x, l = l' ++ [x] /\ at_last l = Some x).
Proof.
  destruct l as [| a l] using rev_ind.
  - left. split; reflexivity.
  - right. exists l, a. split; [reflexivity | apply at_last_snoc].
Qed.

Lemma set_lastFxsMemory_same (s : PerformanceCollector) :
  set_lastFxsMemory (lastFxsMemory s) s = s.
Proof. destruct s; reflexivity. Qed.

Lemma cachesCleared_reset (s : PerformanceCollector) :
  cachesCleared (resetMemoryState (resetPerfState s)).
Proof. repeat split. Qed.

Section CollectorFacts.
Context {imports : Imports}.

Lemma saveStatsHistory_log (s : PerformanceCollector) :
  statsLog (saveStatsHistory s) = optimizeStatsLog (statsLog s).
Proof. reflexivity. Qed.

Lemma saveStatsHistory_persisted (s : PerformanceCollector) :
  persisted (saveStatsHistory s).
Proof. reflexivity. Qed.

Lemma saveStatsHistory_written (s : PerformanceCollector) :
  written (saveStatsHistory s) =
    {| version := STATS_DATA_FILE_VERSION;
       file_lastPerfBoundaries := lastPerfBoundaries s;
       file_log := optimizeStatsLog (statsLog s) |} :: written s.
Proof. reflexivity. Qed.

Lemma logServerBoot_cleared (now bootTime : Z) (s : PerformanceCollector) :
  cachesCleared (logServerBoot now bootTime s).
Proof.
  unfold logServerBoot.
  destruct (at_last (statsLog (resetMemoryState (resetPerfState s)))) as [[] |];
    repeat split.
Qed.

Lemma logServerClose_cleared (now : Z) (reason : string) (s : PerformanceCollector) :
  cachesCleared (logServerClose now reason s).
Proof.
  unfold logServerClose.
  destruct (at_last (statsLog (resetMemoryState (resetPerfState s)))) as [[] |];
    repeat split.
Qed.

Lemma logServerBoot_log (now bootTime : Z) (s : PerformanceCollector) :
  statsLog (logServerBoot now bootTime s) =
    optimizeStatsLog
      (match at_last (statsLog s) with
       | Some (svBoot _ _) => removelast (statsLog s)
       | _ => statsLog s
       end ++ [svBoot now bootTime]).
Proof.
  unfold logServerBoot. rewrite saveStatsHistory_log. cbn [statsLog set_statsLog].
  change (statsLog (resetMemoryState (resetPerfState s))) with (statsLog s).
  destruct (at_last (statsLog s)) as [[] |]; reflexivity.
Qed.

Lemma logServerClose_unfold (now : Z) (reason : string) (s : PerformanceCollector) :
  logServerClose now reason s =
    match at_last (statsLog s) with
    | Some (svClose _ _) => resetMemoryState (resetPerfState s)
    | Some (svBoot _ _) =>
        set_statsLog (removelast (statsLog s)) (resetMemoryState (resetPerfState s))
    | _ =>
        saveStatsHistory
          (set_statsLog (statsLog s ++ [svClose now reason])
                        (resetMemoryState (resetPerfState s)))
    end.
Proof. reflexivity. Qed.

(** C3, amended: [logServerClose(reason)] always clears the perf and memory
    caches; if the last entry is a close marker nothing else changes; if it
    is a boot marker that entry is removed, nothing is appended and nothing
    is written to the file; otherwise (empty log, or a data entry last) a
    close marker is appended, the log is optimized and the document is
    written.  A boot on an empty log followed by a close leaves the log empty
    (the optimizer keeping a lone boot marker). *)
Theorem logServerClose_effect :
  forall (now : Z) (reason : string) (s : PerformanceCollector),
    let s' := logServerClose now reason s in
    cachesCleared s' /\
    (forall l ts r, statsLog s = l ++ [svClose ts r] ->
                    statsLog s' = statsLog s /\ written s' = written s) /\
    (forall l ts b, statsLog s = l ++ [svBoot ts b] ->
                    statsLog s' = l /\ written s' = written s) /\
    (statsLog s = [] \/ (exists l e, statsLog s = l ++ [e] /\ isSSLogDataType e = true) ->
     statsLog s' = optimizeStatsLog (statsLog s ++ [svClose now reason]) /\
     persisted s' /\
     written s' =
       {| version := STATS_DATA_FILE_VERSION;
          file_lastPerfBoundaries := lastPerfBoundaries s;
          file_log := statsLog s' |} :: written s) /\
    (forall t0 bootTime,
        statsLog s = [] ->
        optimizeStatsLog [svBoot t0 bootTime] = [svBoot t0 bootTime] ->
        statsLog (logServerClose now reason (logServerBoot t0 bootTime s)) = []).
Proof.
  intros now reason s s'.
  split; [apply logServerClose_cleared |].
  subst s'. split; [| split; [| split]].
  - intros l ts r E. rewrite logServerClose_unfold.
    rewrite (at_last_eq _ _ _ _ E). split; reflexivity.
  - intros l ts b E. rewrite logServerClose_unfold.
    rewrite (at_last_eq _ _ _ _ E). cbn [statsLog set_statsLog written].
    rewrite E, removelast_last. split; reflexivity.
  - intros H. rewrite logServerClose_unfold.
    assert (K : match at_last (statsLog s) with
                | Some (svBoot _ _) | Some (svClose _ _) => False
                | _ => True
                end).
    { destruct H as [E | (l & e & E & He)].
      - rewrite E. exact I.
      - rewrite (at_last_eq _ _ _ _ E). destruct e; try discriminate. exact I. }
    destruct (at_last (statsLog s)) as [[] |]; try contradiction;
      (split; [reflexivity | split; reflexivity]).
  - intros t0 bootTime E Hopt. rewrite logServerClose_unfold.
    assert (Hlog : statsLog (logServerBoot t0 bootTime s) = [] ++ [svBoot t0 bootTime])
      by (rewrite logServerBoot_log, E; exact Hopt).
    rewrite (at_last_eq _ _ _ _ Hlog). cbn [statsLog set_statsLog].
    rewrite Hlog. apply removelast_last.
Qed.

(** ** Performance collector: aborted cycles and recent stats *)

Lemma collectStats_skipped (c : Cycle) (s : PerformanceCollector) :
  preconditionsHold c = false -> collectStats c s = (s, Returned).
Proof. intros H. unfold collectStats. rewrite H. reflexivity. Qed.

Lemma collectStats_bad_host (c : Cycle) (s : PerformanceCollector) :
  preconditionsHold c = true -> validHost (fxServerHost c) = false ->
  collectStats c s = (s, Thrown (InvalidFxServerHost (fxServerHost c))).
Proof. intros H K. unfold collectStats. rewrite H, K. reflexivity. Qed.

Lemma memoryFetched_eq (c : Cycle) (s : PerformanceCollector) :
  match fetchFxsMemoryRes c with
  | fulfilled value => set_lastFxsMemory value s
  | rejected _ => s
  end = memoryFetched c s.
Proof.
  unfold memoryFetched, afterMemoryFetch.
  destruct (fetchFxsMemoryRes c); [reflexivity | symmetry; apply set_lastFxsMemory_same].
Qed.

Lemma collectStats_rejected (c : Cycle) (s : PerformanceCollector) (reason : string) :
  preconditionsHold c = true -> validHost (fxServerHost c) = true ->
  fetchRawPerfDataRes c = rejected reason ->
  collectStats c s = (memoryFetched c s, Thrown (FetchRejected reason)).
Proof.
  intros H K F. unfold collectStats. rewrite H, K, F, memoryFetched_eq. reflexivity.
Qed.

Lemma collectStats_few_ticks (c : Cycle) (s : PerformanceCollector) (raw : RawPerfData) :
  preconditionsHold c = true -> validHost (fxServerHost c) = true ->
  fetchRawPerfDataRes c = fulfilled raw -> notEnoughTicks (perfMetrics raw) = true ->
  collectStats c s = (memoryFetched c s, Returned).
Proof.
  intros H K F N. unfold collectStats. rewrite H, K, F, N, memoryFetched_eq. reflexivity.
Qed.

Lemma collectStats_full (c : Cycle) (s : PerformanceCollector) (raw : RawPerfData) :
  reachesChecks c raw ->
  collectStats c s =
    (updateAndSave (cycle_now c) (onlineCount c) (perfMetrics raw) (atGate c raw s),
     Returned).
Proof.
  intros (H & K & F & N). unfold collectStats, atGate.
  rewrite H, K, F, N, memoryFetched_eq. reflexivity.
Qed.

(** Every cycle ends in one of the five ways above. *)
Lemma collectStats_cases (c : Cycle) (s : PerformanceCollector) :
  fst (collectStats c s) = s \/
  fst (collectStats c s) = memoryFetched c s \/
  exists raw, reachesChecks c raw /\
              fst (collectStats c s) =
                updateAndSave (cycle_now c) (onlineCount c) (perfMetrics raw)
                              (atGate c raw s).
Proof.
  destruct (preconditionsHold c) eqn:H;
    [| left; rewrite collectStats_skipped by exact H; reflexivity].
  destruct (validHost (fxServerHost c)) eqn:K;
    [| left; rewrite collectStats_bad_host by assumption; reflexivity].
  destruct (fetchRawPerfDataRes c) as [raw | reason] eqn:F;
    [| right; left; rewrite (collectStats_rejected c s reason) by assumption; reflexivity].
  destruct (notEnoughTicks (perfMetrics raw)) eqn:N;
    [right; left; rewrite (collectStats_few_ticks c s raw) by assumption; reflexivity |].
  right; right. exists raw.
  assert (R : reachesChecks c raw) by (repeat split; assumption).
  split; [exact R | rewrite (collectStats_full c s raw R); reflexivity].
Qed.

(** The checks and the save never touch the memory caches. *)
Lemma checkBoundaries_memory (b : SSPerfBoundariesType) (s : PerformanceCollector) :
  lastFxsMemory (checkBoundaries b s) = lastFxsMemory s /\
  lastNodeMemory (checkBoundaries b s) = lastNodeMemory s.
Proof.
  unfold checkBoundaries.
  destruct (lastPerfCounts s), (lastPerfSaved s), (lastPerfBoundaries s);
    try (split; reflexivity).
  destruct (negb _); split; reflexivity.
Qed.

Lemma checkCounterReset_memory (m : SSPerfCountsType) (s : PerformanceCollector) :
  lastFxsMemory (checkCounterReset m s) = lastFxsMemory s /\
  lastNodeMemory (checkCounterReset m s) = lastNodeMemory s.
Proof.
  unfold checkCounterReset.
  destruct (countsAbove m (lastPerfCounts s)); [split; reflexivity |].
  destruct (countsAbove m _); split; reflexivity.
Qed.

Lemma updateAndSave_memory (now players : Z) (m : SSPerfCountsType)
  (s : PerformanceCollector) :
  lastFxsMemory (updateAndSave now players m s) = lastFxsMemory s /\
  lastNodeMemory (updateAndSave now players m s) = lastNodeMemory s.
Proof.
  unfold updateAndSave.
  destruct (perfHistToSave _ _ _ _); split; reflexivity.
Qed.

Lemma atGate_memory (c : Cycle) (raw : RawPerfData) (s : PerformanceCollector) :
  lastFxsMemory (atGate c raw s) = afterMemoryFetch c (lastFxsMemory s) /\
  lastNodeMemory (atGate c raw s) = lastNodeMemory s.
Proof.
  unfold atGate.
  destruct (checkCounterReset_memory (perfMetrics raw)
              (checkBoundaries (perfBoundaries raw) (memoryFetched c s))) as [-> ->].
  destruct (checkBoundaries_memory (perfBoundaries raw) (memoryFetched c s)) as [-> ->].
  split; reflexivity.
Qed.

Lemma updateAndSave_counts (now players : Z) (m : SSPerfCountsType)
  (s : PerformanceCollector) :
  lastPerfCounts (updateAndSave now players m s) = Some m.
Proof.
  unfold updateAndSave. destruct (perfHistToSave _ _ _ _); reflexivity.
Qed.

(** C8, amended: a cycle that stops at the precondition or host checks
    leaves the collector exactly as it was; a cycle aborted by a failed
    counter fetch (the error is thrown to the caller) or by too few ticks
    leaves the log, the last counters, the last-saved baseline, the
    boundaries, the node memory cache and the file untouched, while
    [lastFxsMemory] holds the freshly fetched value whenever the memory fetch
    succeeded (and is unchanged when that fetch failed too). *)
Theorem collectStats_abort_state :
  forall (c : Cycle) (s : PerformanceCollector),
    (preconditionsHold c = false -> collectStats c s = (s, Returned)) /\
    (preconditionsHold c = true -> validHost (fxServerHost c) = false ->
     collectStats c s = (s, Thrown (InvalidFxServerHost (fxServerHost c)))) /\
    (forall reason,
        preconditionsHold c = true -> validHost (fxServerHost c) = true ->
        fetchRawPerfDataRes c = rejected reason ->
        collectStats c s = (memoryFetched c s, Thrown (FetchRejected reason))) /\
    (forall raw,
        preconditionsHold c = true -> validHost (fxServerHost c) = true ->
        fetchRawPerfDataRes c = fulfilled raw ->
        notEnoughTicks (perfMetrics raw) = true ->
        collectStats c s = (memoryFetched c s, Returned)) /\
    (statsLog (memoryFetched c s) = statsLog s /\
     lastPerfCounts (memoryFetched c s) = lastPerfCounts s /\
     lastPerfSaved (memoryFetched c s) = lastPerfSaved s /\
     lastPerfBoundaries (memoryFetched c s) = lastPerfBoundaries s /\
     lastNodeMemory (memoryFetched c s) = lastNodeMemory s /\
     written (memoryFetched c s) = written s /\
     lastFxsMemory (memoryFetched c s) = afterMemoryFetch c (lastFxsMemory s)) /\
    (forall value, fetchFxsMemoryRes c = fulfilled value ->
                   lastFxsMemory (memoryFetched c s) = value) /\
    (forall reason, fetchFxsMemoryRes c = rejected reason -> memoryFetched c s = s).
Proof.
  intros c s.
  split; [apply collectStats_skipped |].
  split; [apply collectStats_bad_host |].
  split; [intros reason; apply collectStats_rejected |].
  split; [intros raw; apply collectStats_few_ticks |].
  split; [repeat split |].
  split.
  - intros value F. unfold memoryFetched, afterMemoryFetch. rewrite F. reflexivity.
  - intros reason F. unfold memoryFetched, afterMemoryFetch. rewrite F.
    apply set_lastFxsMemory_same.
Qed.

Lemma recentUndefined_iff (s : PerformanceCollector) :
  recentUndefined s <->
  lastFxsMemory s = None /\ lastNodeMemory s = None /\ lastPerfCounts s = None.
Proof.
  unfold recentUndefined, getRecentStats; cbn [recent_fxsMemory recent_nodeMemory recent_perf].
  destruct (lastPerfCounts s); intuition discriminate.
Qed.


(** ** Performance collector: boundary check *)

Lemma checkBoundaries_first (fetched : SSPerfBoundariesType) (s : PerformanceCollector) :
  lastPerfCounts s = None \/ lastPerfSaved s = None \/ lastPerfBoundaries s = None ->
  checkBoundaries fetched s = resetPerfState (set_lastPerfBoundaries (Some fetched) s).
Proof.
  unfold checkBoundaries. intros [H | [H | H]]; rewrite H; try reflexivity;
    destruct (lastPerfCounts s); try reflexivity;
    destruct (lastPerfSaved s); reflexivity.
Qed.

Lemma checkBoundaries_changed (fetched known : SSPerfBoundariesType)
  (s : PerformanceCollector) (cnt : SSPerfCountsType) (sv : PerfSaved) :
  lastPerfCounts s = Some cnt -> lastPerfSaved s = Some sv ->
  lastPerfBoundaries s = Some known -> fetched <> known ->
  checkBoundaries fetched s =
    resetPerfState (set_lastPerfBoundaries (Some fetched) (set_statsLog [] s)).
Proof.
  intros Hc Hs Hb Hne. unfold checkBoundaries, boundaries_eqb. rewrite Hc, Hs, Hb.
  destruct (list_eq_dec string_dec fetched known); [contradiction | reflexivity].
Qed.

Lemma checkBoundaries_same (fetched : SSPerfBoundariesType)
  (s : PerformanceCollector) (cnt : SSPerfCountsType) (sv : PerfSaved) :
  lastPerfCounts s = Some cnt -> lastPerfSaved s = Some sv ->
  lastPerfBoundaries s = Some fetched ->
  checkBoundaries fetched s = s.
Proof.
  intros Hc Hs Hb. unfold checkBoundaries, boundaries_eqb. rewrite Hc, Hs, Hb.
  destruct (list_eq_dec string_dec fetched fetched); [reflexivity | contradiction].
Qed.

Lemma checkCounterReset_cleared (m : SSPerfCountsType) (s : PerformanceCollector) :
  lastPerfCounts s = None -> lastPerfSaved s = None -> checkCounterReset m s = s.
Proof. intros Hc Hs. unfold checkCounterReset. rewrite Hc, Hs. reflexivity. Qed.

(** The snapshot a cycle appends when both perf caches are unset at the gate:
    the histogram of the raw counters. *)
Lemma updateAndSave_fresh (now players : Z) (m : SSPerfCountsType)
  (s : PerformanceCollector) :
  lastPerfCounts s = None -> lastPerfSaved s = None ->
  statsLog (updateAndSave now players m s) =
    optimizeStatsLog
      (statsLog s ++ [data now players (lastFxsMemory s)
                           (option_map used (lastNodeMemory s)) (perfCountsToHist m)]) /\
  lastPerfBoundaries (updateAndSave now players m s) = lastPerfBoundaries s.
Proof.
  intros Hc Hs. unfold updateAndSave.
  cbn [lastPerfSaved set_lastPerfCounts]. rewrite Hc, Hs. split; reflexivity.
Qed.

(** What the boundary check does, branch by branch.  In a cycle that passes
    the fetch and the tick check, when any of [lastPerfCounts],
    [lastPerfSaved], [lastPerfBoundaries] is unset the fetched boundaries are
    adopted and the counters reset while the log is kept; otherwise, when the
    fetched boundaries differ from the known ones, the log is emptied, the
    new boundaries are adopted and the counters are reset; otherwise nothing
    changes.  After a reset the snapshot appended by the cycle is the
    histogram of the raw counters. *)
Theorem boundary_check_effect :
  forall (fetched : SSPerfBoundariesType) (s : PerformanceCollector),
    let s' := checkBoundaries fetched s in
    (lastPerfCounts s = None \/ lastPerfSaved s = None \/ lastPerfBoundaries s = None ->
     statsLog s' = statsLog s /\ lastPerfBoundaries s' = Some fetched /\
     lastPerfCounts s' = None /\ lastPerfSaved s' = None) /\
    (forall cnt sv known,
        lastPerfCounts s = Some cnt -> lastPerfSaved s = Some sv ->
        lastPerfBoundaries s = Some known ->
        (fetched <> known ->
         statsLog s' = [] /\ lastPerfBoundaries s' = Some fetched /\
         lastPerfCounts s' = None /\ lastPerfSaved s' = None) /\
        (fetched = known -> s' = s)) /\
    (forall c raw,
        reachesChecks c raw -> perfBoundaries raw = fetched ->
        let snapshot :=
          data (cycle_now c) (onlineCount c) (afterMemoryFetch c (lastFxsMemory s))
               (option_map used (lastNodeMemory s)) (perfCountsToHist (perfMetrics raw)) in
        (lastPerfCounts s = None \/ lastPerfSaved s = None \/ lastPerfBoundaries s = None ->
         statsLog (fst (collectStats c s)) = optimizeStatsLog (statsLog s ++ [snapshot]) /\
         lastPerfBoundaries (fst (collectStats c s)) = Some fetched) /\
        (forall cnt sv known,
            lastPerfCounts s = Some cnt -> lastPerfSaved s = Some sv ->
            lastPerfBoundaries s = Some known -> fetched <> known ->
            statsLog (fst (collectStats c s)) = optimizeStatsLog [snapshot] /\
            lastPerfBoundaries (fst (collectStats c s)) = Some fetched)).
Proof.
  intros fetched s s'. subst s'.
  split; [| split].
  - intros H. rewrite (checkBoundaries_first fetched s H). repeat split.
  - intros cnt sv known Hc Hs Hb. split.
    + intros Hne. rewrite (checkBoundaries_changed fetched known s cnt sv Hc Hs Hb Hne).
      repeat split.
    + intros E. rewrite <- E in Hb. apply (checkBoundaries_same fetched s cnt sv Hc Hs Hb).
  - intros c raw R Eb snapshot. rewrite (collectStats_full c s raw R). cbn [fst].
    unfold atGate. rewrite Eb. split.
    + intros H.
      rewrite (checkBoundaries_first fetched (memoryFetched c s)) by exact H.
      rewrite checkCounterReset_cleared by reflexivity.
      apply updateAndSave_fresh; reflexivity.
    + intros cnt sv known Hc Hs Hb Hne.
      rewrite (checkBoundaries_changed fetched known (memoryFetched c s) cnt sv)
        by assumption.
      rewrite checkCounterReset_cleared by reflexivity.
      apply updateAndSave_fresh; reflexivity.
Qed.

(** ** Performance collector: save gate *)


(** ** Performance collector: counter reset *)

Lemma countsAbove_true (m : SSPerfCountsType) (cached : option SSPerfCountsType) :
  countsAbove m cached = true <->
  exists c, cached = Some c /\ Counts.count (svMain m) < Counts.count (svMain c).
Proof.
  unfold countsAbove. destruct cached as [c |].
  - rewrite Z.ltb_lt. split; [intros H; exists c; auto |].
    intros (c' & E & H). injection E as ->. exact H.
  - split; [discriminate | intros (c' & E & _); discriminate].
Qed.

Lemma countsAbove_false_delta (m : SSPerfCountsType) (cached : option SSPerfCountsType) :
  countsAbove m cached = false -> 0 <= Counts.count (svMain m) ->
  0 <= Counts.count (svMain (diffPerfs m cached)).
Proof.
  unfold countsAbove, diffPerfs. destruct cached as [c |]; [| intros _ H; exact H].
  intros H _. apply Z.ltb_ge in H. simpl. lia.
Qed.

Lemma Q2Qc_nonneg (q : Q) : (0 <= q)%Q -> (0 <= Q2Qc q)%Qc.
Proof.
  intros H. unfold Qcle. change (0 <= Qred q)%Q.
  apply Qle_trans with q; [exact H |].
  apply Qle_lteq. right. symmetry. apply Qred_correct.
Qed.

Lemma Z2Qc_nonneg (z : Z) : 0 <= z -> (0 <= Z2Qc z)%Qc.
Proof.
  intros H. apply Q2Qc_nonneg. unfold Qle, inject_Z; simpl. lia.
Qed.

Lemma Qcdiv_nonneg (a b : Qc) : (0 <= a)%Qc -> (0 <= b)%Qc -> (0 <= a / b)%Qc.
Proof.
  intros Ha Hb. unfold Qcdiv, Qcmult, Qcinv. apply Q2Qc_nonneg.
  apply Qmult_le_0_compat; [exact Ha |].
  change (0 <= Qred (/ b))%Q.
  apply Qle_trans with (/ b)%Q; [apply Qinv_le_0_compat; exact Hb |].
  apply Qle_lteq. right. symmetry. apply Qred_correct.
Qed.

(** The histogram of non-negative counters has no negative entry. *)
Lemma countsToHist_nonneg (c : Counts.t) :
  nonNegativeCounts c -> nonNegativeHist (countsToHist c).
Proof.
  intros [Hc Hb]. split; [exact Hc |].
  unfold countsToHist; cbn [Hist.freqs].
  destruct (Counts.count c =? 0); apply Forall_map; eapply Forall_impl; try exact Hb;
    cbv beta; intros b Hb0.
  - apply Z2Qc_nonneg. lia.
  - apply Qcdiv_nonneg; apply Z2Qc_nonneg; assumption.
Qed.

Lemma perfCountsToHist_nonneg (p : SSPerfCountsType) :
  nonNegativePerf p -> nonNegativePerfHist (perfCountsToHist p).
Proof.
  intros (A & B & C). repeat split; apply countsToHist_nonneg; assumption.
Qed.

Lemma checkBoundaries_caches (b : SSPerfBoundariesType) (s : PerformanceCollector) :
  (lastPerfCounts (checkBoundaries b s) = None /\
   lastPerfSaved (checkBoundaries b s) = None) \/
  checkBoundaries b s = s.
Proof.
  unfold checkBoundaries.
  destruct (lastPerfCounts s), (lastPerfSaved s), (lastPerfBoundaries s);
    try (left; split; reflexivity).
  destruct (negb _); [left; split; reflexivity | right; reflexivity].
Qed.

(** C7: in the counter-reset check of [collectStats], when the fetched
    svMain count is lower than that of the last full sample both the
    last-full-sample cache and the last-saved cache are reset; when that is
    not the case but the count is lower than that of the last saved sample,
    only the last-saved baseline is reset and the last full sample stays;
    otherwise nothing changes.  On the reset path the delta computed next is
    the raw counters themselves, so with non-negative counters no entry of
    the histogram is negative; and after the check no svMain count delta is
    negative on any path. *)
Theorem counter_reset_effect :
  forall (metrics : SSPerfCountsType) (s : PerformanceCollector),
    let s' := checkCounterReset metrics s in
    (statsLog s' = statsLog s /\ lastPerfBoundaries s' = lastPerfBoundaries s /\
     lastFxsMemory s' = lastFxsMemory s /\ lastNodeMemory s' = lastNodeMemory s /\
     written s' = written s) /\
    (forall cnt,
        lastPerfCounts s = Some cnt ->
        Counts.count (svMain metrics) < Counts.count (svMain cnt) ->
        lastPerfCounts s' = None /\ lastPerfSaved s' = None /\
        diffPerfs metrics (lastPerfCounts s') = metrics /\
        (nonNegativePerf metrics ->
         nonNegativePerfHist (perfCountsToHist (diffPerfs metrics (lastPerfCounts s'))))) /\
    (forall sv,
        countsAbove metrics (lastPerfCounts s) = false ->
        lastPerfSaved s = Some sv ->
        Counts.count (svMain metrics) < Counts.count (svMain (saved_counts sv)) ->
        lastPerfSaved s' = None /\ lastPerfCounts s' = lastPerfCounts s) /\
    (countsAbove metrics (lastPerfCounts s) = false ->
     countsAbove metrics (option_map saved_counts (lastPerfSaved s)) = false ->
     s' = s) /\
    (0 <= Counts.count (svMain metrics) ->
     0 <= Counts.count (svMain (diffPerfs metrics (lastPerfCounts s'))) /\
     0 <= Counts.count (svMain (diffPerfs metrics (saveBaseline s')))) /\
    (forall c raw cnt,
        reachesChecks c raw -> perfMetrics raw = metrics ->
        lastPerfCounts s = Some cnt ->
        Counts.count (svMain metrics) < Counts.count (svMain cnt) ->
        lastPerfCounts (atGate c raw s) = None /\
        lastPerfSaved (atGate c raw s) = None /\
        statsLog (fst (collectStats c s)) =
          optimizeStatsLog
            (statsLog (atGate c raw s) ++
             [data (cycle_now c) (onlineCount c) (afterMemoryFetch c (lastFxsMemory s))
                   (option_map used (lastNodeMemory s)) (perfCountsToHist metrics)])).
Proof.
  intros metrics s s'.
  assert (Ha : forall cnt, lastPerfCounts s = Some cnt ->
                 Counts.count (svMain metrics) < Counts.count (svMain cnt) ->
                 s' = resetPerfState s).
  { intros cnt E L. subst s'. unfold checkCounterReset.
    rewrite (proj2 (countsAbove_true metrics (lastPerfCounts s)))
      by (exists cnt; auto). reflexivity. }
  split; [| split; [| split; [| split; [| split]]]].
  - subst s'. unfold checkCounterReset.
    destruct (countsAbove metrics (lastPerfCounts s)); [repeat split |].
    destruct (countsAbove metrics _); repeat split.
  - intros cnt E L. rewrite (Ha cnt E L). cbn.
    split; [reflexivity | split; [reflexivity | split; [reflexivity |]]].
    apply perfCountsToHist_nonneg.
  - intros sv A E L. subst s'. unfold checkCounterReset. rewrite A.
    rewrite (proj2 (countsAbove_true metrics (option_map saved_counts (lastPerfSaved s))))
      by (exists (saved_counts sv); rewrite E; auto).
    split; reflexivity.
  - intros A B. subst s'. unfold checkCounterReset. rewrite A, B. reflexivity.
  - intros N. subst s'. unfold checkCounterReset, saveBaseline.
    destruct (countsAbove metrics (lastPerfCounts s)) eqn:A;
      [cbn; split; exact N |].
    destruct (countsAbove metrics (option_map saved_counts (lastPerfSaved s))) eqn:B.
    + cbn. split; apply countsAbove_false_delta; assumption.
    + split; [apply countsAbove_false_delta; assumption |].
      destruct (lastPerfSaved s) as [sv |];
        apply countsAbove_false_delta; assumption.
  - intros c raw cnt R Em E L.
    assert (G : lastPerfCounts (atGate c raw s) = None /\
                lastPerfSaved (atGate c raw s) = None).
    { unfold atGate. rewrite Em.
      destruct (checkBoundaries_caches (perfBoundaries raw) (memoryFetched c s))
        as [[Hc Hs] | ->].
      - rewrite checkCounterReset_cleared by assumption. split; assumption.
      - unfold checkCounterReset.
        rewrite (proj2 (countsAbove_true metrics (lastPerfCounts (memoryFetched c s))))
          by (exists cnt; auto). split; reflexivity. }
    destruct G as [Gc Gs]. split; [exact Gc | split; [exact Gs |]].
    rewrite (collectStats_full c s raw R). cbn [fst]. rewrite Em.
    destruct (updateAndSave_fresh (cycle_now c) (onlineCount c) metrics
                (atGate c raw s) Gc Gs) as [-> _].
    destruct (atGate_memory c raw s) as [-> ->]. reflexivity.
Qed.

(** ** Performance collector: the log never repeats a marker *)

Lemma at_last_cons (A : Type) (a : A) (l : list A) :
  at_last (a :: l) = match at_last l with Some y => Some y | None => Some a end.
Proof.
  unfold at_last. simpl. destruct (rev l); reflexivity.
Qed.

Lemma noTwinMarkers_tail (a : SSLogEntry) (l : SSLogType) :
  noTwinMarkers (a :: l) = true -> noTwinMarkers l = true.
Proof.
  destruct l as [| b l]; [reflexivity |].
  intros H. change (negb (sameMarker a b) && noTwinMarkers (b :: l) = true) in H.
  apply andb_true_iff in H. exact (proj2 H).
Qed.

Lemma noTwinMarkers_snoc (l : SSLogType) (x : SSLogEntry) :
  noTwinMarkers (l ++ [x]) =
    noTwinMarkers l &&
    match at_last l with
    | Some y => negb (sameMarker y x)
    | None => true
    end.
Proof.
  induction l as [| a l IH]; [reflexivity |].
  destruct l as [| b l].
  - simpl. rewrite andb_true_r. reflexivity.
  - change (noTwinMarkers ((a :: b :: l) ++ [x]))
      with (negb (sameMarker a b) && noTwinMarkers ((b :: l) ++ [x])).
    change (noTwinMarkers (a :: b :: l))
      with (negb (sameMarker a b) && noTwinMarkers (b :: l)).
    rewrite IH, (at_last_cons _ a (b :: l)), andb_assoc.
    destruct (at_last (b :: l)) eqn:E; [reflexivity |].
    rewrite at_last_cons in E. destruct (at_last l); discriminate.
Qed.

Lemma noTwinMarkers_removelast (l : SSLogType) :
  noTwinMarkers l = true -> noTwinMarkers (removelast l) = true.
Proof.
  destruct (at_last_cases _ l) as [[-> _] | (l' & x & -> & _)]; [reflexivity |].
  rewrite removelast_last, noTwinMarkers_snoc. intros H.
  apply andb_true_iff in H. exact (proj1 H).
Qed.

(** What the boolean check means: no two adjacent entries are both boots or
    both closes. *)
Lemma noTwinMarkers_adjacent (l : SSLogType) :
  noTwinMarkers l = true ->
  forall pre a b post, l = pre ++ a :: b :: post -> sameMarker a b = false.
Proof.
  intros H pre. revert l H.
  induction pre as [| p pre IH]; intros l H a b post ->.
  - change (negb (sameMarker a b) && noTwinMarkers (b :: post) = true) in H.
    apply andb_true_iff in H. apply negb_true_iff. exact (proj1 H).
  - apply (IH (pre ++ a :: b :: post) (noTwinMarkers_tail p _ H) a b post).
    reflexivity.
Qed.

Lemma atGate_log (c : Cycle) (raw : RawPerfData) (s : PerformanceCollector) :
  statsLog (atGate c raw s) = statsLog s \/ statsLog (atGate c raw s) = [].
Proof.
  unfold atGate.
  assert (K : forall m g, statsLog (checkCounterReset m g) = statsLog g).
  { intros m g. unfold checkCounterReset.
    destruct (countsAbove m (lastPerfCounts g)); [reflexivity |].
    destruct (countsAbove m _); reflexivity. }
  rewrite K. unfold checkBoundaries.
  destruct (lastPerfCounts (memoryFetched c s)), (lastPerfSaved (memoryFetched c s)),
    (lastPerfBoundaries (memoryFetched c s)); try (left; reflexivity).
  destruct (negb _); [right | left]; reflexivity.
Qed.

Lemma updateAndSave_log (now players : Z) (m : SSPerfCountsType)
  (g : PerformanceCollector) :
  statsLog (updateAndSave now players m g) = statsLog g \/
  exists snapshot,
    isSSLogDataType snapshot = true /\
    statsLog (updateAndSave now players m g) =
      optimizeStatsLog (statsLog g ++ [snapshot]).
Proof.
  unfold updateAndSave. destruct (perfHistToSave _ _ _ _) as [hist |].
  - right. eexists. split; [| reflexivity]. reflexivity.
  - left. reflexivity.
Qed.

Section Alternation.
Hypothesis optimizer_keeps_alternation :
  forall l, noTwinMarkers l = true -> noTwinMarkers (optimizeStatsLog l) = true.

Lemma logServerBoot_alternates (now bootTime : Z) (s : PerformanceCollector) :
  noTwinMarkers (statsLog s) = true ->
  noTwinMarkers (statsLog (logServerBoot now bootTime s)) = true.
Proof.
  intros H. rewrite logServerBoot_log. apply optimizer_keeps_alternation.
  rewrite noTwinMarkers_snoc.
  destruct (at_last_cases _ (statsLog s)) as [[E L] | (l & x & E & L)]; rewrite L.
  - rewrite E. reflexivity.
  - destruct x as [ts b | ts r | ts p f n h].
    + rewrite E, removelast_last.
      rewrite E, noTwinMarkers_snoc in H. apply andb_true_iff in H.
      destruct H as [Hl Hx]. rewrite Hl. simpl.
      destruct (at_last l) as [y |]; [| reflexivity].
      destruct y; simpl in Hx |- *; try reflexivity; discriminate.
    + rewrite H, L. reflexivity.
    + rewrite H, L. reflexivity.
Qed.

Lemma logServerClose_alternates (now : Z) (reason : string) (s : PerformanceCollector) :
  noTwinMarkers (statsLog s) = true ->
  noTwinMarkers (statsLog (logServerClose now reason s)) = true.
Proof.
  intros H. unfold logServerClose.
  change (statsLog (resetMemoryState (resetPerfState s))) with (statsLog s).
  destruct (at_last (statsLog s)) as [[ts b | ts r | ts p f n h] |] eqn:L.
  - apply noTwinMarkers_removelast. exact H.
  - exact H.
  - rewrite saveStatsHistory_log. apply optimizer_keeps_alternation.
    cbn [statsLog set_statsLog]. unfold push.
    change (statsLog (resetMemoryState (resetPerfState s))) with (statsLog s).
    rewrite noTwinMarkers_snoc, H, L. reflexivity.
  - rewrite saveStatsHistory_log. apply optimizer_keeps_alternation.
    cbn [statsLog set_statsLog]. unfold push.
    change (statsLog (resetMemoryState (resetPerfState s))) with (statsLog s).
    rewrite noTwinMarkers_snoc, H, L. reflexivity.
Qed.

Lemma collectStats_alternates (c : Cycle) (s : PerformanceCollector) :
  noTwinMarkers (statsLog s) = true ->
  noTwinMarkers (statsLog (fst (collectStats c s))) = true.
Proof.
  intros H.
  destruct (collectStats_cases c s) as [-> | [-> | (raw & _ & ->)]];
    [exact H | exact H |].
  assert (G : noTwinMarkers (statsLog (atGate c raw s)) = true)
    by (destruct (atGate_log c raw s) as [-> | ->]; [exact H | reflexivity]).
  destruct (updateAndSave_log (cycle_now c) (onlineCount c) (perfMetrics raw)
              (atGate c raw s)) as [-> | (snapshot & D & ->)]; [exact G |].
  apply optimizer_keeps_alternation. rewrite noTwinMarkers_snoc, G.
  destruct (at_last (statsLog (atGate c raw s))) as [y |]; [| reflexivity].
  destruct snapshot; try discriminate. destruct y; reflexivity.
Qed.

Lemma perform_alternates (op : Operation) (s : PerformanceCollector) :
  noTwinMarkers (statsLog s) = true ->
  noTwinMarkers (statsLog (perform s op)) = true.
Proof.
  destruct op; simpl.
  - apply logServerBoot_alternates.
  - apply logServerClose_alternates.
  - apply collectStats_alternates.
Qed.

Lemma performAll_alternates (ops : list Operation) (s : PerformanceCollector) :
  noTwinMarkers (statsLog s) = true ->
  noTwinMarkers (statsLog (performAll s ops)) = true.
Proof.
  revert s. induction ops as [| op ops IH]; intros s H; [exact H |].
  apply IH, perform_alternates, H.
Qed.

End Alternation.


(** ** Performance collector: the summary *)

Lemma sumQc_snoc (l : list Qc) (x : Qc) : sumQc (l ++ [x]) = (sumQc l + x)%Qc.
Proof.
  induction l as [| a l IH]; simpl; [ring | rewrite IH; ring].
Qed.

Lemma sumQc_map_plus (A : Type) (f g : A -> Qc) (l : list A) :
  sumQc (map (fun a => (f a + g a)%Qc) l) = (sumQc (map f l) + sumQc (map g l))%Qc.
Proof.
  induction l as [| a l IH]; simpl; [ring | rewrite IH; ring].
Qed.

Lemma sumQc_map_zero (A : Type) (l : list A) : sumQc (map (fun _ => 0%Qc) l) = 0%Qc.
Proof.
  induction l as [| a l IH]; simpl; [reflexivity | rewrite IH; ring].
Qed.

Lemma addAt_length (i : nat) (x : Qc) (arr : list Qc) :
  List.length (addAt i x arr) = List.length arr.
Proof.
  revert i. induction arr as [| a arr IH]; intros i; [reflexivity |].
  destruct i; simpl; [reflexivity | rewrite IH; reflexivity].
Qed.

Lemma addAt_nth (i j : nat) (x : Qc) (arr : list Qc) :
  (i < List.length arr)%nat ->
  nth j (addAt i x arr) 0%Qc =
    if (j =? i)%nat then (nth j arr 0 + x)%Qc else nth j arr 0%Qc.
Proof.
  revert i j. induction arr as [| a arr IH]; intros i j H; [simpl in H; lia |].
  destruct i as [| i]; destruct j as [| j]; simpl; try reflexivity.
  apply IH. simpl in H. lia.
Qed.

(** The inner loop over the first [n] buckets adds each bucket's ticks to its
    own cell and all of them to [cumTicks]. *)
Lemma inner_loop (h : Hist.t) (n : nat) (acc : Scan) :
  (n <= List.length (cumBuckets acc))%nat ->
  let t := fun j => (nth j (Hist.freqs h) 0 * Z2Qc (Hist.count h))%Qc in
  let acc' := fold_left (addBucket h) (seq 0 n) acc in
  List.length (cumBuckets acc') = List.length (cumBuckets acc) /\
  (forall j, nth j (cumBuckets acc') 0%Qc =
             if (j <? n)%nat then (nth j (cumBuckets acc) 0 + t j)%Qc
             else nth j (cumBuckets acc) 0%Qc) /\
  cumTicks acc' = (cumTicks acc + sumQc (map t (seq 0 n)))%Qc /\
  totalSnapshots acc' = totalSnapshots acc /\
  scan_players acc' = scan_players acc /\
  scan_fxsMemory acc' = scan_fxsMemory acc /\
  scan_nodeMemory acc' = scan_nodeMemory acc.
Proof.
  intros Hn t. induction n as [| n IH].
  - simpl. repeat split; try reflexivity. ring.
  - rewrite seq_S, fold_left_app. simpl fold_left.
    destruct IH as (L & N & T & S1 & S2 & S3 & S4); [lia |].
    cbn [addBucket cumBuckets cumTicks totalSnapshots scan_players scan_fxsMemory
         scan_nodeMemory Nat.add].
    split; [rewrite addAt_length; exact L |].
    split; [| split; [| repeat split; assumption]].
    + intros j. rewrite addAt_nth by (rewrite L; lia). rewrite N.
      destruct (Nat.eqb_spec j n) as [-> | Hne].
      * rewrite (proj2 (Nat.ltb_ge n n)) by lia.
        rewrite (proj2 (Nat.ltb_lt n (S n))) by lia. reflexivity.
      * destruct (Nat.ltb_spec j n); destruct (Nat.ltb_spec j (S n));
          try reflexivity; lia.
    + rewrite T, map_app. simpl map. rewrite sumQc_snoc. unfold t. ring.
Qed.

Lemma qualifying_snoc (now : Z) (log : SSLogType) (e : SSLogEntry) :
  qualifying now (log ++ [e]) =
    qualifying now log ++ (if qualifies now e then [e] else []).
Proof. unfold qualifying. rewrite filter_app. reflexivity. Qed.

Lemma bucketTicks_snoc (i : nat) (q : SSLogType) (e : SSLogEntry) :
  bucketTicks i (q ++ [e]) = (bucketTicks i q + ticksOf i e)%Qc.
Proof. unfold bucketTicks. rewrite map_app. apply sumQc_snoc. Qed.

Lemma totalTicks_snoc (q : SSLogType) (e : SSLogEntry) :
  totalTicks (q ++ [e]) =
    (totalTicks q + sumQc (map (fun i => ticksOf i e) (seq 0 PERF_DATA_BUCKET_COUNT)))%Qc.
Proof.
  unfold totalTicks. rewrite <- sumQc_map_plus. f_equal.
  apply map_ext. intros i. apply bucketTicks_snoc.
Qed.

(** What the scan loop has accumulated after any prefix of the log, in terms
    of the qualifying snapshots of that prefix. *)
Lemma scan_invariant (now : Z) (log : SSLogType) :
  scanMatches
    (fold_left (scanEntry (now - scanWindow)) log
       (mkScan (repeat 0%Qc PERF_DATA_BUCKET_COUNT) 0%Qc 0%nat [] [] []))
    (qualifying now log).
Proof.
  induction log as [| e log IH] using rev_ind.
  - split; [apply repeat_length |].
    split; [intros j _; simpl; rewrite nth_repeat; reflexivity |].
    split; [symmetry; apply (sumQc_map_zero nat) |].
    repeat split.
  - rewrite fold_left_app, qualifying_snoc. simpl fold_left.
    set (acc := fold_left (scanEntry (now - scanWindow)) log _) in *.
    assert (Skip : qualifies now e = false -> scanEntry (now - scanWindow) acc e = acc ->
                   scanMatches (scanEntry (now - scanWindow) acc e)
                     (qualifying now log ++ (if qualifies now e then [e] else []))).
    { intros Q E. rewrite Q, E, app_nil_r. exact IH. }
    destruct IH as (L & N & T & S1 & S2 & S3 & S4).
    destruct e as [ts b | ts r | ts players fxs node perf].
    + apply Skip; [reflexivity |]. unfold scanEntry. destruct (_ <? _); reflexivity.
    + apply Skip; [reflexivity |]. unfold scanEntry. destruct (_ <? _); reflexivity.
    + unfold scanEntry, qualifies in *. cbn [ts_of] in *.
      rewrite (Z.leb_antisym ts (now - scanWindow)) in *.
      destruct (ts <? now - scanWindow); [apply Skip; reflexivity |].
      rewrite (Z.leb_antisym (Hist.count (svMain perf)) PERF_DATA_MIN_TICKS) in *.
      destruct (Hist.count (svMain perf) <? PERF_DATA_MIN_TICKS);
        [apply Skip; reflexivity |].
      clear Skip. cbn [negb andb].
      destruct (inner_loop (svMain perf) PERF_DATA_BUCKET_COUNT
                  (mkScan (cumBuckets acc) (cumTicks acc) (S (totalSnapshots acc))
                          (push (scan_players acc) (Some (Z2Qc players)))
                          (push (scan_fxsMemory acc) fxs)
                          (push (scan_nodeMemory acc) node)))
        as (L' & N' & T' & S1' & S2' & S3' & S4');
        [cbn [cumBuckets]; rewrite L; apply le_n |].
      cbn [cumBuckets cumTicks totalSnapshots scan_players scan_fxsMemory
           scan_nodeMemory] in L', N', T', S1', S2', S3', S4'.
      split; [rewrite L'; exact L |].
      split; [| split; [| split; [| split; [| split]]]].
      * intros j Hj. rewrite N', (proj2 (Nat.ltb_lt j _) Hj), (N j Hj).
        rewrite bucketTicks_snoc. reflexivity.
      * rewrite T', T, totalTicks_snoc. reflexivity.
      * rewrite S1', S1, length_app. simpl. lia.
      * rewrite S2', S2, map_app. reflexivity.
      * rewrite S3', S3, map_app. reflexivity.
      * rewrite S4', S4, map_app. reflexivity.
Qed.

(** C2: [getServerPerfSummary()] looks only at the data entries of the last
    six hours whose svMain tick count reaches the minimum; with fewer than 36
    of them it returns [null]; otherwise it returns their number, for each
    bucket the sum over the snapshots of [freq * count] divided by the sum of
    all those products (a count-weighted aggregation), and the medians of
    players, fxsMemory and nodeMemory over the same snapshots. *)
Theorem perf_summary_weighted :
  forall (now : Z) (s : PerformanceCollector),
    Forall wellFormedEntry (statsLog s) ->
    let q := qualifying now (statsLog s) in
    (forall e, In e q <->
               In e (statsLog s) /\
               exists ts players fxs node perf,
                 e = data ts players fxs node perf /\
                 now - 6 * 60 * 60 * 1000 <= ts /\
                 PERF_DATA_MIN_TICKS <= Hist.count (svMain perf)) /\
    ((List.length q < 36)%nat -> getServerPerfSummary now s = None) /\
    ((36 <= List.length q)%nat ->
     getServerPerfSummary now s =
       Some {| snaps := List.length q;
               sum_freqs :=
                 map (fun i => fdiv (sumQc (map (ticksOf i) q))
                                    (sumQc (map (fun k => sumQc (map (ticksOf k) q))
                                                (seq 0 PERF_DATA_BUCKET_COUNT))))
                     (seq 0 PERF_DATA_BUCKET_COUNT);
               sum_players := median (map players_of q);
               sum_fxsMemory := median (map fxsMemory_of q);
               sum_nodeMemory := median (map nodeMemory_of q) |}).
Proof.
  intros now s _ q.
  split.
  { intros e. unfold q, qualifying. rewrite filter_In. unfold qualifies, scanWindow.
    split.
    - intros [I Q]. split; [exact I |].
      destruct e as [| | ts players fxs node perf]; try discriminate.
      apply andb_true_iff in Q. destruct Q as [Q1 Q2].
      exists ts, players, fxs, node, perf.
      split; [reflexivity | split; [apply Z.leb_le, Q1 | apply Z.leb_le, Q2]].
    - intros [I (ts & players & fxs & node & perf & -> & H1 & H2)].
      split; [exact I |]. apply andb_true_iff.
      split; apply Z.leb_le; assumption. }
  destruct (scan_invariant now (statsLog s)) as (L & N & T & S1 & S2 & S3 & S4).
  fold q in N, T, S1, S2, S3, S4.
  unfold getServerPerfSummary.
  set (acc := fold_left _ _ _) in *.
  assert (B : cumBuckets acc =
              map (fun i => bucketTicks i q) (seq 0 PERF_DATA_BUCKET_COUNT)).
  { apply (nth_ext _ _ 0%Qc 0%Qc).
    - rewrite length_map, length_seq. exact L.
    - intros j Hj. rewrite L in Hj. rewrite (N j Hj).
      rewrite (nth_indep _ 0%Qc (bucketTicks 0 q))
        by (rewrite length_map, length_seq; exact Hj).
      rewrite (map_nth (fun i => bucketTicks i q)), seq_nth by exact Hj.
      reflexivity. }
  rewrite S1. unfold minSnapshots. split.
  - intros H. rewrite (proj2 (Nat.ltb_lt _ _) H). reflexivity.
  - intros H. rewrite (proj2 (Nat.ltb_ge _ _) H).
    rewrite B, T, S2, S3, S4, map_map. reflexivity.
Qed.

End CollectorFacts.

(** * The properties on concrete histories *)

Lemma skipn_alternates (n : nat) (l : SSLogType) :
  noTwinMarkers l = true -> noTwinMarkers (skipn n l) = true.
Proof.
  revert l. induction n as [| n IH]; intros l H; [exact H |].
  destruct l as [| a l]; [reflexivity |].
  apply IH. exact (noTwinMarkers_tail a l H).
Qed.

Lemma keepNewest_alternates (limit : nat) (l : SSLogType) :
  noTwinMarkers l = true -> noTwinMarkers (keepNewest limit l) = true.
Proof. apply skipn_alternates. Qed.

(** C3 as stated fails in the boot branch: after a boot on an empty log, and
    once its save has completed, the file holds the boot marker; the close
    that follows removes the marker from the log and returns without saving,
    so the resulting (empty) log is not the one in the file. *)
Lemma close_after_boot_not_persisted :
  let s := logServerBoot (imports := sampleImports) 1000 100 initial in
  let s' := logServerClose (imports := sampleImports) 2000 "crash" s in
  statsLog s = [svBoot 1000 100] /\
  statsLog s' = [] /\
  map file_log (written s') = [[svBoot 1000 100]] /\
  ~ persisted s'.
Proof.
  cbv zeta. split; [reflexivity | split; [reflexivity | split; [reflexivity |]]].
  intros H. vm_compute in H. discriminate H.
Qed.

(** The amended C3 for a server that is closed twice in a row, closed right
    after booting, and closed after a collection. *)
Lemma logServerClose_effect_witness :
  statsLog (logServerClose (imports := sampleImports) 2000 "crash"
              (logServerBoot (imports := sampleImports) 1000 100 initial)) = [] /\
  statsLog (logServerClose (imports := sampleImports) 200000 "again"
              (set_statsLog [svBoot 1000 100; svClose 2000 "crash"] initial)) =
    [svBoot 1000 100; svClose 2000 "crash"] /\
  persisted (logServerClose (imports := sampleImports) 2000 "crash" initial).
Proof.
  split; [| split].
  - destruct (logServerClose_effect (imports := sampleImports) 2000 "crash" initial)
      as (_ & _ & _ & _ & H).
    exact (H 1000 100 eq_refl eq_refl).
  - destruct (logServerClose_effect (imports := sampleImports) 200000 "again"
                (set_statsLog [svBoot 1000 100; svClose 2000 "crash"] initial))
      as (_ & H & _).
    exact (proj1 (H [svBoot 1000 100] 2000 "crash"%string eq_refl)).
  - destruct (logServerClose_effect (imports := sampleImports) 2000 "crash" initial)
      as (_ & _ & _ & H & _).
    exact (proj1 (proj2 (H (or_introl eq_refl)))).
Defined.

Lemma at_last_filter_snoc (p : SSLogEntry -> bool) (l : SSLogType) (x : SSLogEntry) :
  p x = true -> at_last (filter p (l ++ [x])) = Some x.
Proof.
  intros H. rewrite filter_app. simpl. rewrite H. apply at_last_snoc.
Qed.

Lemma filter_twice (p : SSLogEntry -> bool) (l : SSLogType) :
  filter p (filter p l) = filter p l.
Proof.
  induction l as [| a l IH]; [reflexivity |].
  simpl. destruct (p a) eqn:E; [simpl; rewrite E, IH; reflexivity | exact IH].
Qed.

Lemma filter_swap (p q : SSLogEntry -> bool) (l : SSLogType) :
  filter p (filter q l) = filter q (filter p l).
Proof.
  induction l as [| a l IH]; [reflexivity |].
  simpl. destruct (p a) eqn:P, (q a) eqn:Q; simpl; rewrite ?P, ?Q, IH; reflexivity.
Qed.

(** The retention optimizer meets what the specification asks of an
    optimizer: it drops no marker, it keeps the order (it is a filter), its
    result is no longer than its input and holds no data entry with too few
    ticks, and a second run changes nothing. *)
Lemma retentionOptimizer_meets_spec (band coarse fine minTicks : Z) (l : SSLogType) :
  0 <= band ->
  let optimized := retentionOptimizer band coarse fine minTicks l in
  (forall e, In e l -> isSSLogDataType e = false -> In e optimized) /\
  (exists keep, optimized = filter keep l) /\
  (List.length optimized <= List.length l)%nat /\
  Forall (fun e => enoughTicks minTicks e = true) optimized /\
  retentionOptimizer band coarse fine minTicks optimized = optimized.
Proof.
  intros Hband optimized. subst optimized. unfold retentionOptimizer. cbv zeta.
  set (kept := filter (enoughTicks minTicks) l).
  split; [| split; [| split; [| split]]].
  - intros e I D.
    assert (K : In e kept)
      by (apply filter_In; split; [exact I | destruct e; [reflexivity .. | discriminate]]).
    destruct (at_last_cases _ kept) as [[E L] | (front & x & E & L)]; rewrite L.
    + rewrite E in K. destruct K.
    + apply filter_In. split; [exact K | destruct e; [reflexivity .. | discriminate]].
  - destruct (at_last_cases _ kept) as [[E L] | (front & x & E & L)]; rewrite L.
    + exists (fun _ => false). clear. induction l; [reflexivity | assumption].
    + exists (fun e => enoughTicks minTicks e && retained band coarse fine (ts_of x) e).
      subst kept. clear. induction l as [| a l IH]; [reflexivity |].
      simpl. destruct (enoughTicks minTicks a); simpl;
        [destruct (retained band coarse fine (ts_of x) a) |]; rewrite IH; reflexivity.
  - destruct (at_last kept); [| apply Nat.le_0_l].
    apply Nat.le_trans with (List.length kept); apply filter_length_le.
  - destruct (at_last kept); [| constructor].
    apply Forall_forall. intros e I. apply filter_In in I. destruct I as [I _].
    apply filter_In in I. exact (proj2 I).
  - destruct (at_last_cases _ kept) as [[E L] | (front & x & E & L)]; rewrite L.
    + reflexivity.
    + set (w := retained band coarse fine (ts_of x)).
      assert (Px : enoughTicks minTicks x = true).
      { assert (I : In x kept) by (rewrite E; apply in_or_app; right; left; reflexivity).
        apply filter_In in I. exact (proj2 I). }
      assert (Wx : w x = true).
      { subst w; destruct x; simpl; try reflexivity.
        apply orb_true_iff. left. apply Z.leb_le. lia. }
      rewrite filter_swap. subst kept. rewrite filter_twice. rewrite E.
      rewrite (at_last_filter_snoc w front x Wx). fold w. apply filter_twice.
Qed.



(** C5: a change of boundaries is to discard the historical log.  The code
    misses it across a restart: the collector knows the boundaries [edgesA]
    (they are kept by [resetPerfState], which resets "the last perf data
    except boundaries"), the server is closed and booted again, and the next
    cycle fetches [edgesB]; since the boot has reset the counters the cycle
    takes the first-collection branch, which adopts [edgesB] without
    comparing, and the whole log recorded under [edgesA] is kept next to the
    new snapshot. *)
Lemma boundaries_changed_after_boot_keeps_log :
  let c := sampleCycle 190000 edgesB (sampleCounts 900 600 200 100) in
  lastPerfBoundaries secondBoot = Some edgesA /\
  edgesB <> edgesA /\
  map ts_of (statsLog secondBoot) = [1000; 61000; 120000; 130000] /\
  map isSSLogDataType (statsLog secondBoot) = [false; true; false; false] /\
  map ts_of (statsLog (fst (collectStats (imports := sampleImports) c secondBoot))) =
    [1000; 61000; 120000; 130000; 190000] /\
  lastPerfBoundaries (fst (collectStats (imports := sampleImports) c secondBoot)) =
    Some edgesB.
Proof.
  cbv zeta. split; [reflexivity |]. split; [discriminate |].
  split; [reflexivity |]. split; [reflexivity |]. split; vm_compute; reflexivity.
Qed.

(** The boundary check in a running session whose boundaries change: the log
    holds only the new snapshot afterwards. *)
Lemma boundary_check_effect_witness :
  let c := sampleCycle 121000 edgesB (sampleCounts 2000 1500 300 200) in
  map ts_of (statsLog (fst (collectStats (imports := sampleImports) c running))) = [121000] /\
  lastPerfBoundaries (fst (collectStats (imports := sampleImports) c running)) = Some edgesB.
Proof.
  intros c.
  destruct (boundary_check_effect (imports := sampleImports) edgesB running)
    as (_ & _ & H).
  destruct (H c {| perfBoundaries := edgesB;
                   perfMetrics := sampleCounts 2000 1500 300 200 |}) as [_ K].
  - repeat split.
  - reflexivity.
  - destruct (K (sampleCounts 1000 700 200 100)
                {| saved_ts := 61000; saved_counts := sampleCounts 1000 700 200 100 |}
                edgesA eq_refl eq_refl eq_refl) as [K1 K2].
    + discriminate.
    + split; [rewrite K1; reflexivity | exact K2].
Defined.


(** C7 in a running session whose counters restart below the cached ones. *)
Lemma counter_reset_effect_witness :
  let m := sampleCounts 900 600 200 100 in
  lastPerfCounts (checkCounterReset m running) = None /\
  lastPerfSaved (checkCounterReset m running) = None /\
  nonNegativePerfHist (perfCountsToHist (diffPerfs m (lastPerfCounts (checkCounterReset m running)))).
Proof.
  intros m.
  destruct (counter_reset_effect (imports := sampleImports) m running) as (_ & H & _).
  destruct (H (sampleCounts 1000 700 200 100) eq_refl eq_refl) as (A & B & _ & C).
  refine (conj A (conj B (C _))).
  repeat split; try (simpl; lia); repeat constructor; lia.
Defined.

(** C8 as stated fails for [lastFxsMemory]: the memory fetch is stored before
    the counter fetch is looked at, so a cycle aborted by a failed counter
    fetch, or by too few ticks, leaves the fetched memory value behind. *)
Lemma aborted_cycle_updates_fxs_memory :
  let s := logServerBoot (imports := sampleImports) 1000 100 initial in
  let few := sampleCycle 61000 edgesA (sampleCounts 100 70 20 10) in
  lastFxsMemory s = None /\
  snd (collectStats (imports := sampleImports) (failedCycle 61000) s) =
    Thrown (FetchRejected "ETIMEDOUT") /\
  lastFxsMemory (fst (collectStats (imports := sampleImports) (failedCycle 61000) s)) =
    Some (Z2Qc 512) /\
  fst (collectStats (imports := sampleImports) (failedCycle 61000) s) <> s /\
  notEnoughTicks (imports := sampleImports) (sampleCounts 100 70 20 10) = true /\
  snd (collectStats (imports := sampleImports) few s) = Returned /\
  lastFxsMemory (fst (collectStats (imports := sampleImports) few s)) = Some (Z2Qc 512) /\
  fst (collectStats (imports := sampleImports) few s) <> s.
Proof.
  cbv zeta.
  split; [reflexivity |]. split; [reflexivity |]. split; [reflexivity |].
  split; [intros H; apply (f_equal lastFxsMemory) in H; discriminate H |].
  split; [reflexivity |]. split; [reflexivity |]. split; [reflexivity |].
  intros H; apply (f_equal lastFxsMemory) in H; discriminate H.
Qed.

(** The amended C8 on the same aborted cycles, and on a cycle that finds the
    server offline. *)
Lemma collectStats_abort_state_witness :
  collectStats (imports := sampleImports) (offlineCycle 61000) running =
    (running, Returned) /\
  collectStats (imports := sampleImports) (failedCycle 121000) running =
    (memoryFetched (failedCycle 121000) running, Thrown (FetchRejected "ETIMEDOUT")) /\
  collectStats (imports := sampleImports)
    (sampleCycle 121000 edgesA (sampleCounts 100 70 20 10)) running =
    (memoryFetched (sampleCycle 121000 edgesA (sampleCounts 100 70 20 10)) running,
     Returned).
Proof.
  split; [| split].
  - destruct (collectStats_abort_state (imports := sampleImports)
                (offlineCycle 61000) running) as (H & _).
    exact (H eq_refl).
  - destruct (collectStats_abort_state (imports := sampleImports)
                (failedCycle 121000) running) as (_ & _ & H & _).
    exact (H "ETIMEDOUT"%string eq_refl eq_refl eq_refl).
  - destruct (collectStats_abort_state (imports := sampleImports)
                (sampleCycle 121000 edgesA (sampleCounts 100 70 20 10)) running)
      as (_ & _ & _ & H & _).
    exact (H _ eq_refl eq_refl eq_refl eq_refl).
Defined.



(** C2 on three hours of snapshots read at the end of the third hour, and on
    the same log read nine hours later, when every snapshot is out of the
    window. *)
Lemma perf_summary_weighted_witness :
  option_map snaps (getServerPerfSummary (imports := sampleImports) 10800000 threeHours) =
    Some 36%nat /\
  getServerPerfSummary (imports := sampleImports) 43200000 threeHours = None.
Proof.
  assert (W : Forall (wellFormedEntry (imports := sampleImports)) (statsLog threeHours))
    by (repeat constructor).
  destruct (perf_summary_weighted (imports := sampleImports) 10800000 threeHours W)
    as (_ & _ & Hsome).
  destruct (perf_summary_weighted (imports := sampleImports) 43200000 threeHours W)
    as (_ & Hnone & _).
  split.
  - rewrite Hsome; [reflexivity |]. apply Nat.leb_le. vm_compute. reflexivity.
  - apply Hnone. apply Nat.ltb_lt. vm_compute. reflexivity.
Defined.

(** The aggregation is weighted by tick counts: with light snapshots (1000
    ticks, half of them in bucket 0) and heavy ones (3000 ticks, all in
    bucket 0) in equal number, bucket 0 gets 7/8, where the plain mean of the
    frequencies would give 3/4. *)
Example summary_is_count_weighted :
  option_map (fun r => map (option_map this) (sum_freqs r))
             (getServerPerfSummary (imports := sampleImports) 10800000 threeHours) =
    Some [Some (7 # 8)%Q; Some (1 # 8)%Q; Some 0%Q] /\
  option_map this
    (meanFreq 0 (qualifying (imports := sampleImports) 10800000 (statsLog threeHours))) =
    Some (3 # 4)%Q.
Proof. split; vm_compute; reflexivity. Qed.

(** * Further properties *)

(** ** Stopwatch *)

(** X1: the elapsed time of a stopwatch is [Infinity] exactly when it is not
    started; once started at [t0], and read at or after [t0], it is a
    non-negative whole number of seconds, the floor of the elapsed
    milliseconds over 1000, and a later reading is never smaller. *)
Theorem stopwatch_elapsed_seconds :
  forall (sw : Stopwatch.t) (now : Z),
    (Stopwatch.elapsed now sw = Infinity <-> Stopwatch.started sw = false) /\
    (forall t0,
        Stopwatch.tsStart sw = Some t0 -> t0 <= now ->
        exists e,
          Stopwatch.elapsed now sw = Finite e /\
          0 <= e /\ 1000 * e <= now - t0 < 1000 * e + 1000 /\
          (forall later, now <= later ->
             exists e', Stopwatch.elapsed later sw = Finite e' /\ e <= e')).
Proof.
  intros sw now. unfold Stopwatch.elapsed, Stopwatch.started.
  split.
  - destruct (Stopwatch.tsStart sw); split; intros H; try reflexivity; discriminate.
  - intros t0 E Hle. rewrite E. exists ((now - t0) / 1000).
    split; [reflexivity |].
    split; [apply Z.div_pos; lia |].
    split.
    + pose proof (Z.mul_div_le (now - t0) 1000 ltac:(lia)).
      pose proof (Z.mul_succ_div_gt (now - t0) 1000 ltac:(lia)). lia.
    + intros later Hl. exists ((later - t0) / 1000).
      split; [reflexivity |]. apply Z.div_le_mono; lia.
Qed.

(** A stopwatch restarted at 2 s and read at 9.7 s and at 12 s. *)
Lemma stopwatch_elapsed_seconds_witness :
  exists e,
    Stopwatch.elapsed 9700 (Stopwatch.restart 2000 (Stopwatch.new false 0)) = Finite e /\
    0 <= e /\
    1000 * e <= 9700 - 2000 < 1000 * e + 1000 /\
    (forall later, 9700 <= later ->
       exists e',
         Stopwatch.elapsed later (Stopwatch.restart 2000 (Stopwatch.new false 0)) =
           Finite e' /\ e <= e').
Proof.
  exact (proj2 (stopwatch_elapsed_seconds
                  (Stopwatch.restart 2000 (Stopwatch.new false 0)) 9700)
               2000 eq_refl ltac:(lia)).
Defined.

Lemma threshold_reached (q : Q) (e : Z) :
  Qle_bool q (inject_Z e) = true <-> Qceiling q <= e.
Proof.
  rewrite Qle_bool_iff. split.
  - intros H. apply Qceiling_resp_le in H. rewrite Qceiling_Z in H. exact H.
  - intros H. apply Qle_trans with (inject_Z (Qceiling q)); [apply Qle_ceiling |].
    rewrite <- Zle_Qle. exact H.
Qed.

(** X2: [isOver(secs)] holds exactly when the stopwatch is started and its
    whole seconds elapsed reach [secs]: for a finite [secs] when at least
    1000 times [secs] rounded up to a whole number of milliseconds have
    elapsed, which for a whole [secs] is [1000 * secs]; it is false for
    [NaN] and [+Infinity] and for a stopwatch that is not started; and once
    true it stays true at any later reading and for any smaller
    threshold. *)
Theorem stopwatch_isOver_reached :
  forall (sw : Stopwatch.t) (now : Z),
    (forall q : Q,
        Stopwatch.isOverNumber now sw (Num q) = true <->
        exists t0, Stopwatch.tsStart sw = Some t0 /\ 1000 * Qceiling q <= now - t0) /\
    (forall secs : Z,
        Stopwatch.isOver now sw secs = Stopwatch.isOverNumber now sw (Num (inject_Z secs)) /\
        (Stopwatch.isOver now sw secs = true <->
         exists t0, Stopwatch.tsStart sw = Some t0 /\ 1000 * secs <= now - t0)) /\
    (Stopwatch.isOverNumber now sw NaN = false /\
     Stopwatch.isOverNumber now sw PlusInfinity = false /\
     Stopwatch.isOverNumber now sw MinusInfinity = Stopwatch.started sw) /\
    (forall secs : JsNumber,
        Stopwatch.started sw = false -> Stopwatch.isOverNumber now sw secs = false) /\
    (forall (q smaller : Q) (later : Z),
        Stopwatch.isOverNumber now sw (Num q) = true ->
        now <= later -> (smaller <= q)%Q ->
        Stopwatch.isOverNumber later sw (Num smaller) = true).
Proof.
  intros sw now.
  assert (Char : forall n q, Stopwatch.isOverNumber n sw (Num q) = true <->
                             exists t0, Stopwatch.tsStart sw = Some t0 /\
                                        1000 * Qceiling q <= n - t0).
  { intros n q. unfold Stopwatch.isOverNumber, Stopwatch.elapsed.
    destruct (Stopwatch.tsStart sw) as [t0 |].
    - rewrite threshold_reached, <- Z.leb_le, floor_secs_reached, Z.leb_le. split.
      + intros H. exists t0. split; [reflexivity | exact H].
      + intros (t & E & H). injection E as <-. exact H.
    - split; [discriminate | intros (t & E & _); discriminate]. }
  assert (Whole : forall secs : Z,
             Stopwatch.isOver now sw secs =
               Stopwatch.isOverNumber now sw (Num (inject_Z secs))).
  { intros secs. unfold Stopwatch.isOver, Stopwatch.isOverNumber.
    destruct (Stopwatch.elapsed now sw) as [e |]; [| reflexivity].
    destruct (Z.leb_spec secs e) as [H | H]; symmetry.
    - apply Qle_bool_iff. rewrite <- Zle_Qle. exact H.
    - destruct (Qle_bool (inject_Z secs) (inject_Z e)) eqn:B; [| reflexivity].
      apply Qle_bool_iff in B. rewrite <- Zle_Qle in B. lia. }
  split; [apply Char |].
  split; [intros secs; split; [apply Whole |] |].
  { rewrite Whole, Char, Qceiling_Z. reflexivity. }
  unfold Stopwatch.started, Stopwatch.isOverNumber, Stopwatch.elapsed.
  split; [destruct (Stopwatch.tsStart sw); repeat split |].
  split; [intros secs; destruct (Stopwatch.tsStart sw); [discriminate | reflexivity] |].
  intros q smaller later H Hl Hs.
  change (Stopwatch.isOverNumber now sw (Num q) = true) in H.
  change (Stopwatch.isOverNumber later sw (Num smaller) = true).
  apply Char. apply Char in H. destruct H as (t0 & E & H). exists t0.
  split; [exact E |]. apply Qceiling_resp_le in Hs. lia.
Qed.

(** A stopwatch restarted at 2 s: over 4.5 s at 7 s (5 whole seconds), hence
    over 3 s at 8 s; and a second and a half is not over 1.5 s. *)
Lemma stopwatch_isOver_reached_witness :
  Stopwatch.isOverNumber 8000 (Stopwatch.restart 2000 (Stopwatch.new false 0))
    (Num (3 # 1)) = true /\
  Stopwatch.isOverNumber 3500 (Stopwatch.restart 2000 (Stopwatch.new false 0))
    (Num (3 # 2)) = false.
Proof.
  split.
  - apply (proj2 (proj2 (proj2 (proj2 (stopwatch_isOver_reached
                                          (Stopwatch.restart 2000 (Stopwatch.new false 0))
                                          7000))))
                 (9 # 2)%Q (3 # 1)%Q 8000); [reflexivity | lia | discriminate].
  - reflexivity.
Defined.

Lemma stopwatchRun_snoc (auto : bool) (now0 : Z) (calls : list StopwatchCall)
  (c : StopwatchCall) :
  stopwatchRun auto now0 (calls ++ [c]) = stopwatchCall (stopwatchRun auto now0 calls) c.
Proof. unfold stopwatchRun. rewrite fold_left_app. reflexivity. Qed.

Lemma stopwatchRun_autoStart (auto : bool) (now0 : Z) (calls : list StopwatchCall) :
  Stopwatch.autoStart (stopwatchRun auto now0 calls) = auto.
Proof.
  induction calls as [| c calls IH] using rev_ind.
  - destruct auto; reflexivity.
  - rewrite stopwatchRun_snoc. destruct c; simpl; [exact IH |].
    unfold Stopwatch.reset. rewrite IH. destruct auto; simpl; [exact IH | reflexivity].
Qed.

Lemma stopwatchRun_tsStart (auto : bool) (now0 : Z) (calls : list StopwatchCall) :
  Stopwatch.tsStart (stopwatchRun auto now0 calls) =
    match at_last calls with
    | Some (Restart t) => Some t
    | Some (Clear t) => if auto then Some t else None
    | None => if auto then Some now0 else None
    end.
Proof.
  destruct (at_last_cases _ calls) as [[-> _] | (earlier & c & -> & L)].
  - destruct auto; reflexivity.
  - rewrite L, stopwatchRun_snoc. destruct c; simpl; [reflexivity |].
    unfold Stopwatch.reset. rewrite stopwatchRun_autoStart.
    destruct auto; reflexivity.
Qed.

(** X3: a stopwatch keeps the auto start mode it was built with; one built
    with auto start is started from construction on, [reset()] restarting it
    at the time of the call; one built without is started exactly when its
    last call was [restart()]. *)
Theorem stopwatch_auto_start_history :
  forall (auto : bool) (now0 : Z) (calls : list StopwatchCall),
    let sw := stopwatchRun auto now0 calls in
    Stopwatch.autoStart sw = auto /\
    Stopwatch.tsStart sw =
      match at_last calls with
      | Some (Restart t) => Some t
      | Some (Clear t) => if auto then Some t else None
      | None => if auto then Some now0 else None
      end /\
    (auto = true -> Stopwatch.started sw = true) /\
    (auto = false ->
     (Stopwatch.started sw = true <-> exists earlier t, calls = earlier ++ [Restart t])).
Proof.
  intros auto now0 calls sw.
  split; [apply stopwatchRun_autoStart |].
  split; [apply stopwatchRun_tsStart |].
  unfold Stopwatch.started. subst sw. rewrite stopwatchRun_tsStart. split.
  - intros ->. destruct (at_last calls) as [[] |]; reflexivity.
  - intros ->. destruct (at_last_cases _ calls) as [[-> _] | (earlier & c & -> & L)].
    + simpl. split; [discriminate |].
      intros (e & t & H). destruct e; discriminate.
    + rewrite L. destruct c as [t | t].
      * split; [intros _; exists earlier, t; reflexivity | reflexivity].
      * split; [discriminate |].
        intros (e & t' & H). apply app_inj_tail in H. destruct H as [_ H]. discriminate.
Qed.

(** An auto-start stopwatch is still running after a [reset()]; a plain one
    is not. *)
Lemma stopwatch_auto_start_history_witness :
  Stopwatch.started (stopwatchRun true 0 [Restart 1000; Clear 5000]) = true /\
  ~ Stopwatch.started (stopwatchRun false 0 [Restart 1000; Clear 5000]) = true.
Proof.
  split.
  - exact (proj1 (proj2 (proj2 (stopwatch_auto_start_history true 0
                                  [Restart 1000; Clear 5000]))) eq_refl).
  - intros H.
    destruct (proj1 (proj2 (proj2 (proj2 (stopwatch_auto_start_history false 0
                                            [Restart 1000; Clear 5000]))) eq_refl) H)
      as (earlier & t & E).
    change [Restart 1000; Clear 5000] with ([Restart 1000] ++ [Clear 5000]) in E.
    apply app_inj_tail in E. destruct E as [_ E]. discriminate E.
Defined.

(** ** Health monitor *)

Section MonitorHistory.
Import HealthEventMonitor.



(** With both limits at 30 s a second that begins between the two tests of
    one reading gives [DELAYED]. *)
Example delayed_between_two_tests :
  state (statusAt 29999 30000 30000 30000 (markHealthyAt 0 0 (new 0 30 30))) = DELAYED.
Proof. reflexivity. Qed.

(** The stopwatch of a monitor holds the time of the last mark of the
    current epoch, and never starts by itself. *)
Lemma stopwatch_of_run (now0 delay fatal : Z) (calls : list Call) :
  Stopwatch.autoStart (swLastHealthyEvent (run (new now0 delay fatal) calls)) = false /\
  Stopwatch.tsStart (swLastHealthyEvent (run (new now0 delay fatal) calls)) =
    at_last (marksSinceReset calls).
Proof.
  induction calls as [| c calls [IHa IHt]] using rev_ind; [split; reflexivity |].
  rewrite run_snoc. destruct c as [now | now]; simpl.
  - rewrite marksSinceReset_mark, at_last_snoc. split; [exact IHa | reflexivity].
  - rewrite marksSinceReset_reset. unfold Stopwatch.reset. rewrite IHa.
    split; reflexivity.
Qed.

(** X5: after any history of calls on a new monitor, the state is [PENDING]
    exactly when there was no [markHealthy()] since construction or the last
    [reset()], and exactly then [secsSinceLast] is [Infinity]; otherwise
    [secsSinceLast] is the floored number of seconds since the latest
    [markHealthy()].  A [reset()] brings back the status of a new monitor. *)
Theorem monitor_pending_until_marked :
  forall (now0 delay fatal : Z) (calls : list Call) (now : Z),
    let m := run (new now0 delay fatal) calls in
    (state (status now m) = PENDING <-> marksSinceReset calls = []) /\
    (secsSinceLast (status now m) = Infinity <-> marksSinceReset calls = []) /\
    (forall earlier last,
        marksSinceReset calls = earlier ++ [last] ->
        secsSinceLast (status now m) = Finite ((now - last) / 1000)) /\
    (forall t, status now (reset t m) =
               {| state := PENDING; secsSinceLast := Infinity; secsSinceFirst := Infinity |}).
Proof.
  intros now0 delay fatal calls now m.
  destruct (stopwatch_of_run now0 delay fatal calls) as [Ha Ht]. fold m in Ha, Ht.
  assert (L : forall earlier last, marksSinceReset calls = earlier ++ [last] ->
                                   Stopwatch.tsStart (swLastHealthyEvent m) = Some last)
    by (intros earlier last E; rewrite Ht, E; apply at_last_snoc).
  assert (N : marksSinceReset calls = [] ->
              Stopwatch.tsStart (swLastHealthyEvent m) = None)
    by (intros E; rewrite Ht, E; reflexivity).
  unfold status; cbn [state secsSinceLast].
  unfold Stopwatch.started, Stopwatch.isOver, Stopwatch.elapsed.
  destruct (at_last_cases _ (marksSinceReset calls)) as [[E _] | (earlier & last & E & _)].
  - rewrite (N E). cbn [negb]. split; [split; auto |]. split; [split; auto |]. split.
    + intros e l E'. rewrite E in E'. destruct e; discriminate.
    + intros t. cbn [reset swLastHealthyEvent firstHealthyEvent].
      unfold Stopwatch.reset. rewrite Ha. reflexivity.
  - rewrite (L earlier last E). cbn [negb].
    assert (Ne : marksSinceReset calls <> [])
      by (rewrite E; intros H; destruct earlier; discriminate).
    split.
    + split; [| intros H; contradiction].
      destruct (_ <=? _); [discriminate |]. destruct (_ <=? _); discriminate.
    + split; [split; [discriminate | intros H; contradiction] |]. split.
      * intros e l E'. rewrite E in E'. apply app_inj_tail in E'.
        destruct E' as [_ ->]. reflexivity.
      * intros t. cbn [reset swLastHealthyEvent firstHealthyEvent].
        unfold Stopwatch.reset. rewrite Ha. reflexivity.
Qed.

(** A monitor marked twice, then reset, then marked at 8 s and 9.5 s. *)
Lemma monitor_pending_until_marked_witness :
  secsSinceLast
    (status 12500
       (run (new 1 5 30)
            [MarkHealthy 1000; MarkHealthy 4000; Reset 5000;
             MarkHealthy 8000; MarkHealthy 9500])) = Finite 3.
Proof.
  exact (proj1 (proj2 (proj2 (monitor_pending_until_marked 1 5 30
                                [MarkHealthy 1000; MarkHealthy 4000; Reset 5000;
                                 MarkHealthy 8000; MarkHealthy 9500] 12500)))
               [8000] 9500 eq_refl).
Defined.

Lemma runTimed_snoc (m : t) (calls : list TimedCall) (c : TimedCall) :
  runTimed m (calls ++ [c]) = timedCall (runTimed m calls) c.
Proof. unfold runTimed. rewrite fold_left_app. reflexivity. Qed.

Lemma timedMarksSinceReset_mark (calls : list TimedCall) (tRestart tFirst : Z) :
  timedMarksSinceReset (calls ++ [MarkHealthyAt tRestart tFirst]) =
    timedMarksSinceReset calls ++ [(tRestart, tFirst)].
Proof. unfold timedMarksSinceReset. rewrite rev_unit. reflexivity. Qed.

Lemma timedMarksSinceReset_reset (calls : list TimedCall) (now : Z) :
  timedMarksSinceReset (calls ++ [ResetAt now]) = [].
Proof. unfold timedMarksSinceReset. rewrite rev_unit. reflexivity. Qed.

Lemma clockAdvances_app (times later : list Z) (t : Z) :
  forall from,
    clockAdvances from (times ++ t :: later) ->
    clockAdvances from (times ++ [t]) /\ clockAdvances t later.
Proof.
  induction times as [| u times IH]; intros from H.
  - destruct H as [H L]. split; [split; [exact H | exact I] | exact L].
  - destruct H as [H L]. destruct (IH u L) as [A B].
    split; [split; [exact H | exact A] | exact B].
Qed.

Lemma floor_within_gap (x y gap : Z) :
  x <= y + gap -> x / 1000 <= y / 1000 + (gap + 999) / 1000.
Proof.
  intros H.
  pose proof (Z.div_mod x 1000 ltac:(lia)).
  pose proof (Z.mod_pos_bound x 1000 ltac:(lia)).
  pose proof (Z.div_mod y 1000 ltac:(lia)).
  pose proof (Z.mod_pos_bound y 1000 ltac:(lia)).
  pose proof (Z.div_mod (gap + 999) 1000 ltac:(lia)).
  pose proof (Z.mod_pos_bound (gap + 999) 1000 ltac:(lia)).
  lia.
Qed.

(** What the fields of a monitor hold after a history whose clock has not
    run backwards up to [clock]: the restart reading of the newest mark and
    the second reading of the oldest mark since the last reset. *)
Lemma timed_run_fields (now0 delay fatal : Z) (calls : list TimedCall) :
  forall clock,
    clockAdvances now0 (List.concat (map readings calls) ++ [clock]) ->
    let m := runTimed (new now0 delay fatal) calls in
    Stopwatch.autoStart (swLastHealthyEvent m) = false /\
    0 <= firstMarkGap calls /\
    match timedMarksSinceReset calls with
    | [] =>
        Stopwatch.tsStart (swLastHealthyEvent m) = None /\ firstHealthyEvent m = None
    | (_, first) :: _ =>
        exists last,
          Stopwatch.tsStart (swLastHealthyEvent m) = Some last /\
          firstHealthyEvent m = Some first /\
          last <= clock /\ first <= clock /\ first <= last + firstMarkGap calls
    end.
Proof.
  induction calls as [| c calls IH] using rev_ind; intros clock Hclock m.
  - split; [reflexivity |]. split; [discriminate |]. split; reflexivity.
  - subst m. rewrite runTimed_snoc.
    rewrite map_app, concat_app in Hclock. cbn [map List.concat] in Hclock.
    rewrite app_nil_r, <- app_assoc in Hclock.
    destruct c as [tRestart tFirst | now].
    + cbn [readings app] in Hclock.
      apply clockAdvances_app in Hclock. destruct Hclock as [Hpast (Ha & Hb & _)].
      destruct (IH tRestart Hpast) as (Auto & Gap & Fields). clear IH.
      unfold firstMarkGap in *. rewrite timedMarksSinceReset_mark.
      cbn [timedCall markHealthyAt swLastHealthyEvent firstHealthyEvent
           Stopwatch.restart Stopwatch.autoStart Stopwatch.tsStart].
      split; [exact Auto |].
      destruct (timedMarksSinceReset calls) as [| [a1 b1] rest].
      * destruct Fields as [_ F]. rewrite F. cbn [app].
        split; [lia |]. exists tRestart. repeat split; lia.
      * destruct Fields as (last & _ & F & Hl & Hf & _). rewrite F.
        assert (Z0 : match ((a1, b1) :: rest) ++ [(tRestart, tFirst)] with
                     | [(r, f)] => f - r
                     | _ => 0
                     end = 0) by (destruct rest; reflexivity).
        rewrite Z0. cbn [app].
        split; [lia |]. exists tRestart. repeat split; lia.
    + cbn [readings app] in Hclock.
      destruct (IH clock Hclock) as (Auto & _ & _). clear IH.
      unfold firstMarkGap. rewrite timedMarksSinceReset_reset.
      cbn [timedCall reset swLastHealthyEvent firstHealthyEvent].
      unfold Stopwatch.reset. rewrite Auto.
      split; [reflexivity |]. split; [lia |]. split; reflexivity.
Qed.

(** X6: when the clock never runs backwards over the readings of a history
    and of the status reading that follows, [secsSinceLast] is above
    [secsSinceFirst] by no more than the time between the two clock readings
    of a [markHealthy()] that is the only one since construction or the last
    [reset()], rounded up to whole seconds; so after a second
    [markHealthy()], or when the first one read the same time twice,
    [secsSinceLast] is not above [secsSinceFirst] ([Infinity] being above
    every number). *)
Theorem monitor_last_within_first :
  forall (now0 delay fatal : Z) (calls : list TimedCall)
         (tFatal tDelay tLast tFirst : Z),
    clockAdvances now0 (List.concat (map readings calls) ++ [tLast; tFirst]) ->
    let st := statusAt tFatal tDelay tLast tFirst (runTimed (new now0 delay fatal) calls) in
    0 <= firstMarkGap calls /\
    secsLeWithin (firstMarkGap calls) (secsSinceLast st) (secsSinceFirst st) /\
    (firstMarkGap calls = 0 -> secsLe (secsSinceLast st) (secsSinceFirst st)).
Proof.
  intros now0 delay fatal calls tFatal tDelay tLast tFirst Hclock st.
  apply clockAdvances_app in Hclock. destruct Hclock as [Hpast [Hread _]].
  destruct (timed_run_fields now0 delay fatal calls tLast Hpast) as (_ & Gap & Fields).
  split; [exact Gap |].
  subst st. unfold statusAt; cbn [secsSinceLast secsSinceFirst].
  unfold Stopwatch.elapsed.
  destruct (timedMarksSinceReset calls) as [| [a1 b1] rest].
  - destruct Fields as [-> ->]. split; [exact I | intros _; exact I].
  - destruct Fields as (last & -> & -> & Hl & Hf & Hg).
    destruct (b1 =? 0); [split; [exact I | intros _; exact I] |].
    cbn [secsLeWithin secsLe]. split.
    + apply floor_within_gap. lia.
    + intros Z0. apply Z.div_le_mono; lia.
Qed.

(** A monitor marked twice, reset, and marked at 8 s and 9.5 s, each mark
    reading the clock twice a millisecond apart, read at 12.5 s: 3 s since
    the last mark, 4 s since the first since the reset. *)
Lemma monitor_last_within_first_witness :
  secsLe
    (secsSinceLast
       (statusAt 12500 12500 12500 12501
          (runTimed (new 1 5 30)
             [MarkHealthyAt 1000 1001; MarkHealthyAt 4000 4000; ResetAt 5000;
              MarkHealthyAt 8000 8001; MarkHealthyAt 9500 9501])))
    (secsSinceFirst
       (statusAt 12500 12500 12500 12501
          (runTimed (new 1 5 30)
             [MarkHealthyAt 1000 1001; MarkHealthyAt 4000 4000; ResetAt 5000;
              MarkHealthyAt 8000 8001; MarkHealthyAt 9500 9501]))).
Proof.
  apply (proj2 (proj2 (monitor_last_within_first 1 5 30
           [MarkHealthyAt 1000 1001; MarkHealthyAt 4000 4000; ResetAt 5000;
            MarkHealthyAt 8000 8001; MarkHealthyAt 9500 9501]
           12500 12500 12500 12501 ltac:(simpl; lia)))).
  reflexivity.
Defined.

(** After a single [markHealthy()] whose two readings are 999 and 1000, read
    at 1999: one second since the last mark, none since the first. *)
Example last_above_first_after_one_mark :
  let st := statusAt 1999 1999 1999 1999
              (runTimed (new 0 5 30) [MarkHealthyAt 999 1000]) in
  secsSinceLast st = Finite 1 /\ secsSinceFirst st = Finite 0 /\
  firstMarkGap [MarkHealthyAt 999 1000] = 1.
Proof. repeat split. Qed.

End MonitorHistory.

(** ** Monitor issues *)

Lemma truthy_nonempty (text : string) : truthy text = true <-> text <> ""%string.
Proof.
  unfold truthy. rewrite negb_true_iff. split.
  - intros H E. apply String.eqb_eq in E. congruence.
  - intros H. apply String.eqb_neq. exact H.
Qed.

Lemma issue_fold (calls : list MonitorIssue.Call) (m : MonitorIssue.t) :
  MonitorIssue.title (fold_left MonitorIssue.call calls m) =
    MonitorIssue.titleGiven (MonitorIssue.title m) calls /\
  MonitorIssue.infos (fold_left MonitorIssue.call calls m) =
    MonitorIssue.infos m ++ MonitorIssue.infosGiven calls /\
  MonitorIssue.details (fold_left MonitorIssue.call calls m) =
    MonitorIssue.details m ++ MonitorIssue.detailsGiven calls.
Proof.
  revert m. induction calls as [| c calls IH]; intros m.
  - simpl. rewrite !app_nil_r. repeat split.
  - simpl fold_left. destruct (IH (MonitorIssue.call m c)) as (Ht & Hi & Hd).
    rewrite Ht, Hi, Hd. clear IH Ht Hi Hd.
    destruct c as [title' | [text |] | [text |]]; simpl;
      try (repeat split; reflexivity);
      unfold MonitorIssue.addInfo, MonitorIssue.addDetail;
      destruct (truthy text); simpl; rewrite <- ?app_assoc; repeat split.
Qed.

Lemma infosGiven_truthy (calls : list MonitorIssue.Call) :
  Forall (fun text => truthy text = true) (MonitorIssue.infosGiven calls).
Proof.
  induction calls as [| c calls IH]; [constructor |].
  destruct c as [title' | [text |] | detail]; simpl; try exact IH.
  destruct (truthy text) eqn:T; [constructor; assumption | exact IH].
Qed.

Lemma detailsGiven_truthy (calls : list MonitorIssue.Call) :
  Forall (fun text => truthy text = true) (MonitorIssue.detailsGiven calls).
Proof.
  induction calls as [| c calls IH]; [constructor |].
  destruct c as [title' | info | [text |]]; simpl; try exact IH.
  destruct (truthy text) eqn:T; [constructor; assumption | exact IH].
Qed.

Lemma filter_all_true (A : Type) (f : A -> bool) (l : list A) :
  Forall (fun a => f a = true) l -> filter f l = l.
Proof.
  induction 1 as [| a l Ha _ IH]; [reflexivity |].
  simpl. rewrite Ha, IH. reflexivity.
Qed.

(** X7: after any history of [setTitle], [addInfo] and [addDetail] calls an
    issue holds the last title set, and as infos and details the texts it
    was given in the order of the calls, [undefined] and empty texts left
    out; so no info or detail is ever empty, and the non-empty entries of
    [all] are the title (when it is not empty), then the infos, then the
    details. *)
Theorem monitor_issue_history :
  forall (title0 : string) (calls : list MonitorIssue.Call),
    let m := MonitorIssue.run title0 calls in
    MonitorIssue.title m = MonitorIssue.titleGiven title0 calls /\
    MonitorIssue.infos m = MonitorIssue.infosGiven calls /\
    MonitorIssue.details m = MonitorIssue.detailsGiven calls /\
    Forall (fun text => text <> ""%string) (MonitorIssue.infos m ++ MonitorIssue.details m) /\
    filter truthy (MonitorIssue.all m) =
      (if truthy (MonitorIssue.title m) then [MonitorIssue.title m] else [])
      ++ MonitorIssue.infos m ++ MonitorIssue.details m.
Proof.
  intros title0 calls m.
  destruct (issue_fold calls (MonitorIssue.new title0)) as (Ht & Hi & Hd).
  fold (MonitorIssue.run title0 calls) in Ht, Hi, Hd. fold m in Ht, Hi, Hd.
  simpl in Ht, Hi, Hd.
  assert (T : Forall (fun text => truthy text = true)
                     (MonitorIssue.infos m ++ MonitorIssue.details m)).
  { rewrite Hi, Hd. apply Forall_app.
    split; [apply infosGiven_truthy | apply detailsGiven_truthy]. }
  split; [exact Ht |]. split; [exact Hi |]. split; [exact Hd |]. split.
  - eapply Forall_impl; [| exact T]. intros text. apply truthy_nonempty.
  - unfold MonitorIssue.all. simpl filter.
    rewrite (filter_all_true _ truthy _ T).
    destruct (truthy (MonitorIssue.title m)); reflexivity.
Qed.

Lemma clean_fold (entries : list MonitorIssueEntry) (acc : list string) :
  fold_left (fun cleanIssues issue => cleanIssues ++ cleanEntry issue) entries acc =
    acc ++ flat_map cleanEntry entries.
Proof.
  revert acc. induction entries as [| e entries IH]; intros acc; simpl.
  - rewrite app_nil_r. reflexivity.
  - rewrite IH, app_assoc. reflexivity.
Qed.

Lemma cleanMonitorIssuesArray_flat (entries : list MonitorIssueEntry) :
  cleanMonitorIssuesArray (Some entries) = flat_map cleanEntry entries.
Proof. unfold cleanMonitorIssuesArray. apply clean_fold. Qed.

Lemma cleanEntry_truthy (e : MonitorIssueEntry) :
  Forall (fun text => truthy text = true) (cleanEntry e).
Proof.
  destruct e as [| text | m]; cbn [cleanEntry].
  - constructor.
  - destruct (truthy text) eqn:T; simpl; [| constructor].
    constructor; [exact T | constructor].
  - apply Forall_forall. intros text H. apply filter_In in H. exact (proj2 H).
Qed.

Lemma clean_truthy (issues : option (list MonitorIssueEntry)) :
  Forall (fun text => truthy text = true) (cleanMonitorIssuesArray issues).
Proof.
  destruct issues as [entries |]; [| constructor].
  rewrite cleanMonitorIssuesArray_flat.
  induction entries as [| e entries IH]; [constructor |].
  simpl. apply Forall_app. split; [apply cleanEntry_truthy | exact IH].
Qed.

(** X8: [cleanMonitorIssuesArray] answers an argument that is [undefined]
    or not an array with the empty list, never yields an empty string, and
    cleaning its own output again changes nothing. *)
Theorem clean_issues_no_empty_text :
  forall issues : option (list MonitorIssueEntry),
    cleanMonitorIssuesArray None = [] /\
    Forall (fun text => text <> ""%string) (cleanMonitorIssuesArray issues) /\
    cleanMonitorIssuesArray (Some (map IssueText (cleanMonitorIssuesArray issues))) =
      cleanMonitorIssuesArray issues.
Proof.
  intros issues. split; [reflexivity |]. split.
  - eapply Forall_impl; [| apply clean_truthy]. intros text. apply truthy_nonempty.
  - rewrite cleanMonitorIssuesArray_flat.
    pose proof (clean_truthy issues) as T.
    induction T as [| text l Ht _ IH]; [reflexivity |].
    simpl. rewrite Ht. simpl. rewrite IH. reflexivity.
Qed.

(** X9: the clean list of a concatenation is the concatenation of the clean
    lists, entries keeping their order; a list of plain strings comes back
    without its empty strings; and an issue object built by any history
    contributes its title (when not empty), then the infos and the details
    it was given. *)
Theorem clean_issues_in_order :
  forall (front back : list MonitorIssueEntry),
    cleanMonitorIssuesArray (Some (front ++ back)) =
      cleanMonitorIssuesArray (Some front) ++ cleanMonitorIssuesArray (Some back) /\
    (forall texts : list string,
        cleanMonitorIssuesArray (Some (map IssueText texts)) = filter truthy texts) /\
    (forall (title0 : string) (calls : list MonitorIssue.Call),
        cleanMonitorIssuesArray (Some [IssueObject (MonitorIssue.run title0 calls)]) =
          (if truthy (MonitorIssue.titleGiven title0 calls)
           then [MonitorIssue.titleGiven title0 calls] else [])
          ++ MonitorIssue.infosGiven calls ++ MonitorIssue.detailsGiven calls).
Proof.
  intros front back. split; [| split].
  - rewrite !cleanMonitorIssuesArray_flat. apply flat_map_app.
  - intros texts. rewrite cleanMonitorIssuesArray_flat.
    induction texts as [| text texts IH]; [reflexivity |].
    simpl. rewrite IH. destruct (truthy text); reflexivity.
  - intros title0 calls. rewrite cleanMonitorIssuesArray_flat. simpl.
    rewrite app_nil_r.
    destruct (issue_fold calls (MonitorIssue.new title0)) as (Ht & Hi & Hd).
    fold (MonitorIssue.run title0 calls) in Ht, Hi, Hd. simpl in Ht, Hi, Hd.
    unfold MonitorIssue.all. simpl filter. rewrite Ht, Hi, Hd.
    rewrite (filter_all_true _ truthy
               (MonitorIssue.infosGiven calls ++ MonitorIssue.detailsGiven calls)).
    + destruct (truthy (MonitorIssue.titleGiven title0 calls)); reflexivity.
    + apply Forall_app. split; [apply infosGiven_truthy | apply detailsGiven_truthy].
Qed.

(** ** Time tags *)

Section TimeTags.
Import HealthEventMonitor.

Lemma secsSinceLast_of_run (now0 delay fatal : Z) (calls : list Call) (now : Z) :
  secsSinceLast (status now (run (new now0 delay fatal) calls)) =
    match at_last (marksSinceReset calls) with
    | Some last => Finite ((now - last) / 1000)
    | None => Infinity
    end.
Proof.
  unfold status; cbn [secsSinceLast]. unfold Stopwatch.elapsed.
  rewrite (proj2 (stopwatch_of_run now0 delay fatal calls)). reflexivity.
Qed.

(** X10: the time tags of two monitors that were never marked healthy since
    construction or their last reset read [--] for both, whatever the
    duration formatter does; for monitors that were marked they show the
    formatted whole seconds since each one's latest mark, unrounded; and the
    tag with the process time is the simple tag with the process time put in
    front. *)
Theorem time_tags_of_monitors :
  forall (secsToShortestDuration : Z -> option bool -> string)
         (b0 bDelay bFatal c0 cDelay cFatal : Z)
         (beats checks : list Call) (now processUptime : Z),
    let heartBeat := status now (run (new b0 bDelay bFatal) beats) in
    let healthCheck := status now (run (new c0 cDelay cFatal) checks) in
    let tags :=
      getMonitorTimeTags secsToShortestDuration heartBeat healthCheck processUptime in
    (marksSinceReset beats = [] -> marksSinceReset checks = [] ->
     simple tags = "(HB:--|HC:--)"%string /\
     withProc tags =
       ("(P:" ++ secsToShortestDuration processUptime None ++ "|HB:--|HC:--)")%string) /\
    (forall earlierB lastB earlierC lastC,
        marksSinceReset beats = earlierB ++ [lastB] ->
        marksSinceReset checks = earlierC ++ [lastC] ->
        simple tags =
          ("(HB:" ++ secsToShortestDuration ((now - lastB) / 1000) (Some false)
           ++ "|HC:" ++ secsToShortestDuration ((now - lastC) / 1000) (Some false)
           ++ ")")%string) /\
    (exists rest,
        simple tags = ("(" ++ rest)%string /\
        withProc tags =
          ("(P:" ++ secsToShortestDuration processUptime None ++ "|" ++ rest)%string).
Proof.
  intros fmt b0 bDelay bFatal c0 cDelay cFatal beats checks now processUptime
         heartBeat healthCheck tags.
  subst tags heartBeat healthCheck. unfold getMonitorTimeTags; cbn [simple withProc].
  rewrite !secsSinceLast_of_run.
  split; [| split].
  - intros -> ->. split; reflexivity.
  - intros earlierB lastB earlierC lastC -> ->. rewrite !at_last_snoc. reflexivity.
  - eexists. split; reflexivity.
Qed.

(** Two monitors that were reset and not marked since. *)
Lemma time_tags_of_monitors_witness :
  simple
    (getMonitorTimeTags (fun _ _ => "?"%string)
       (status 9000 (run (new 0 5 30) [MarkHealthy 1000; Reset 2000]))
       (status 9000 (run (new 0 10 60) []))
       120) = "(HB:--|HC:--)"%string.
Proof.
  exact (proj1 (proj1 (time_tags_of_monitors (fun _ _ => "?"%string)
                         0 5 30 0 10 60 [MarkHealthy 1000; Reset 2000] [] 9000 120)
                      eq_refl eq_refl)).
Defined.

End TimeTags.

(** ** Health check request *)

Lemma string_length_append (a b : string) :
  String.length (a ++ b) = (String.length a + String.length b)%nat.
Proof.
  induction a as [| c a IH]; [reflexivity |]. simpl. rewrite IH. reflexivity.
Qed.

Lemma string_length_prefix (n : nat) (s : string) :
  String.length (String.substring 0 n s) = Nat.min n (String.length s).
Proof.
  revert s. induction n as [| n IH]; intros s.
  - destruct s; reflexivity.
  - destruct s as [| c s]; [reflexivity |]. simpl. rewrite IH. reflexivity.
Qed.

Section HealthCheckFacts.
Context {imports : HealthCheckImports}.

(** X11: [fetchDynamicJson] succeeds exactly when the request got a
    response with status 200 whose body is not empty, does not contain
    [<html] once lower-cased, parses as JSON and passes the schema; the data
    it returns is the schema's output.  In every other case it returns an
    error (it never throws), and a failed request carries no debug data. *)
Theorem fetchDynamicJson_success_iff :
  forall (outcome : GotOutcome),
    (forall result,
        fetchDynamicJson outcome = FetchDynamicJsonSuccess result <->
        exists resp jsonData,
          outcome = Responded resp /\
          statusCode resp = 200 /\
          body resp <> ""%string /\
          includes "<html" (toLocaleLowerCase (body resp)) = false /\
          JSON_parse (body resp) = Some jsonData /\
          dynamicJsonSchema_safeParse jsonData = inr result) /\
    (forall message,
        outcome = RequestFailed message ->
        fetchDynamicJson outcome =
          FetchDynamicJsonError ("HealthCheck Request error: " ++ message)%string []) /\
    (forall resp,
        outcome = Responded resp -> statusCode resp <> 200 ->
        fetchDynamicJson outcome =
          FetchDynamicJsonError
            ("HealthCheck HTTP status: " ++ debugStatus resp)%string (debugDataOf resp)).
Proof.
  intros outcome. split; [| split].
  - intros result. split.
    + destruct outcome as [message | resp]; [discriminate |].
      unfold fetchDynamicJson.
      destruct (Z.eqb_spec (statusCode resp) 200) as [S | S]; [| discriminate].
      cbn [negb].
      destruct (Nat.eqb_spec (String.length (body resp)) 0) as [L | L]; [discriminate |].
      destruct (includes "<html" (toLocaleLowerCase (body resp))) eqn:H; [discriminate |].
      destruct (JSON_parse (body resp)) as [jsonData |] eqn:P; [| discriminate].
      destruct (dynamicJsonSchema_safeParse jsonData) as [zodError | parsed] eqn:V;
        [discriminate |].
      intros E. injection E as <-. exists resp, jsonData.
      repeat split; try assumption.
      intros B. rewrite B in L. apply L. reflexivity.
    + intros (resp & jsonData & -> & S & B & H & P & V).
      unfold fetchDynamicJson. rewrite S, H, P, V. cbn [Z.eqb negb Pos.eqb].
      destruct (Nat.eqb_spec (String.length (body resp)) 0) as [L | L]; [| reflexivity].
      destruct (body resp); [contradiction | discriminate].
  - intros message ->. reflexivity.
  - intros resp -> S. unfold fetchDynamicJson.
    destruct (Z.eqb_spec (statusCode resp) 200) as [S' | S']; [contradiction | reflexivity].
Qed.

(** X12: whenever a response came back, the debug data of an error has the
    eight fields [URL], [Status], [Server], [Location], [ContentType],
    [ContentLength], [BodyLength], [Body], in that order; its [Body] is the
    response body itself when that has at most 512 characters, and otherwise
    its first 512 characters followed by [[...]], so never more than 517
    characters. *)
Theorem fetchDynamicJson_debug_body :
  forall (resp : GotResponse) (error : string) (debugData : DebugData),
    fetchDynamicJson (Responded resp) = FetchDynamicJsonError error debugData ->
    map fst debugData =
      ["URL"; "Status"; "Server"; "Location"; "ContentType"; "ContentLength";
       "BodyLength"; "Body"]%string /\
    exists shown,
      debugField "Body" debugData = Some shown /\
      (String.length shown <= 517)%nat /\
      ((String.length (body resp) <= 512)%nat -> shown = body resp) /\
      ((512 < String.length (body resp))%nat ->
       shown = (String.substring 0 512 (body resp) ++ "[...]")%string /\
       String.length shown = 517%nat).
Proof.
  intros resp error debugData E.
  assert (D : debugData = debugDataOf resp).
  { unfold fetchDynamicJson in E.
    destruct (negb (statusCode resp =? 200)); [injection E as _ <-; reflexivity |].
    destruct (String.length (body resp) =? 0)%nat; [injection E as _ <-; reflexivity |].
    destruct (includes "<html" (toLocaleLowerCase (body resp)));
      [injection E as _ <-; reflexivity |].
    destruct (JSON_parse (body resp)) as [jsonData |];
      [| injection E as _ <-; reflexivity].
    destruct (dynamicJsonSchema_safeParse jsonData);
      [injection E as _ <-; reflexivity | discriminate]. }
  subst debugData. split; [reflexivity |].
  unfold debugDataOf, bodyCutoff. cbn [debugField String.eqb Ascii.eqb Bool.eqb andb].
  destruct (Nat.ltb_spec 512 (String.length (body resp))) as [L | L].
  - exists (String.substring 0 512 (body resp) ++ "[...]")%string.
    assert (Len : String.length (String.substring 0 512 (body resp) ++ "[...]") = 517%nat).
    { rewrite string_length_append, string_length_prefix.
      rewrite Nat.min_l by lia. reflexivity. }
    split; [reflexivity |]. split; [rewrite Len; apply le_n |].
    split; [intros H; lia | intros _; split; [reflexivity | exact Len]].
  - exists (body resp). split; [reflexivity |]. split; [lia |].
    split; [intros _; reflexivity | intros H; lia].
Qed.

End HealthCheckFacts.

(** A response that passes every check. *)
Lemma fetchDynamicJson_success_iff_witness :
  fetchDynamicJson (imports := sampleHealthCheckImports)
    (Responded (sampleResponse 200 "OK" "{clients:3}")) =
    FetchDynamicJsonSuccess (imports := sampleHealthCheckImports) 11%nat.
Proof.
  apply (proj1 (fetchDynamicJson_success_iff (imports := sampleHealthCheckImports)
                  (Responded (sampleResponse 200 "OK" "{clients:3}")))).
  exists (sampleResponse 200 "OK" "{clients:3}"), "{clients:3}"%string.
  split; [reflexivity |]. split; [reflexivity |]. split; [discriminate |].
  split; [reflexivity |]. split; reflexivity.
Defined.

(** A 404 response with a short body. *)
Lemma fetchDynamicJson_debug_body_witness :
  exists shown,
    debugField "Body" (debugDataOf (imports := sampleHealthCheckImports)
                         (sampleResponse 404 "Not Found" "no such page")) = Some shown /\
    (String.length shown <= 517)%nat.
Proof.
  destruct (fetchDynamicJson_debug_body (imports := sampleHealthCheckImports)
              (sampleResponse 404 "Not Found" "no such page")
              "HealthCheck HTTP status: 404 Not Found"
              (debugDataOf (imports := sampleHealthCheckImports)
                 (sampleResponse 404 "Not Found" "no such page"))
              eq_refl) as (_ & shown & F & L & _).
  exists shown. split; [exact F | exact L].
Defined.

(** ** Performance collector: the history file *)

Section HistoryFacts.
Context {imports : Imports}.

(** X13: [loadStatsHistory] never writes the file and never touches the
    memory caches; given a file whose version is the current one and that
    passes the schema it installs the file's boundaries and its log, run
    through the optimizer, and unsets both perf caches; given anything else
    (unreadable, not JSON, another or no version, schema failure) it leaves
    the collector exactly as it was. *)
Theorem loadStatsHistory_effect :
  forall (file : StatsFile) (s : PerformanceCollector),
    let s' := loadStatsHistory file s in
    (written s' = written s /\ lastFxsMemory s' = lastFxsMemory s /\
     lastNodeMemory s' = lastNodeMemory s) /\
    (forall statsData,
        file = FileData (Some STATS_DATA_FILE_VERSION) (Some statsData) ->
        statsLog s' = optimizeStatsLog (file_log statsData) /\
        lastPerfBoundaries s' = file_lastPerfBoundaries statsData /\
        lastPerfCounts s' = None /\ lastPerfSaved s' = None) /\
    ((forall statsData,
         file <> FileData (Some STATS_DATA_FILE_VERSION) (Some statsData)) ->
     s' = s).
Proof.
  intros file s s'. subst s'. unfold loadStatsHistory.
  split; [| split].
  - destruct file as [message | message | [v |] [statsData |]];
      try (repeat split; reflexivity);
      destruct (negb (v =? STATS_DATA_FILE_VERSION)); repeat split.
  - intros statsData ->. cbn. repeat split.
  - intros N. destruct file as [message | message | [v |] [statsData |]];
      try reflexivity.
    + destruct (Z.eqb_spec v STATS_DATA_FILE_VERSION) as [-> | Hv]; [| reflexivity].
      destruct (N statsData eq_refl).
    + destruct (negb (v =? STATS_DATA_FILE_VERSION)); reflexivity.
Qed.

Lemma saveStatsHistory_version (s : PerformanceCollector) :
  exists doc,
    written (saveStatsHistory s) = doc :: written s /\
    version doc = STATS_DATA_FILE_VERSION /\
    file_log doc = statsLog (saveStatsHistory s) /\
    file_lastPerfBoundaries doc = lastPerfBoundaries (saveStatsHistory s).
Proof. eexists. repeat split. Qed.

Lemma loadStatsHistory_readBack (doc : SSFileType) (s0 : PerformanceCollector) :
  version doc = STATS_DATA_FILE_VERSION ->
  statsLog (loadStatsHistory (readBack doc) s0) = optimizeStatsLog (file_log doc) /\
  lastPerfBoundaries (loadStatsHistory (readBack doc) s0) = file_lastPerfBoundaries doc /\
  lastPerfCounts (loadStatsHistory (readBack doc) s0) = None /\
  lastPerfSaved (loadStatsHistory (readBack doc) s0) = None.
Proof.
  intros V. unfold readBack, loadStatsHistory. rewrite V. cbn. repeat split.
Qed.

Lemma loadStatsHistory_frame (file : StatsFile) (s : PerformanceCollector) :
  (written (loadStatsHistory file s) = written s /\
   lastFxsMemory (loadStatsHistory file s) = lastFxsMemory s /\
   lastNodeMemory (loadStatsHistory file s) = lastNodeMemory s) /\
  (loadStatsHistory file s = s \/
   (lastPerfCounts (loadStatsHistory file s) = None /\
    lastPerfSaved (loadStatsHistory file s) = None)).
Proof.
  unfold loadStatsHistory.
  destruct file as [message | message | [v |] [statsData |]];
    try (split; [repeat split | left; reflexivity]);
    destruct (negb (v =? STATS_DATA_FILE_VERSION));
    (split; [repeat split | (left; reflexivity) || (right; split; reflexivity)]).
Qed.

(** What one event does to the list of written documents. *)
Lemma updateAndSave_written (now players : Z) (m : SSPerfCountsType)
  (g : PerformanceCollector) :
  written (updateAndSave now players m g) = written g \/
  exists doc,
    written (updateAndSave now players m g) = doc :: written g /\
    version doc = STATS_DATA_FILE_VERSION /\
    file_log doc = statsLog (updateAndSave now players m g) /\
    file_lastPerfBoundaries doc = lastPerfBoundaries g.
Proof.
  unfold updateAndSave. destruct (perfHistToSave _ _ _ _) as [hist |].
  - right. eexists. repeat split.
  - left. reflexivity.
Qed.

Lemma checkCounterReset_frame (m : SSPerfCountsType) (s : PerformanceCollector) :
  statsLog (checkCounterReset m s) = statsLog s /\
  lastPerfBoundaries (checkCounterReset m s) = lastPerfBoundaries s /\
  written (checkCounterReset m s) = written s.
Proof.
  unfold checkCounterReset.
  destruct (countsAbove m (lastPerfCounts s)); [repeat split |].
  destruct (countsAbove m _); repeat split.
Qed.

Lemma checkBoundaries_frame (b : SSPerfBoundariesType) (s : PerformanceCollector) :
  lastPerfBoundaries (checkBoundaries b s) = Some b /\
  written (checkBoundaries b s) = written s.
Proof.
  unfold checkBoundaries, boundaries_eqb.
  destruct (lastPerfCounts s), (lastPerfSaved s),
    (lastPerfBoundaries s) as [known |] eqn:K; try (split; reflexivity).
  destruct (list_eq_dec string_dec b known) as [-> | N];
    split; try reflexivity. exact K.
Qed.

Lemma atGate_frame (c : Cycle) (raw : RawPerfData) (s : PerformanceCollector) :
  lastPerfBoundaries (atGate c raw s) = Some (perfBoundaries raw) /\
  written (atGate c raw s) = written s.
Proof.
  unfold atGate.
  destruct (checkCounterReset_frame (perfMetrics raw)
              (checkBoundaries (perfBoundaries raw) (memoryFetched c s)))
    as (_ & -> & ->).
  destruct (checkBoundaries_frame (perfBoundaries raw) (memoryFetched c s)) as [-> ->].
  split; reflexivity.
Qed.

Lemma logServerBoot_saves (now bootTime : Z) (s : PerformanceCollector) :
  exists x,
    logServerBoot now bootTime s = saveStatsHistory x /\
    lastPerfBoundaries x = lastPerfBoundaries s /\
    written x = written s.
Proof.
  unfold logServerBoot. eexists. split; [reflexivity |].
  destruct (at_last (statsLog (resetMemoryState (resetPerfState s)))) as [[] |];
    split; reflexivity.
Qed.

(** Each event leaves the written documents alone or puts one document of
    the current version in front of them. *)
Lemma handleEvent_written (s : PerformanceCollector) (e : Event) :
  written (handleEvent s e) = written s \/
  exists doc,
    written (handleEvent s e) = doc :: written s /\
    version doc = STATS_DATA_FILE_VERSION.
Proof.
  destruct e as [[now bootTime | now reason | c] | payload | file];
    cbn [handleEvent perform].
  - right. destruct (logServerBoot_saves now bootTime s) as (x & -> & _ & W).
    eexists. split; [rewrite saveStatsHistory_written, W; reflexivity | reflexivity].
  - rewrite logServerClose_unfold.
    destruct (at_last (statsLog s)) as [[] |];
      try (left; reflexivity); right; eexists; split; reflexivity.
  - destruct (collectStats_cases c s) as [-> | [-> | (raw & _ & ->)]];
      [left; reflexivity | left; reflexivity |].
    destruct (updateAndSave_written (cycle_now c) (onlineCount c) (perfMetrics raw)
                (atGate c raw s)) as [W | (doc & W & V & _)].
    + left. rewrite W. apply atGate_frame.
    + right. exists doc. split; [| exact V].
      rewrite W, (proj2 (atGate_frame c raw s)). reflexivity.
  - left. unfold logServerNodeMemory.
    destruct (negb (LogNodeHeapEventSchema payload)); reflexivity.
  - left. exact (proj1 (proj1 (loadStatsHistory_frame file s))).
Qed.

Lemma handleEvents_versions (events : list Event) (s : PerformanceCollector) :
  Forall (fun doc => version doc = STATS_DATA_FILE_VERSION) (written s) ->
  Forall (fun doc => version doc = STATS_DATA_FILE_VERSION)
         (written (handleEvents s events)).
Proof.
  revert s. induction events as [| e events IH]; intros s H; [exact H |].
  apply IH. destruct (handleEvent_written s e) as [-> | (doc & -> & V)];
    [exact H | constructor; assumption].
Qed.

(** X14: a history file reads back what was saved.  With an optimizer that
    changes nothing when run on its own output, loading the document just
    written by [saveStatsHistory] into any collector gives the log and the
    boundaries of the collector that saved, with both perf caches unset; and
    every document a collector has written since construction, whatever
    happened to it, has the current version and loads to its own log run
    through the optimizer. *)
Theorem history_round_trip :
  (forall l, optimizeStatsLog (optimizeStatsLog l) = optimizeStatsLog l) ->
  forall (s s0 : PerformanceCollector),
    (exists doc,
        hd_error (written (saveStatsHistory s)) = Some doc /\
        statsLog (loadStatsHistory (readBack doc) s0) = statsLog (saveStatsHistory s) /\
        lastPerfBoundaries (loadStatsHistory (readBack doc) s0) =
          lastPerfBoundaries (saveStatsHistory s) /\
        lastPerfCounts (loadStatsHistory (readBack doc) s0) = None /\
        lastPerfSaved (loadStatsHistory (readBack doc) s0) = None) /\
    (forall events doc,
        In doc (written (handleEvents initial events)) ->
        version doc = STATS_DATA_FILE_VERSION /\
        statsLog (loadStatsHistory (readBack doc) s0) = optimizeStatsLog (file_log doc) /\
        lastPerfBoundaries (loadStatsHistory (readBack doc) s0) =
          file_lastPerfBoundaries doc).
Proof.
  intros Idem s s0. split.
  - destruct (saveStatsHistory_version s) as (doc & W & V & L & B).
    exists doc. rewrite W. split; [reflexivity |].
    destruct (loadStatsHistory_readBack doc s0 V) as (Hl & Hb & Hc & Hs).
    rewrite Hl, Hb, L, B, saveStatsHistory_log.
    split; [apply Idem |]. repeat split; assumption.
  - intros events doc I.
    assert (V : version doc = STATS_DATA_FILE_VERSION).
    { pose proof (handleEvents_versions events initial (Forall_nil _)) as F.
      rewrite Forall_forall in F. exact (F doc I). }
    split; [exact V |].
    destruct (loadStatsHistory_readBack doc s0 V) as (Hl & Hb & _).
    split; assumption.
Qed.

(** ** Performance collector: the saved baseline *)

Lemma baselineBehind_unset (s : PerformanceCollector) :
  lastPerfSaved s = None -> baselineBehind s.
Proof. intros E sv H. rewrite E in H. discriminate. Qed.

Lemma baselineBehind_same (s s' : PerformanceCollector) :
  lastPerfCounts s' = lastPerfCounts s -> lastPerfSaved s' = lastPerfSaved s ->
  baselineBehind s -> baselineBehind s'.
Proof. intros Ec Es B sv H. rewrite Es in H. rewrite Ec. exact (B sv H). Qed.

Lemma checkBoundaries_baseline (b : SSPerfBoundariesType) (s : PerformanceCollector) :
  baselineBehind s -> baselineBehind (checkBoundaries b s).
Proof.
  intros B. destruct (checkBoundaries_caches b s) as [[_ Hs] | ->];
    [apply baselineBehind_unset; exact Hs | exact B].
Qed.

(** After the counter-reset check the fetched count is not below the cached
    one any more. *)
Lemma checkCounterReset_post (m : SSPerfCountsType) (s : PerformanceCollector) :
  countsAbove m (lastPerfCounts (checkCounterReset m s)) = false /\
  (baselineBehind s -> baselineBehind (checkCounterReset m s)).
Proof.
  unfold checkCounterReset.
  destruct (countsAbove m (lastPerfCounts s)) eqn:A.
  - split; [reflexivity |]. intros _. apply baselineBehind_unset. reflexivity.
  - destruct (countsAbove m (option_map saved_counts (lastPerfSaved s))).
    + split; [exact A |]. intros _. apply baselineBehind_unset. reflexivity.
    + split; [exact A | auto].
Qed.

Lemma updateAndSave_baseline (now players : Z) (m : SSPerfCountsType)
  (g : PerformanceCollector) :
  countsAbove m (lastPerfCounts g) = false -> baselineBehind g ->
  baselineBehind (updateAndSave now players m g).
Proof.
  intros A B. unfold updateAndSave, perfHistToSave. cbn [lastPerfSaved set_lastPerfCounts].
  destruct (lastPerfSaved g) as [sv |] eqn:S.
  - destruct (PERF_DATA_INITIAL_RESOLUTION <=? now - saved_ts sv).
    + intros sv' H. cbn in H. injection H as <-. exists m. split; [reflexivity |].
      cbn. lia.
    + intros sv' H. cbn in H. rewrite S in H. injection H as <-.
      destruct (B sv S) as (c & Ec & Hle). exists m. split; [reflexivity |].
      unfold countsAbove in A. rewrite Ec in A. apply Z.ltb_ge in A. lia.
  - intros sv' H. cbn in H. injection H as <-. exists m. split; [reflexivity |].
    cbn. lia.
Qed.

Lemma handleEvent_baseline (s : PerformanceCollector) (e : Event) :
  baselineBehind s -> baselineBehind (handleEvent s e).
Proof.
  intros B. destruct e as [[now bootTime | now reason | c] | payload | file];
    cbn [handleEvent perform].
  - apply baselineBehind_unset.
    exact (proj1 (proj2 (logServerBoot_cleared now bootTime s))).
  - apply baselineBehind_unset.
    exact (proj1 (proj2 (logServerClose_cleared now reason s))).
  - destruct (collectStats_cases c s) as [-> | [-> | (raw & _ & ->)]];
      [exact B | exact B |].
    unfold atGate.
    destruct (checkCounterReset_post (perfMetrics raw)
                (checkBoundaries (perfBoundaries raw) (memoryFetched c s))) as [A K].
    apply updateAndSave_baseline; [exact A |].
    apply K, checkBoundaries_baseline. exact B.
  - unfold logServerNodeMemory.
    destruct (negb (LogNodeHeapEventSchema payload)); exact B.
  - destruct (proj2 (loadStatsHistory_frame file s)) as [-> | [_ Hs]];
      [exact B | apply baselineBehind_unset; exact Hs].
Qed.

(** X15: in every state a collector reaches from construction, whenever a
    saved baseline is set a last full sample is set too and its svMain count
    is not below the baseline's; hence in a cycle the counter-reset check
    either resets both caches or changes nothing: the branch that resets
    only [lastPerfSaved] is never taken. *)
Theorem saved_baseline_never_ahead :
  forall (events : list Event),
    let s := handleEvents initial events in
    (forall sv, lastPerfSaved s = Some sv ->
       exists cnt, lastPerfCounts s = Some cnt /\
                   Counts.count (svMain (saved_counts sv)) <= Counts.count (svMain cnt)) /\
    (forall c raw,
        let s1 := checkBoundaries (perfBoundaries raw) (memoryFetched c s) in
        checkCounterReset (perfMetrics raw) s1 =
          if countsAbove (perfMetrics raw) (lastPerfCounts s1)
          then resetPerfState s1 else s1).
Proof.
  intros events s.
  assert (B : baselineBehind s).
  { subst s. assert (G : forall evs s0, baselineBehind s0 ->
                                        baselineBehind (handleEvents s0 evs)).
    { induction evs as [| e evs IH]; intros s0 H; [exact H |].
      apply IH, handleEvent_baseline, H. }
    apply G, baselineBehind_unset. reflexivity. }
  split; [exact B |].
  intros c raw s1.
  assert (B1 : baselineBehind s1)
    by (apply checkBoundaries_baseline; exact B).
  unfold checkCounterReset.
  destruct (countsAbove (perfMetrics raw) (lastPerfCounts s1)) eqn:A; [reflexivity |].
  destruct (lastPerfSaved s1) as [sv |] eqn:S; [| reflexivity].
  destruct (B1 sv S) as (cnt & Ec & Hle).
  unfold countsAbove in A. rewrite Ec in A. apply Z.ltb_ge in A.
  cbn [option_map countsAbove].
  rewrite (proj2 (Z.ltb_ge _ _)) by lia. reflexivity.
Qed.

(** ** Performance collector: what a full cycle and a boot leave behind *)

Lemma updateAndSave_boundaries (now players : Z) (m : SSPerfCountsType)
  (g : PerformanceCollector) :
  lastPerfBoundaries (updateAndSave now players m g) = lastPerfBoundaries g.
Proof.
  unfold updateAndSave. destruct (perfHistToSave _ _ _ _); reflexivity.
Qed.

(** X16: a cycle that passes the counter fetch and the tick check returns
    normally and leaves the collector with the fetched boundaries as its
    known boundaries and the fetched counters as its last full sample; it
    writes at most one document, and that document holds the fetched
    boundaries and the log as the cycle leaves it. *)
Theorem full_cycle_adopts_fetched_values :
  forall (c : Cycle) (raw : RawPerfData) (s : PerformanceCollector),
    reachesChecks c raw ->
    let s' := fst (collectStats c s) in
    snd (collectStats c s) = Returned /\
    lastPerfBoundaries s' = Some (perfBoundaries raw) /\
    lastPerfCounts s' = Some (perfMetrics raw) /\
    (written s' = written s \/
     written s' =
       {| version := STATS_DATA_FILE_VERSION;
          file_lastPerfBoundaries := Some (perfBoundaries raw);
          file_log := statsLog s' |} :: written s).
Proof.
  intros c raw s R s'. subst s'. rewrite (collectStats_full c s raw R). cbn [fst snd].
  destruct (atGate_frame c raw s) as [Gb Gw].
  split; [reflexivity |].
  split; [rewrite updateAndSave_boundaries; exact Gb |].
  split; [apply updateAndSave_counts |].
  destruct (updateAndSave_written (cycle_now c) (onlineCount c) (perfMetrics raw)
              (atGate c raw s)) as [W | (doc & W & V & L & B)].
  - left. rewrite W. exact Gw.
  - right. rewrite W, Gw. f_equal.
    destruct doc as [v b l]. cbn in V, L, B. rewrite V, L, B, Gb. reflexivity.
Qed.

(** X17: [logServerBoot] clears the perf and memory caches, keeps the known
    boundaries, drops a boot marker that ends the log, appends the new boot
    marker, runs the optimizer and writes exactly one document, which holds
    the resulting log. *)
Theorem logServerBoot_effect :
  forall (now bootTime : Z) (s : PerformanceCollector),
    let s' := logServerBoot now bootTime s in
    cachesCleared s' /\
    lastPerfBoundaries s' = lastPerfBoundaries s /\
    (forall l ts b,
        statsLog s = l ++ [svBoot ts b] ->
        statsLog s' = optimizeStatsLog (l ++ [svBoot now bootTime])) /\
    ((forall l ts b, statsLog s <> l ++ [svBoot ts b]) ->
     statsLog s' = optimizeStatsLog (statsLog s ++ [svBoot now bootTime])) /\
    written s' =
      {| version := STATS_DATA_FILE_VERSION;
         file_lastPerfBoundaries := lastPerfBoundaries s;
         file_log := statsLog s' |} :: written s.
Proof.
  intros now bootTime s s'. subst s'.
  split; [apply logServerBoot_cleared |].
  destruct (logServerBoot_saves now bootTime s) as (x & E & Hb & Hw).
  split; [rewrite E; exact Hb |].
  split; [| split].
  - intros l ts b L. rewrite logServerBoot_log, (at_last_eq _ _ _ _ L), L, removelast_last.
    reflexivity.
  - intros N. rewrite logServerBoot_log.
    destruct (at_last_cases _ (statsLog s)) as [[_ L] | (l & e & El & L)]; rewrite L;
      [reflexivity |].
    destruct e as [ts b | |]; try reflexivity. destruct (N l ts b El).
  - rewrite E, saveStatsHistory_written, saveStatsHistory_log, Hb, Hw. reflexivity.
Qed.

End HistoryFacts.

(** ** Performance collector: shape of the summary *)

Section SummaryFacts.
Context {imports : Imports}.

Lemma scan_buckets (acc : Scan) (q : SSLogType) :
  scanMatches acc q ->
  cumBuckets acc = map (fun i => bucketTicks i q) (seq 0 PERF_DATA_BUCKET_COUNT).
Proof.
  intros (L & N & _).
  apply (nth_ext _ _ 0%Qc 0%Qc).
  - rewrite length_map, length_seq. exact L.
  - intros j Hj. rewrite L in Hj. rewrite (N j Hj).
    rewrite (nth_indep _ 0%Qc (bucketTicks 0 q))
      by (rewrite length_map, length_seq; exact Hj).
    rewrite (map_nth (fun i => bucketTicks i q)), seq_nth by exact Hj.
    reflexivity.
Qed.

(** The loop variables are determined by the qualifying snapshots. *)
Lemma scanMatches_unique (a b : Scan) (q : SSLogType) :
  scanMatches a q -> scanMatches b q -> a = b.
Proof.
  intros Ha Hb.
  pose proof (scan_buckets a q Ha) as Ba. pose proof (scan_buckets b q Hb) as Bb.
  destruct Ha as (_ & _ & Ta & Sa & Pa & Fa & Na).
  destruct Hb as (_ & _ & Tb & Sb & Pb & Fb & Nb).
  destruct a, b. cbn in *. congruence.
Qed.

Lemma sumQc_map_div (A : Type) (f : A -> Qc) (d : Qc) (l : list A) :
  d <> 0%Qc ->
  sumQc (map (fun a => (f a / d)%Qc) l) = (sumQc (map f l) / d)%Qc.
Proof.
  intros Hd. induction l as [| a l IH]; simpl.
  - field. exact Hd.
  - rewrite IH. field. exact Hd.
Qed.

(** X18: a summary that is returned counts at least 36 snapshots and has
    one frequency per bucket; when the ticks of the snapshots do not sum to
    zero every frequency is a finite number and the frequencies sum to
    exactly 1; when they sum to zero, no frequency is a finite number. *)
Theorem summary_frequencies_sum_to_one :
  forall (now : Z) (s : PerformanceCollector) (summary : PerfSummary),
    Forall wellFormedEntry (statsLog s) ->
    getServerPerfSummary now s = Some summary ->
    (36 <= snaps summary)%nat /\
    snaps summary = List.length (qualifying now (statsLog s)) /\
    List.length (sum_freqs summary) = PERF_DATA_BUCKET_COUNT /\
    (totalTicks (qualifying now (statsLog s)) <> 0%Qc ->
     exists freqs,
       sum_freqs summary = map Some freqs /\ sumQc freqs = 1%Qc) /\
    (totalTicks (qualifying now (statsLog s)) = 0%Qc ->
     Forall (fun f => f = None) (sum_freqs summary)).
Proof.
  intros now s summary _ E.
  pose proof (scan_invariant now (statsLog s)) as M.
  pose proof (scan_buckets _ _ M) as B.
  destruct M as (L & _ & T & S & _).
  unfold getServerPerfSummary in E.
  set (acc := fold_left _ _ _) in *.
  destruct (Nat.ltb_spec (totalSnapshots acc) minSnapshots) as [Lt | Ge]; [discriminate |].
  injection E as <-. cbn [snaps sum_freqs].
  split; [exact Ge |]. split; [exact S |].
  split; [rewrite length_map; exact L |].
  rewrite B, T, map_map. set (q := qualifying now (statsLog s)).
  unfold fdiv. split.
  - intros Nz.
    exists (map (fun i => (bucketTicks i q / totalTicks q)%Qc)
                (seq 0 PERF_DATA_BUCKET_COUNT)).
    split.
    + rewrite map_map. apply map_ext. intros i.
      destruct (Qc_eq_dec (totalTicks q) 0); [contradiction | reflexivity].
    + rewrite (sumQc_map_div nat (fun i => bucketTicks i q) (totalTicks q) _ Nz).
      change (sumQc (map (fun i => bucketTicks i q) (seq 0 PERF_DATA_BUCKET_COUNT)))
        with (totalTicks q).
      field. exact Nz.
  - intros Z0. apply Forall_map, Forall_forall. intros i _.
    destruct (Qc_eq_dec (totalTicks q) 0); [reflexivity | contradiction].
Qed.

(** X19: the summary depends on the log only through its qualifying
    snapshots: two collectors whose logs have the same data entries of the
    last six hours with enough svMain ticks get the same answer, whatever
    older entries, thinner entries and boot or close markers surround them;
    in particular the answer is that for the qualifying snapshots alone. *)
Theorem summary_reads_qualifying_only :
  forall (now : Z) (s1 s2 : PerformanceCollector),
    Forall wellFormedEntry (statsLog s1) ->
    Forall wellFormedEntry (statsLog s2) ->
    (qualifying now (statsLog s1) = qualifying now (statsLog s2) ->
     getServerPerfSummary now s1 = getServerPerfSummary now s2) /\
    getServerPerfSummary now s1 =
      getServerPerfSummary now (set_statsLog (qualifying now (statsLog s1)) s1).
Proof.
  intros now s1 s2 _ _.
  assert (Same : forall a b,
             qualifying now (statsLog a) = qualifying now (statsLog b) ->
             getServerPerfSummary now a = getServerPerfSummary now b).
  { intros a b E. unfold getServerPerfSummary.
    pose proof (scan_invariant now (statsLog a)) as Ma.
    pose proof (scan_invariant now (statsLog b)) as Mb.
    rewrite E in Ma. rewrite (scanMatches_unique _ _ _ Ma Mb). reflexivity. }
  split; [apply Same |].
  apply Same. cbn [statsLog set_statsLog]. unfold qualifying.
  induction (statsLog s1) as [| e l IH]; [reflexivity |].
  simpl. destruct (qualifies now e) eqn:Q; [| exact IH].
  simpl. rewrite Q, <- IH. reflexivity.
Qed.

End SummaryFacts.

(** ** Discord interaction handler *)

Section DispatcherFacts.
Context {imports : DiscordImports}.

Lemma noHandlerResponse_shape (interaction : Interaction) :
  (isRepliable interaction = false /\ noHandlerResponse interaction = []) \/
  (isRepliable interaction = true /\
   exists content, noHandlerResponse interaction = [Reply content true]).
Proof.
  unfold noHandlerResponse. destruct (isRepliable interaction).
  - right. split; [reflexivity |]. eexists. reflexivity.
  - left. split; reflexivity.
Qed.

(** X20: the handler does nothing at all for an interaction of a bot user;
    for any interaction it executes at most one command handler and sends at
    most one reply; a reply follows an executed handler only when that
    handler threw, and then it is the error report, logged first; and the
    promise of the handler rejects only when that error report could not be
    sent. *)
Theorem dispatcher_replies_at_most_once :
  forall (interaction : Interaction),
    let effects := fst (interactionCreateHandler interaction) in
    let outcome := snd (interactionCreateHandler interaction) in
    (userBot interaction = true -> effects = [] /\ outcome = Resolves) /\
    (List.length (filter isExecute effects) <= 1)%nat /\
    (List.length (filter isReply effects) <= 1)%nat /\
    (forall handler,
        In (Execute handler) effects ->
        (execute handler interaction = None /\ effects = [Execute handler]) \/
        (exists message msg,
            execute handler interaction = Some message /\
            effects = [Execute handler; LogError msg; ReplyDanger msg true])) /\
    (forall reason,
        outcome = Rejects reason ->
        replyFails interaction = Some reason /\
        exists handler message,
          execute handler interaction = Some message /\ In (Execute handler) effects).
Proof.
  intros interaction effects outcome. subst effects outcome.
  unfold interactionCreateHandler.
  destruct (userBot interaction).
  { cbn. split; [auto |]. split; [lia |]. split; [lia |].
    split; [intros h []| discriminate]. }
  split; [discriminate |].
  assert (NoH : forall l,
             l = noHandlerResponse interaction ->
             (List.length (filter isExecute l) <= 1)%nat /\
             (List.length (filter isReply l) <= 1)%nat /\
             (forall handler, ~ In (Execute handler) l)).
  { intros l ->. destruct (noHandlerResponse_shape interaction)
      as [[_ ->] | [_ (content & ->)]]; cbn.
    - split; [lia |]. split; [lia |]. intros h [].
    - split; [lia |]. split; [lia |]. intros h [H | []]. discriminate. }
  destruct (isCommand interaction).
  - destruct (handlers (String_of (commandName interaction))) as [handler |].
    + destruct (execute handler interaction) as [message |] eqn:X; cbn [fst snd].
      * split; [cbn; lia |]. split; [cbn; lia |]. split.
        -- intros h [H | [H | [H | []]]]; try discriminate.
           injection H as <-. right. eexists. eexists. split; [exact X | reflexivity].
        -- intros reason. destruct (replyFails interaction) as [r |]; [| discriminate].
           intros H. injection H as <-. split; [reflexivity |].
           exists handler, message. split; [exact X | left; reflexivity].
      * split; [cbn; lia |]. split; [cbn; lia |]. split; [| discriminate].
        intros h [H | []]. injection H as <-. left. split; [exact X | reflexivity].
    + cbn [fst snd]. destruct (NoH _ eq_refl) as (A & B & C).
      split; [exact A |]. split; [exact B |].
      split; [intros h H; destruct (C h H) | discriminate].
  - cbn [fst snd]. destruct (NoH _ eq_refl) as (A & B & C).
    split; [exact A |]. split; [exact B |].
    split; [intros h H; destruct (C h H) | discriminate].
Qed.

Lemma handlers_own (name : string) :
  (handlers name = Some statusCommandHandler <-> name = "status"%string) /\
  (handlers name = Some whitelistCommandHandler <-> name = "whitelist"%string) /\
  (handlers name = Some infoCommandHandler <-> name = "info"%string).
Proof.
  unfold handlers.
  destruct (String.eqb_spec name "status") as [-> | N1];
    [repeat split; intros; try reflexivity; discriminate |].
  destruct (String.eqb_spec name "whitelist") as [-> | N2];
    [repeat split; intros; try reflexivity; discriminate |].
  destruct (String.eqb_spec name "info") as [-> | N3];
    [repeat split; intros; try reflexivity; discriminate |].
  destruct (inheritedName name);
    repeat split; intros H; try discriminate; contradiction.
Qed.

(** X21: for an interaction of a user that is not a bot, the status handler
    is executed exactly when the interaction is a command named [status],
    and likewise for [whitelist] and [info]; an interaction that is not a
    command (a button, say) only gets the no-handler reply, and only if it
    can be replied to. *)
Theorem dispatcher_runs_named_handler :
  forall (interaction : Interaction),
    userBot interaction = false ->
    let effects := fst (interactionCreateHandler interaction) in
    (In (Execute statusCommandHandler) effects <->
     isCommand interaction = true /\ commandName interaction = Some "status"%string) /\
    (In (Execute whitelistCommandHandler) effects <->
     isCommand interaction = true /\ commandName interaction = Some "whitelist"%string) /\
    (In (Execute infoCommandHandler) effects <->
     isCommand interaction = true /\ commandName interaction = Some "info"%string) /\
    (isCommand interaction = false ->
     interactionCreateHandler interaction = (noHandlerResponse interaction, Resolves) /\
     (isRepliable interaction = false -> effects = []) /\
     (isRepliable interaction = true -> exists content, effects = [Reply content true])).
Proof.
  intros interaction NotBot effects.
  assert (Own : forall handler name,
             (handlers (String_of (commandName interaction)) = Some handler <->
              String_of (commandName interaction) = name) ->
             name <> "undefined"%string ->
             (In (Execute handler) effects <->
              isCommand interaction = true /\ commandName interaction = Some name)).
  { intros handler name Hn Nu. subst effects. unfold interactionCreateHandler.
    rewrite NotBot.
    assert (Nm : String_of (commandName interaction) = name <->
                 commandName interaction = Some name).
    { destruct (commandName interaction) as [n |]; simpl.
      - split; [intros ->; reflexivity | intros H; injection H as ->; reflexivity].
      - split; [intros H; symmetry in H; contradiction | discriminate]. }
    destruct (isCommand interaction).
    - destruct (handlers (String_of (commandName interaction))) as [h |] eqn:Hh.
      + assert (Ex : In (Execute handler) (fst
                 match execute h interaction with
                 | Some message =>
                     ([Execute h;
                       LogError ("Error executing " ++ String_of (commandName interaction)
                                 ++ ": " ++ message);
                       ReplyDanger ("Error executing " ++ String_of (commandName interaction)
                                    ++ ": " ++ message) true],
                      match replyFails interaction with
                      | Some reason => Rejects reason
                      | None => Resolves
                      end)
                 | None => ([Execute h], Resolves)
                 end) <-> h = handler).
        { destruct (execute h interaction); cbn [fst]; split.
          - intros [H | [H | [H | []]]]; try discriminate. injection H as ->. reflexivity.
          - intros ->. left. reflexivity.
          - intros [H | []]. injection H as ->. reflexivity.
          - intros ->. left. reflexivity. }
        rewrite Ex. split.
        * intros ->. split; [reflexivity |]. apply Nm, Hn. reflexivity.
        * intros [_ H]. apply Nm, Hn in H. congruence.
      + split.
        * intros H. exfalso. cbn [fst] in H.
          destruct (noHandlerResponse_shape interaction)
            as [[_ E] | [_ (content & E)]]; rewrite E in H;
            [destruct H | destruct H as [H | []]; discriminate].
        * intros [_ H]. apply Nm, Hn in H. discriminate.
    - split; [| intros [H _]; discriminate].
      intros H. exfalso. cbn [fst] in H.
      destruct (noHandlerResponse_shape interaction)
        as [[_ E] | [_ (content & E)]]; rewrite E in H;
        [destruct H | destruct H as [H | []]; discriminate]. }
  destruct (handlers_own (String_of (commandName interaction))) as (Hs & Hw & Hi).
  split; [apply Own; [exact Hs | discriminate] |].
  split; [apply Own; [exact Hw | discriminate] |].
  split; [apply Own; [exact Hi | discriminate] |].
  intros NotCommand. subst effects. unfold interactionCreateHandler.
  rewrite NotBot, NotCommand. cbn [fst]. split; [reflexivity |].
  unfold noHandlerResponse. split; intros ->; [reflexivity | eexists; reflexivity].
Qed.

End DispatcherFacts.

(** * The further properties on concrete histories *)

Lemma keepNewest_idempotent (limit : nat) (l : SSLogType) :
  keepNewest limit (keepNewest limit l) = keepNewest limit l.
Proof.
  unfold keepNewest. rewrite length_skipn.
  replace (List.length l - (List.length l - limit) - limit)%nat with 0%nat by lia.
  reflexivity.
Qed.

(** A file of another version is ignored; the file a boot has written loads
    back. *)
Lemma loadStatsHistory_effect_witness :
  loadStatsHistory (imports := sampleImports)
    (FileData (Some 2) (Some (mkFile 2 None [svBoot 1000 100]))) running = running /\
  statsLog (loadStatsHistory (imports := sampleImports)
              (FileData (Some 1) (Some (mkFile 1 (Some edgesA) [svBoot 1000 100])))
              initial) = [svBoot 1000 100].
Proof.
  split.
  - apply (proj2 (proj2 (loadStatsHistory_effect (imports := sampleImports)
                           (FileData (Some 2) (Some (mkFile 2 None [svBoot 1000 100])))
                           running))).
    intros statsData H. discriminate H.
  - exact (proj1 (proj1 (proj2 (loadStatsHistory_effect (imports := sampleImports)
                                  (FileData (Some 1)
                                     (Some (mkFile 1 (Some edgesA) [svBoot 1000 100])))
                                  initial))
                        (mkFile 1 (Some edgesA) [svBoot 1000 100]) eq_refl)).
Defined.

(** Saving the running session and loading the file into a new collector. *)
Lemma history_round_trip_witness :
  exists doc,
    hd_error (written (saveStatsHistory (imports := sampleImports) running)) = Some doc /\
    statsLog (loadStatsHistory (imports := sampleImports) (readBack doc) initial) =
      statsLog (saveStatsHistory (imports := sampleImports) running).
Proof.
  destruct (proj1 (history_round_trip (imports := sampleImports)
                     (keepNewest_idempotent 100) running initial))
    as (doc & H & L & _).
  exists doc. split; [exact H | exact L].
Defined.

(** The running session: its saved baseline is not ahead of its last full
    sample. *)
Lemma saved_baseline_never_ahead_witness :
  exists cnt,
    lastPerfCounts (handleEvents (imports := sampleImports) initial runningEvents) =
      Some cnt /\
    Counts.count
      (svMain (saved_counts
                 {| saved_ts := 61000; saved_counts := sampleCounts 1000 700 200 100 |})) <=
    Counts.count (svMain cnt).
Proof.
  apply (proj1 (saved_baseline_never_ahead (imports := sampleImports) runningEvents)).
  vm_compute. reflexivity.
Defined.

(** A cycle at 121 s of the running session, with new boundaries. *)
Lemma full_cycle_adopts_fetched_values_witness :
  lastPerfBoundaries
    (fst (collectStats (imports := sampleImports)
            (sampleCycle 121000 edgesB (sampleCounts 2000 1500 300 200)) running)) =
    Some edgesB.
Proof.
  apply (full_cycle_adopts_fetched_values (imports := sampleImports)
           (sampleCycle 121000 edgesB (sampleCounts 2000 1500 300 200))
           {| perfBoundaries := edgesB; perfMetrics := sampleCounts 2000 1500 300 200 |}
           running).
  repeat split.
Defined.

(** A second boot right after a boot replaces the marker. *)
Lemma logServerBoot_effect_witness :
  statsLog (logServerBoot (imports := sampleImports) 5000 100
              (set_statsLog [svClose 500 "quit"; svBoot 1000 100] initial)) =
    [svClose 500 "quit"; svBoot 5000 100].
Proof.
  exact (proj1 (proj2 (proj2 (logServerBoot_effect (imports := sampleImports) 5000 100
                                (set_statsLog [svClose 500 "quit"; svBoot 1000 100] initial))))
               [svClose 500 "quit"%string] 1000 100 eq_refl).
Defined.

(** The summary of three hours of snapshots. *)
Lemma summary_frequencies_sum_to_one_witness :
  exists summary,
    getServerPerfSummary (imports := sampleImports) 10800000 threeHours = Some summary /\
    (36 <= snaps summary)%nat /\
    List.length (sum_freqs summary) = 3%nat.
Proof.
  destruct (getServerPerfSummary (imports := sampleImports) 10800000 threeHours)
    as [summary |] eqn:E; [| vm_compute in E; discriminate E].
  exists summary. split; [reflexivity |].
  destruct (summary_frequencies_sum_to_one (imports := sampleImports)
              10800000 threeHours summary) as (A & _ & B & _).
  - repeat constructor.
  - exact E.
  - split; [exact A | exact B].
Defined.

(** The three hours of snapshots with and without the boot marker in front. *)
Lemma summary_reads_qualifying_only_witness :
  getServerPerfSummary (imports := sampleImports) 10800000 threeHours =
  getServerPerfSummary (imports := sampleImports) 10800000
    (set_statsLog (tl (statsLog threeHours)) threeHours).
Proof.
  apply (proj1 (summary_reads_qualifying_only (imports := sampleImports) 10800000
                  threeHours (set_statsLog (tl (statsLog threeHours)) threeHours)
                  ltac:(repeat constructor) ltac:(repeat constructor))).
  vm_compute. reflexivity.
Defined.

(** A bot is ignored; a failing whitelist command is reported. *)
Lemma dispatcher_replies_at_most_once_witness :
  fst (interactionCreateHandler (imports := sampleDiscordImports)
         (mkInteraction true true false true "2" (Some "status"%string) None)) = [] /\
  (execute (DiscordImports := sampleDiscordImports) whitelistCommandHandler
     (sampleCommand "whitelist") = None /\
   fst (interactionCreateHandler (imports := sampleDiscordImports)
          (sampleCommand "whitelist")) = [Execute whitelistCommandHandler]
   \/
   exists message msg,
     execute (DiscordImports := sampleDiscordImports) whitelistCommandHandler
       (sampleCommand "whitelist") = Some message /\
     fst (interactionCreateHandler (imports := sampleDiscordImports)
            (sampleCommand "whitelist")) =
       [Execute whitelistCommandHandler; LogError msg; ReplyDanger msg true]).
Proof.
  split.
  - exact (proj1 (proj1 (dispatcher_replies_at_most_once (imports := sampleDiscordImports)
                           (mkInteraction true true false true "2"
                                          (Some "status"%string) None)) eq_refl)).
  - apply (proj1 (proj2 (proj2 (proj2 (dispatcher_replies_at_most_once
                                         (imports := sampleDiscordImports)
                                         (sampleCommand "whitelist")))))).
    left. reflexivity.
Defined.

(** The info command runs its handler; a button gets the no-handler reply. *)
Lemma dispatcher_runs_named_handler_witness :
  In (Execute infoCommandHandler)
     (fst (interactionCreateHandler (imports := sampleDiscordImports)
             (sampleCommand "info"))) /\
  interactionCreateHandler (imports := sampleDiscordImports) sampleButton =
    (noHandlerResponse sampleButton, Resolves).
Proof.
  split.
  - apply (proj1 (proj2 (proj2 (dispatcher_runs_named_handler
                                  (imports := sampleDiscordImports)
                                  (sampleCommand "info") eq_refl)))).
    split; reflexivity.
  - exact (proj1 (proj2 (proj2 (proj2 (dispatcher_runs_named_handler
                                         (imports := sampleDiscordImports)
                                         sampleButton eq_refl))) eq_refl)).
Defined.
